(** * extract_pairs_orthofinder_qfo.py: OrthoFinder pairwise predictions

    A shallow embedding of the three functions of the script
    ([extract_orthologous_pairs], [write_orthologous_pairs],
    [process_orthofinder_predictions]) and of its entry point, over a small
    model of the parts of Python and of the operating system they touch:
    [str] methods, exceptions, [warnings.warn], [open] and [os.scandir].

    The script's functions are computations in a state-and-exception monad
    over a world: a file system (a finite map from paths to directories and
    regular files), the messages given to [warnings.warn], and the trace of
    the system calls made. What the model leaves out: the decoding of bytes
    into text (texts are taken as decoded, so no read raises
    [UnicodeDecodeError]), directories that are there but may not be listed
    (every directory of the model can be), writes that fail once the file is
    open, warning filters other than the default one (a warning is recorded
    and the call returns), and the parsing of the command line. *)

From Stdlib Require Import Ascii.
From stdpp Require Import base strings list gmap propset.

(** ** Characters the script names *)

Definition LF : ascii := "010"%char.
Definition CR : ascii := "013"%char.
Definition TAB : ascii := "009"%char.
Definition SPACE : ascii := " "%char.
Definition COMMA : ascii := ","%char.
Definition PIPE : ascii := "|"%char.
Definition SLASH : ascii := "/"%char.

(** ** The [str] methods the script uses *)

Module Py.

(** [s.split(sep)] for a one-character separator: never the empty list,
    one more field than there are separators. *)
Fixpoint split (sep : ascii) (s : string) : list string :=
  match s with
  | EmptyString => [EmptyString]
  | String c s' =>
      if Ascii.eqb c sep then EmptyString :: split sep s'
      else match split sep s' with
           | field :: fields => String c field :: fields
           | [] => [String c EmptyString]
           end
  end.

(** [s.replace(old, new)] for a one-character [old]. *)
Fixpoint replace (old : ascii) (new : string) (s : string) : string :=
  match s with
  | EmptyString => EmptyString
  | String c s' =>
      if Ascii.eqb c old then new +:+ replace old new s'
      else String c (replace old new s')
  end.

(** [s.startswith(p)]. *)
Fixpoint startswith (s p : string) : bool :=
  match p, s with
  | EmptyString, _ => true
  | String _ _, EmptyString => false
  | String a p', String b s' => Ascii.eqb a b && startswith s' p'
  end.

(** [sub in s]: [sub] occurs in [s] at some position. *)
Fixpoint contains (sub s : string) : bool :=
  startswith s sub ||
  match s with
  | EmptyString => false
  | String _ s' => contains sub s'
  end.

(** [s.endswith(p)]. *)
Fixpoint endswith (s p : string) : bool :=
  String.eqb s p ||
  match s with
  | EmptyString => false
  | String _ s' => endswith s' p
  end.

(** [os.path.join(a, b)] on POSIX, for a [b] that does not start with a
    slash (a directory entry's name never does). *)
Definition join (a b : string) : string :=
  if String.eqb a EmptyString || endswith a (String SLASH EmptyString)
  then a +:+ b
  else a +:+ String SLASH b.

(** Iterating over a text file opened with the default [newline=None]:
    the lines, each with its terminator, where ["\r\n"] and a lone ["\r"]
    are handed over as ["\n"]. *)
Fixpoint lines (s : string) : list string :=
  match s with
  | EmptyString => []
  | String c s' =>
      if Ascii.eqb c LF then String LF EmptyString :: lines s'
      else if Ascii.eqb c CR then
        match s' with
        | String c' s'' =>
            if Ascii.eqb c' LF then String LF EmptyString :: lines s''
            else String LF EmptyString :: lines s'
        | EmptyString => [String LF EmptyString]
        end
      else match lines s' with
           | l :: ls => String c l :: ls
           | [] => [String c EmptyString]
           end
  end.

(** [s.rstrip(c)] for a one-character [c]. *)
Fixpoint rstrip (c : ascii) (s : string) : string :=
  match s with
  | EmptyString => EmptyString
  | String x s' =>
      match rstrip c s' with
      | EmptyString =>
          if Ascii.eqb x c then EmptyString else String x EmptyString
      | rest => String x rest
      end
  end.

(** [p[:p.rfind("/") + 1]]: the path up to its last slash, the slash
    included; empty when there is no slash. *)
Fixpoint head (p : string) : string :=
  match p with
  | EmptyString => EmptyString
  | String c p' =>
      match head p' with
      | EmptyString =>
          if Ascii.eqb c SLASH then String SLASH EmptyString else EmptyString
      | h => String c h
      end
  end.

(** [os.path.basename(p)]: what is behind the last slash. *)
Fixpoint basename (p : string) : string :=
  match p with
  | EmptyString => EmptyString
  | String c p' =>
      match head p' with
      | EmptyString => if Ascii.eqb c SLASH then p' else String c p'
      | _ => basename p'
      end
  end.

(** [os.path.dirname(p)]: what is before the last slash, without its
    trailing slashes unless it is slashes only. *)
Definition dirname (p : string) : string :=
  match rstrip SLASH (head p) with
  | EmptyString => head p
  | d => d
  end.

End Py.

(** ** Exceptions and the state monad of the model *)

(** The two exceptions the script can meet: an index out of range, and
    [EnvironmentError], which Python 3 defines as an alias of [OSError]. *)
Inductive exn := IndexError | OSError.

Definition is_IndexError (e : exn) : bool :=
  match e with IndexError => true | OSError => false end.
Definition is_EnvironmentError (e : exn) : bool :=
  match e with OSError => true | IndexError => false end.

Inductive result (A : Type) : Type :=
| Ok (a : A)
| Raise (e : exn).
Arguments Ok {A} a.
Arguments Raise {A} e.

(** A computation over a state [S] that returns or raises; the state
    survives an exception, as Python's heap and the file system do. *)
Definition M (S A : Type) : Type := S -> result A * S.

Definition ret {S A} (a : A) : M S A := fun s => (Ok a, s).
Definition raise {S A} (e : exn) : M S A := fun s => (Raise e, s).
Definition bind {S A B} (m : M S A) (k : A -> M S B) : M S B :=
  fun s => match m s with
           | (Ok a, s') => k a s'
           | (Raise e, s') => (Raise e, s')
           end.
Definition gets {S A} (f : S -> A) : M S A := fun s => (Ok (f s), s).
Definition modify {S} (f : S -> S) : M S unit := fun s => (Ok tt, f s).

Notation "x <- m ;; k" := (bind m (fun x => k))
  (at level 100, m at next level, right associativity).
Notation "m ;;; k" := (bind m (fun _ => k))
  (at level 100, right associativity).

(** [try: body except E: handler], where [catches] decides [isinstance(e, E)]. *)
Definition try_except {S A} (body : M S A) (catches : exn -> bool)
    (handler : M S A) : M S A :=
  fun s => match body s with
           | (Raise e, s') => if catches e then handler s' else (Raise e, s')
           | (Ok a, s') => (Ok a, s')
           end.

(** [for x in xs: body]; a [continue] is the body's return. *)
Fixpoint for_each {S A} (xs : list A) (body : A -> M S unit) : M S unit :=
  match xs with
  | [] => ret tt
  | x :: xs' => body x ;;; for_each xs' body
  end.

(** [l[i]]. *)
Definition index {A} (l : list A) (i : nat) : result A :=
  match l !! i with
  | Some x => Ok x
  | None => Raise IndexError
  end.

Definition lift {S A} (r : result A) : M S A := fun s => (r, s).

(** ** The operating system as the script sees it *)

(** A regular file: its text, whether [open] may read it and may append to
    it, and, for a device that fails while being read, the number of lines it
    hands over before the read raises. *)
Record file := {
  text : string;
  readable : bool;
  appendable : bool;
  read_fault : option nat
}.

(** A path names a directory, with the entry names [os.scandir] yields in
    its order and whether entries may be added to it, or a regular file, or
    nothing. An entry name with nothing at its path is an entry that is
    neither a directory nor a regular file. Paths are compared as strings: a
    file is known under the spelling [os.scandir] gives it,
    [os.path.join(directory, name)], and a path in another spelling is a path
    where nothing is. The current directory, in which a path without a slash
    lies, is the directory at the empty path. *)
Inductive node :=
| Dir (names : list string) (writable : bool)
| Reg (f : file).

Inductive mode := ModeR | ModeA.

(** What the script asks of the system, in order. *)
Inductive syscall :=
| Scandir (p : string)
| Open (p : string) (m : mode).

Record world := {
  fs : gmap string node;
  warned : list string;      (* the messages given to [warnings.warn] *)
  trace : list syscall
}.

Definition log (c : syscall) (w : world) : world :=
  {| fs := fs w; warned := warned w; trace := trace w ++ [c] |}.

Definition set_fs (m : gmap string node) (w : world) : world :=
  {| fs := m; warned := warned w; trace := trace w |}.

Definition add_warnings (msgs : list string) (w : world) : world :=
  {| fs := fs w; warned := warned w ++ msgs; trace := trace w |}.

Definition add_warning (msg : string) (w : world) : world :=
  add_warnings [msg] w.

(** [warnings.warn(msg)]. *)
Definition warn (msg : string) : M world unit := modify (add_warning msg).

Record DirEntry := {
  name : string;
  path : string;
  is_dir : bool;
  is_file : bool
}.

Definition node_is_dir (n : option node) : bool :=
  match n with Some (Dir _ _) => true | _ => false end.
Definition node_is_file (n : option node) : bool :=
  match n with Some (Reg _) => true | _ => false end.

Definition dir_entry (m : gmap string node) (dir : string) (nm : string) : DirEntry :=
  let p := Py.join dir nm in
  {| name := nm; path := p;
     is_dir := node_is_dir (m !! p);
     is_file := node_is_file (m !! p) |}.

(** [os.scandir(p)]: the entries of a directory, an [OSError] for anything
    else. *)
Definition scandir (p : string) : M world (list DirEntry) :=
  fun w =>
    let w' := log (Scandir p) w in
    match fs w !! p with
    | Some (Dir names _) => (Ok (map (dir_entry (fs w) p) names), w')
    | _ => (Raise OSError, w')
    end.

(** An open file being read: the lines it will hand over, and whether the
    read after the last of them raises. *)
Record reader := {
  r_lines : list string;
  r_fault : bool
}.

Definition reader_of (f : file) : reader :=
  match read_fault f with
  | None => {| r_lines := Py.lines (text f); r_fault := false |}
  | Some n => {| r_lines := take n (Py.lines (text f)); r_fault := true |}
  end.

(** [open(p)]. *)
Definition open_r (p : string) : M world reader :=
  fun w =>
    let w' := log (Open p ModeR) w in
    match fs w !! p with
    | Some (Reg f) =>
        if readable f then (Ok (reader_of f), w') else (Raise OSError, w')
    | _ => (Raise OSError, w')
    end.

(** [for line in file_handler: body]. *)
Definition for_lines {S} (h : reader) (body : string -> M S unit) : M S unit :=
  for_each (r_lines h) body ;;;
  if r_fault h then raise OSError else ret tt.

Definition new_file : file :=
  {| text := EmptyString; readable := true; appendable := true;
     read_fault := None |}.

(** A name a new file can get: not empty, and neither of the two names
    every directory has for itself and for its parent. *)
Definition ordinary (n : string) : bool :=
  negb (String.eqb n "") && negb (String.eqb n ".") && negb (String.eqb n "..").

(** A file can be created at a path where nothing is when the directory of
    the path is there and may be written to, and the path is the one an entry
    of that directory has: the name is an ordinary one and [os.path.join] of
    the directory and the name gives the path back. (A path spelled
    otherwise, as with a doubled slash before the name, is for the model a
    path in a directory it does not know.) *)
Definition creatable (m : gmap string node) (p : string) : bool :=
  match m !! Py.dirname p with
  | Some (Dir _ writable) =>
      writable && ordinary (Py.basename p)
      && String.eqb (Py.join (Py.dirname p) (Py.basename p)) p
  | _ => false
  end.

(** A directory gets an entry: a name it lists already stays where it is, a
    new name comes last. ([os.scandir] does not specify its order; what is
    proved of a run does not depend on the place of the new entry.) *)
Definition register (n : string) (names : list string) : list string :=
  if bool_decide (n ∈ names) then names else names ++ [n].

Definition enter (n : string) (nd : node) : node :=
  match nd with
  | Dir names writable => Dir (register n names) writable
  | Reg f => Reg f
  end.

(** Creating an empty file: the file is there, and its directory lists it. *)
Definition create (p : string) (m : gmap string node) : gmap string node :=
  <[p := Reg new_file]> (alter (enter (Py.basename p)) (Py.dirname p) m).

(** [open(p, "a")]: nothing is truncated; where there is nothing, a file is
    created if it can be, and the open raises if it cannot (the directory is
    missing, is no directory, or may not be written to). The handle is the
    path. *)
Definition open_a (p : string) : M world string :=
  fun w =>
    let w' := log (Open p ModeA) w in
    match fs w !! p with
    | Some (Reg f) =>
        if appendable f then (Ok p, w') else (Raise OSError, w')
    | Some (Dir _ _) => (Raise OSError, w')
    | None =>
        if creatable (fs w) p then (Ok p, set_fs (create p (fs w)) w')
        else (Raise OSError, w')
    end.

Definition append_text (s : string) (n : node) : node :=
  match n with
  | Reg f => Reg {| text := text f +:+ s; readable := readable f;
                    appendable := appendable f; read_fault := read_fault f |}
  | Dir names writable => Dir names writable
  end.

(** [file_handler.write(s)] on a handle opened for appending. *)
Definition write (file_handler : string) (s : string) : M world unit :=
  modify (fun w => set_fs (alter (append_text s) file_handler (fs w)) w).

(** ** Local variables *)

(** A function body with a mutable local of type [L] next to the world. *)
Definition in_world {L A} (m : M world A) : M (L * world) A :=
  fun s => match m s.2 with (r, w') => (r, (s.1, w')) end.

Definition with_local {L A} (init : L) (body : M (L * world) A) : M world A :=
  fun w => match body (init, w) with (r, s') => (r, s'.2) end.

Definition get_local {L} : M (L * world) L := gets fst.

(** [l.append(x)]. *)
Definition list_append {A} (x : A) : M (list A * world) unit :=
  modify (fun s => (s.1 ++ [x], s.2)).

(** ** The script *)

Definition tuple : Type := string * string.

Definition header_marker : string := "Orthogroup".

Definition tabs : string := String TAB EmptyString.
Definition newline : string := String LF EmptyString.

(** The body of the inner [try]: the two gene lists of a line. *)
Definition gene_fields (line : string) : result (list string * list string) :=
  let temp := Py.split TAB (Py.replace LF EmptyString line) in
  match index temp 1 with
  | Raise e => Raise e
  | Ok field1 =>
      let reference_genes := Py.split COMMA (Py.replace SPACE EmptyString field1) in
      match index temp 2 with
      | Raise e => Raise e
      | Ok field2 =>
          Ok (reference_genes,
              Py.split COMMA (Py.replace SPACE EmptyString field2))
      end
  end.

Definition row_warning (input_file line : string) : string :=
  "There is an issue with file '" +:+ input_file +:+ "' in line '" +:+ line +:+ "'.".

Definition open_warning (input_file : string) : string :=
  "Could not open file '" +:+ input_file +:+ "'.".

(** The two nested [for] loops over the genes of a line, inner body first. *)
Definition target_body (reference_id target : string) : M (list tuple * world) unit :=
  target_id <- lift (index (Py.split PIPE target) 1) ;;
  list_append (reference_id, target_id).

Definition reference_body (target_genes : list string) (reference : string)
    : M (list tuple * world) unit :=
  reference_id <- lift (index (Py.split PIPE reference) 1) ;;
  for_each target_genes (target_body reference_id).

Definition cross (reference_genes target_genes : list string)
    : M (list tuple * world) unit :=
  for_each reference_genes (reference_body target_genes).

(** The body of [for line in file_handler]. *)
Definition line_body (input_file line : string) : M (list tuple * world) unit :=
  if Py.contains header_marker line then ret tt
  else
    parsed <- try_except
                (fields <- lift (gene_fields line) ;; ret (Some fields))
                is_IndexError
                (in_world (warn (row_warning input_file line)) ;;; ret None) ;;
    match parsed with
    | None => ret tt
    | Some (reference_genes, target_genes) => cross reference_genes target_genes
    end.

Definition extract_orthologous_pairs (input_file : string) : M world (list tuple) :=
  with_local []
    (try_except
       (file_handler <- in_world (open_r input_file) ;;
        for_lines file_handler (line_body input_file))
       is_EnvironmentError
       (in_world (warn (open_warning input_file))) ;;;
     get_local).

Definition pair_line (p : tuple) : string :=
  p.1 +:+ tabs +:+ p.2 +:+ newline.

Definition write_orthologous_pairs (orthologous_pairs : list tuple)
    (output_file : string) : M world unit :=
  file_handler <- open_a output_file ;;
  for_each orthologous_pairs (fun p => write file_handler (pair_line p)).

Definition is_tsv (f : DirEntry) : bool :=
  is_file f && Py.endswith (path f) ".tsv".

(** The body of [for file in files]. *)
Definition file_body (out_file file : string) : M world unit :=
  orthologs <- extract_orthologous_pairs file ;;
  write_orthologous_pairs orthologs out_file.

(** The body of [for dir in predictions_subdirs]. *)
Definition dir_body (out_file dir : string) : M world unit :=
  entries <- scandir dir ;;
  let files := map path (List.filter is_tsv entries) in
  for_each files (file_body out_file).

Definition process_orthofinder_predictions (predictions out_file : string)
    : M world unit :=
  entries <- scandir predictions ;;
  let predictions_subdirs := map path (List.filter is_dir entries) in
  for_each predictions_subdirs (dir_body out_file).

(** The interpreter's exit status: 0 when the script returns, 1 when an
    exception reaches the top. *)
Definition exit_status {A} (r : result A) : nat :=
  match r with Ok _ => 0 | Raise _ => 1 end.

(** The [__main__] block, with the two required options already parsed. *)
Definition main (predictions out_file : string) (w : world) : nat * world :=
  match process_orthofinder_predictions predictions out_file w with
  | (r, w') => (exit_status r, w')
  end.

(** ** The vocabulary of the specification *)

(** The tab-separated fields of a line, the gene tokens of a field, the
    [|]-separated segments of a token. *)
Definition row_fields (line : string) : list string :=
  Py.split TAB (Py.replace LF EmptyString line).
Definition gene_tokens (field : string) : list string :=
  Py.split COMMA (Py.replace SPACE EmptyString field).
Definition segments (token : string) : list string :=
  Py.split PIPE token.
Definition second_segment (token : string) : string :=
  nth 1 (segments token) EmptyString.

Definition reference_field (line : string) : string :=
  nth 1 (row_fields line) EmptyString.
Definition target_field (line : string) : string :=
  nth 2 (row_fields line) EmptyString.

(** A token with an identifier: at least two segments. *)
Definition well_formed (token : string) : Prop := 2 <= length (segments token).

Definition is_header (line : string) : Prop :=
  Py.contains header_marker line = true.

(** Reference-major, target-minor. *)
Definition product (reference_ids target_ids : list string) : list tuple :=
  flat_map (fun r => map (fun t => (r, t)) target_ids) reference_ids.

(** The pairs of a row with three fields and well-formed tokens. *)
Definition row_pairs (line : string) : list tuple :=
  product (map second_segment (gene_tokens (reference_field line)))
          (map second_segment (gene_tokens (target_field line))).

(** A row the loop gets through: a header, a row of fewer than three
    fields, or a row whose tokens all have an identifier. *)
Definition short_row (line : string) : Prop := length (row_fields line) < 3.

Definition clean_row (line : string) : Prop :=
  Forall well_formed (gene_tokens (reference_field line)) /\
  Forall well_formed (gene_tokens (target_field line)).

Definition passable (line : string) : Prop :=
  is_header line \/ short_row line \/ clean_row line.

(** A row that is not a header, has its three fields, and has a token
    without a second segment in field 1 or field 2. *)
Definition bad_token_row (line : string) : Prop :=
  ~ is_header line /\ 3 <= length (row_fields line) /\
  Exists (fun t => ~ well_formed t)
    (gene_tokens (reference_field line) ++ gene_tokens (target_field line)).

(** What a passable line adds to the pairs and to the warnings. *)
Definition line_pairs (line : string) : list tuple :=
  if Py.contains header_marker line then []
  else if length (row_fields line) <? 3 then []
  else row_pairs line.

Definition line_warnings (input_file line : string) : list string :=
  if Py.contains header_marker line then []
  else if length (row_fields line) <? 3 then [row_warning input_file line]
  else [].

(** The file at a path cannot be opened for reading. *)
Definition unopenable (m : gmap string node) (p : string) : Prop :=
  match m !! p with
  | Some (Reg f) => readable f = false
  | _ => True
  end.

(** [open(p, "a")] succeeds: a regular file that may be appended to is
    there, or nothing is there and a file can be created. *)
Definition can_append (m : gmap string node) (p : string) : Prop :=
  match m !! p with
  | Some (Reg f) => appendable f = true
  | Some (Dir _ _) => False
  | None => creatable m p = true
  end.

(** The text at a path; the empty text where there is no file. *)
Definition text_at (m : gmap string node) (p : string) : string :=
  match m !! p with
  | Some (Reg f) => text f
  | _ => EmptyString
  end.

(** What reading one file gives, as a function of what is at its path:
    the script's own answer in a world that holds nothing else. *)
Definition solo (input_file : string) (n : option node) : world :=
  {| fs := match n with Some x => {[ input_file := x ]} | None => ∅ end;
     warned := []; trace := [] |}.

Definition file_outcome (n : option node) (input_file : string)
    : result (list tuple) :=
  (extract_orthologous_pairs input_file (solo input_file n)).1.

Definition file_warnings (n : option node) (input_file : string) : list string :=
  warned (extract_orthologous_pairs input_file (solo input_file n)).2.

(** The directory walk on a fixed file system: the entry names of a
    directory, the subdirectories of the root, the files of a subdirectory
    the walk selects, and the paths in it that end in [.tsv] whatever is
    there. *)
Definition dir_names (m : gmap string node) (d : string) : list string :=
  match m !! d with Some (Dir names _) => names | _ => [] end.

Definition subdirs (m : gmap string node) (root : string) : list string :=
  map path (List.filter is_dir (map (dir_entry m root) (dir_names m root))).

Definition tsv_files (m : gmap string node) (d : string) : list string :=
  map path (List.filter is_tsv (map (dir_entry m d) (dir_names m d))).

Definition input_files (m : gmap string node) (root : string) : list string :=
  flat_map (tsv_files m) (subdirs m root).

Definition tsv_paths (m : gmap string node) (d : string) : list string :=
  List.filter (fun p => Py.endswith p ".tsv") (map (Py.join d) (dir_names m d)).

(** The paths the walk can take for an input file: the paths that end in
    [.tsv] in a subdirectory of the root, those of the entries the
    subdirectory has and those an entry would have once a file is created
    there. *)
Definition candidates (m : gmap string node) (root : string) : propset string :=
  {[ p | p ∈ flat_map (tsv_paths m) (subdirs m root) \/
         (Py.endswith p ".tsv" = true /\ Py.dirname p ∈ subdirs m root) ]}.

(** The result of the file loop over a list of files, and the pairs it
    writes, on a file system whose input files do not change. *)
Fixpoint files_outcome (m : gmap string node) (files : list string)
    : result unit * list tuple :=
  match files with
  | [] => (Ok tt, [])
  | f :: rest =>
      match file_outcome (m !! f) f with
      | Ok pairs =>
          match files_outcome m rest with
          | (r, written) => (r, pairs ++ written)
          end
      | Raise e => (Raise e, [])
      end
  end.

(** The lines a list of pairs is written as. *)
Definition pairs_text (pairs : list tuple) : string :=
  foldr (fun p acc => pair_line p +:+ acc) EmptyString pairs.

(** The number of lines of the file at a path, as Python would read them. *)
Definition line_count (m : gmap string node) (p : string) : nat :=
  length (Py.lines (text_at m p)).

(** An input file that cannot stop the run: it cannot be opened, or every
    line read from it is passable. The pairs it gives. *)
Definition harmless (m : gmap string node) (f : string) : Prop :=
  match m !! f with
  | Some (Reg file) =>
      readable file = false \/ Forall passable (r_lines (reader_of file))
  | _ => True
  end.

Definition file_pairs (m : gmap string node) (f : string) : list tuple :=
  match m !! f with
  | Some (Reg file) =>
      if readable file then flat_map line_pairs (r_lines (reader_of file))
      else []
  | _ => []
  end.

(** An input file with a row of the bad kind after passable rows. *)
Definition fatal (m : gmap string node) (f : string) : Prop :=
  exists file pre line post,
    m !! f = Some (Reg file) /\ readable file = true /\
    r_lines (reader_of file) = pre ++ line :: post /\
    Forall passable pre /\ bad_token_row line.

(** The files the loop opens for reading: all of them, up to and with the
    first whose reading raises. *)
Fixpoint files_read (m : gmap string node) (files : list string) : list string :=
  match files with
  | [] => []
  | f :: rest =>
      f :: match file_outcome (m !! f) f with
           | Ok _ => files_read m rest
           | Raise _ => []
           end
  end.

(** The paths opened for reading, in a trace. *)
Definition reads (tr : list syscall) : list string :=
  omap (fun c => match c with Open p ModeR => Some p | _ => None end) tr.

(** The file an append leaves at the output path. *)
Definition appended (n : option node) (s : string) : file :=
  match n with
  | Some (Reg f) => {| text := text f +:+ s; readable := readable f;
                       appendable := appendable f; read_fault := read_fault f |}
  | _ => {| text := s; readable := true; appendable := true;
            read_fault := None |}
  end.

(** What the creation of the output file does to what is at the path of its
    directory: nothing, or the directory has got the entry of the output. *)
Definition grown (out : string) (a b : option node) : Prop :=
  a = b \/
  exists names writable,
    a = Some (Dir names writable) /\
    b = Some (Dir (register (Py.basename out) names) writable) /\
    Py.join (Py.dirname out) (Py.basename out) = out.

(** The file system once the output has been opened for appending: as it
    was when something was at the path, and else with the entry of the
    output in its directory. *)
Definition listed (out : string) (m : gmap string node) : gmap string node :=
  match m !! out with
  | None => alter (enter (Py.basename out)) (Py.dirname out) m
  | Some _ => m
  end.

(** The worlds a run goes through when it starts on [m0]: they differ from
    [m0] at the output path, and at the path of its directory by the entry
    of the output, and the output can be appended to. *)
Definition inv (out : string) (m0 : gmap string node) (w : world) : Prop :=
  (forall k, k <> out -> k <> Py.dirname out -> fs w !! k = m0 !! k) /\
  (Py.dirname out <> out ->
   grown out (m0 !! Py.dirname out) (fs w !! Py.dirname out)) /\
  can_append (fs w) out.

(** What the loop over [files] has done between two worlds. *)
Definition walked (out : string) (m0 : gmap string node) (files : list string)
    (w w' : world) : Prop :=
  inv out m0 w' /\
  text_at (fs w') out
  = text_at (fs w) out +:+ pairs_text (files_outcome m0 files).2 /\
  reads (trace w') = reads (trace w) ++ files_read m0 files /\
  (node_is_file (fs w !! out) = true \/
   ((files_outcome m0 files).1 = Ok tt /\ files <> []) ->
   node_is_file (fs w' !! out) = true).

(** A directory entry's name: not empty, no slash in it. *)
Fixpoint mentions (c : ascii) (s : string) : bool :=
  match s with
  | EmptyString => false
  | String c' s' => Ascii.eqb c' c || mentions c s'
  end.

Definition valid_name (n : string) : Prop :=
  n <> EmptyString /\ mentions SLASH n = false.

(** Every directory of a file system lists valid names. *)
Definition names_valid (m : gmap string node) : Prop :=
  map_Forall (fun _ nd =>
    match nd with Dir ns _ => Forall valid_name ns | Reg _ => True end) m.


(** A text that is empty or ends with a newline. *)
Fixpoint terminated (s : string) : bool :=
  match s with
  | EmptyString => true
  | String c s' =>
      match s' with
      | EmptyString => Ascii.eqb c LF
      | String _ _ => terminated s'
      end
  end.

(** The text is free of each of the characters. *)
Definition free_of (cs : list ascii) (s : string) : Prop :=
  Forall (fun c => mentions c s = false) cs.

(** The characters that delimit rows, fields, tokens and segments. *)
Definition delimiters : list ascii := [LF; TAB; SPACE; COMMA; PIPE].

(** What the creation of the output file does to what is at the path of its
    directory, whatever the place of the new entry in the listing: nothing,
    or the directory lists the name of the output besides the names it
    listed, which are in the order they were in. *)
Definition relisted (out : string) (a b : option node) : Prop :=
  a = b \/
  exists names names' writable,
    a = Some (Dir names writable) /\
    b = Some (Dir names' writable) /\
    (forall n, In n names' <-> In n names \/ n = Py.basename out) /\
    List.filter (fun n => negb (String.eqb n (Py.basename out))) names'
    = List.filter (fun n => negb (String.eqb n (Py.basename out))) names /\
    Py.join (Py.dirname out) (Py.basename out) = out.

(** Two file systems differ at most at the output path and, by the entry of
    the output, at the path of its directory; and at the output path alone
    when something was there. *)
Definition touches_only (out : string) (m m' : gmap string node) : Prop :=
  (forall k, k <> out -> k <> Py.dirname out -> m' !! k = m !! k) /\
  (Py.dirname out <> out ->
   relisted out (m !! Py.dirname out) (m' !! Py.dirname out)) /\
  (is_Some (m !! out) -> forall k, k <> out -> m' !! k = m !! k).

(** What a computation may do to a world with output path [out]: leave
    every other path as it is, but for the entry of the output that its
    directory gets when the output file is created; put text behind the
    output's text, keep a directory as it is and a file a file there, and add
    warnings and system calls behind the ones there are. *)
Definition extends (out : string) (w w' : world) : Prop :=
  (forall k, k <> out -> k <> Py.dirname out -> fs w' !! k = fs w !! k) /\
  (Py.dirname out <> out ->
   relisted out (fs w !! Py.dirname out) (fs w' !! Py.dirname out)) /\
  (exists delta, text_at (fs w') out = text_at (fs w) out +:+ delta) /\
  node_is_dir (fs w' !! out) = node_is_dir (fs w !! out) /\
  (node_is_dir (fs w !! out) = true -> fs w' !! out = fs w !! out) /\
  (node_is_file (fs w !! out) = true -> node_is_file (fs w' !! out) = true) /\
  (exists msgs, warned w' = warned w ++ msgs) /\
  (exists calls, trace w' = trace w ++ calls).

(** The result of a run whose output cannot be opened, over a list of input
    files: nothing is raised when there is no file, and else the first file
    decides, by the error of its reading or, when its reading returns, by the
    error of [open]. *)
Definition first_outcome (m : gmap string node) (files : list string)
    : result unit :=
  match files with
  | [] => Ok tt
  | f :: _ =>
      match file_outcome (m !! f) f with
      | Ok _ => Raise OSError
      | Raise e => Raise e
      end
  end.

(** A line from which the extractor takes nothing: it holds the marker, or
    it has fewer than three fields. *)
Definition inert_line (line : string) : Prop := is_header line \/ short_row line.

(** A text that reads as inert lines only, and behind which a text starts a
    new line. *)
Definition inert_text (t : string) : Prop :=
  terminated t = true /\ Forall inert_line (Py.lines t).

(** The worlds a run goes through when its output reads as inert lines,
    whether the output is among the inputs or not. *)
Definition inv_inert (out : string) (m0 : gmap string node) (w : world) : Prop :=
  inv out m0 w /\ inert_text (text_at (fs w) out).

(** The files of a list that are not the output. *)
Definition others (out : string) (files : list string) : list string :=
  List.filter (fun f => negb (String.eqb f out)) files.





(** The system calls a run may make with output path [out]: listing a
    directory, opening for reading a path that ends in [.tsv], opening the
    output path for appending. *)
Definition allowed (out : string) (c : syscall) : Prop :=
  match c with
  | Scandir _ => True
  | Open p ModeR => Py.endswith p ".tsv" = true
  | Open p ModeA => p = out
  end.

Definition calls_within (out : string) (w w' : world) : Prop :=
  exists calls, trace w' = trace w ++ calls /\ Forall (allowed out) calls.

(** ** Concrete inputs *)

Definition row (fields : list string) : string := String.concat tabs fields.

Definition plain_file (t : string) : file :=
  {| text := t; readable := true; appendable := true; read_fault := None |}.

Definition start (m : gmap string node) : world :=
  {| fs := m; warned := []; trace := [] |}.

(** The end-to-end example of the specification. *)
Definition qfo_header : string := row ["Orthogroup"; "Species1"; "Species2"].
Definition qfo_row : string :=
  row ["OG1"; "sp|P12345|GENE1, sp|P67890|GENE2"; "sp|Q11111|GENE3"].
Definition qfo_text : string := qfo_header +:+ newline +:+ qfo_row.
Definition qfo_world : world :=
  start {[ "Sp1__v__Sp2.tsv" := Reg (plain_file qfo_text) ]}.

(** A run that meets a gene token without a second segment: one
    subdirectory, one file, a good row and then a row whose reference token
    has no [|]. *)
Definition bad_row : string := row ["OG2"; "P99999"; "sp|Q22222|GENE4"].
Definition bad_text : string :=
  qfo_header +:+ newline +:+ qfo_row +:+ newline +:+ bad_row +:+ newline.
Definition bad_world : world :=
  start {[ "" := Dir ["preds"] true;
           "preds" := Dir ["Sp1"] true;
           "preds/Sp1" := Dir ["Sp1__v__Sp2.tsv"] true;
           "preds/Sp1/Sp1__v__Sp2.tsv" := Reg (plain_file bad_text) ]}.


(** A walk with an unreadable file in the first subdirectory and the
    example file in the second; a file at the root, a file two levels down
    and a file that is no [.tsv] lie about. The root lies in the current
    directory. *)
Definition locked_file : file :=
  {| text := qfo_text; readable := false; appendable := true;
     read_fault := None |}.
Definition two_dirs : gmap string node :=
  {[ "" := Dir ["preds"] true;
     "preds" := Dir ["Sp1"; "Sp2"; "top.tsv"] true;
     "preds/top.tsv" := Reg (plain_file qfo_text);
     "preds/Sp1" := Dir ["locked.tsv"; "notes.txt"; "deep"] true;
     "preds/Sp1/locked.tsv" := Reg locked_file;
     "preds/Sp1/notes.txt" := Reg (plain_file qfo_text);
     "preds/Sp1/deep" := Dir ["deeper.tsv"] true;
     "preds/Sp1/deep/deeper.tsv" := Reg (plain_file qfo_text);
     "preds/Sp2" := Dir ["Sp2__v__Sp1.tsv"] true;
     "preds/Sp2/Sp2__v__Sp1.tsv" := Reg (plain_file qfo_text) ]}.

(** The same walk, with an output file that holds a line already. *)
Definition old_output : gmap string node :=
  <["out.txt" := Reg (plain_file ("old line" +:+ newline))]> two_dirs.

(** A current directory with nothing in it. *)
Definition empty_dir : gmap string node := {[ "" := Dir [] true ]}.

(** A walk over one file that holds a header and nothing else. *)
Definition header_only : gmap string node :=
  {[ "" := Dir ["preds"] true;
     "preds" := Dir ["Sp1"] true;
     "preds/Sp1" := Dir ["Sp1__v__Sp2.tsv"] true;
     "preds/Sp1/Sp1__v__Sp2.tsv" := Reg (plain_file (qfo_header +:+ newline)) ]}.


(** ** Decision procedures *)

(** The properties of lines, names and files are decidable, and decided
    by evaluation. *)
#[global] Instance well_formed_dec token : Decision (well_formed token).
Proof. unfold well_formed. apply _. Defined.

#[global] Instance is_header_dec line : Decision (is_header line).
Proof. unfold is_header. apply _. Defined.

#[global] Instance passable_dec line : Decision (passable line).
Proof. unfold passable, short_row, clean_row. apply _. Defined.

#[global] Instance valid_name_dec n : Decision (valid_name n).
Proof. unfold valid_name. apply _. Defined.

#[global] Instance names_valid_dec m : Decision (names_valid m).
Proof.
  unfold names_valid. apply map_Forall_dec. intros _ [ns wr|f]; apply _.
Defined.

#[global] Instance can_append_dec m p : Decision (can_append m p).
Proof. unfold can_append. destruct (m !! p) as [[|]|]; apply _. Defined.

#[global] Instance candidates_dec m root p : Decision (p ∈ candidates m root).
Proof.
  refine (cast_if
            (decide (p ∈ flat_map (tsv_paths m) (subdirs m root) \/
                     (Py.endswith p ".tsv" = true /\
                      Py.dirname p ∈ subdirs m root))));
    unfold candidates; by rewrite elem_of_PropSet.
Defined.

#[global] Instance free_of_dec cs s : Decision (free_of cs s).
Proof. unfold free_of. apply _. Defined.

#[global] Instance harmless_dec m f : Decision (harmless m f).
Proof. unfold harmless. destruct (m !! f) as [[|]|]; apply _. Defined.

(** * Proofs *)

Ltac decided :=
  lazymatch goal with
  | |- ?P => apply (bool_decide_unpack P); vm_compute; exact I
  end.

(** ** The monad *)

Section MonadLemmas.
Context {S : Type}.

Lemma bind_ok {A B} (m : M S A) (k : A -> M S B) s a s' :
  m s = (Ok a, s') -> bind m k s = k a s'.
Proof. unfold bind. by intros ->. Qed.

Lemma bind_raise {A B} (m : M S A) (k : A -> M S B) s e s' :
  m s = (Raise e, s') -> bind m k s = (Raise e, s').
Proof. unfold bind. by intros ->. Qed.

Lemma for_each_app {A} (xs ys : list A) (body : A -> M S unit) s :
  for_each (xs ++ ys) body s =
  (for_each xs body ;;; for_each ys body) s.
Proof.
  revert s. induction xs as [|x xs IH]; intros s; simpl.
  - reflexivity.
  - unfold bind in *. destruct (body x s) as [[[]|e] s1]; [|reflexivity].
    apply IH.
Qed.

Lemma for_each_cons_ok {A} (x : A) xs (body : A -> M S unit) s s' :
  body x s = (Ok tt, s') ->
  for_each (x :: xs) body s = for_each xs body s'.
Proof. intros H. simpl. by rewrite (bind_ok _ _ _ _ _ H). Qed.

Lemma for_each_cons_raise {A} (x : A) xs (body : A -> M S unit) s e s' :
  body x s = (Raise e, s') ->
  for_each (x :: xs) body s = (Raise e, s').
Proof. intros H. simpl. by rewrite (bind_raise _ _ _ _ _ H). Qed.

End MonadLemmas.

(** ** Indexing *)

Lemma index_1_ok (l : list string) :
  2 <= length l -> index l 1 = Ok (nth 1 l EmptyString).
Proof.
  destruct l as [|a [|b l]]; simpl; intros H; try lia. reflexivity.
Qed.

Lemma index_1_raise (l : list string) :
  length l < 2 -> index l 1 = Raise IndexError.
Proof.
  destruct l as [|a [|b l]]; simpl; intros H; try lia; reflexivity.
Qed.

Lemma index_lt {A} (l : list A) i :
  i < length l -> exists x, l !! i = Some x /\ index l i = Ok x.
Proof.
  intros H. destruct (lookup_lt_is_Some_2 l i H) as [x Hx].
  exists x. unfold index. by rewrite Hx.
Qed.

Lemma index_ge {A} (l : list A) i :
  length l <= i -> index l i = Raise IndexError.
Proof.
  intros H. unfold index. by rewrite (lookup_ge_None_2 l i H).
Qed.

Lemma split_nonempty sep s : Py.split sep s <> [].
Proof.
  destruct s as [|c s]; simpl; [done|].
  destruct (Ascii.eqb c sep); [done|]. by destruct (Py.split sep s).
Qed.

(** ** The gene loops *)

Lemma cross_unfold reference_genes target_genes :
  cross reference_genes target_genes =
  for_each reference_genes (reference_body target_genes).
Proof. reflexivity. Qed.

Lemma target_body_ok (reference_id t : string) (o : list tuple) (w : world) :
  well_formed t ->
  target_body reference_id t (o, w)
  = (Ok tt, (o ++ [(reference_id, second_segment t)], w)).
Proof.
  intros Ht. unfold target_body, bind, lift.
  change (Py.split PIPE t) with (segments t).
  by rewrite (index_1_ok _ Ht).
Qed.

Lemma target_body_bad (reference_id t : string) (o : list tuple) (w : world) :
  ~ well_formed t ->
  target_body reference_id t (o, w) = (Raise IndexError, (o, w)).
Proof.
  intros Ht. unfold target_body, bind, lift.
  change (Py.split PIPE t) with (segments t).
  rewrite index_1_raise; [done|]. unfold well_formed in Ht. lia.
Qed.

Lemma targets_ok (reference_id : string) (target_genes : list string)
    (o : list tuple) (w : world) :
  Forall well_formed target_genes ->
  for_each target_genes (target_body reference_id) (o, w)
  = (Ok tt, (o ++ map (fun t => (reference_id, second_segment t)) target_genes, w)).
Proof.
  intros H. revert o. induction H as [|t ts Ht _ IH]; intros o.
  - simpl. by rewrite app_nil_r.
  - rewrite (for_each_cons_ok _ _ _ _ _ (target_body_ok _ _ _ _ Ht)).
    rewrite IH, <- app_assoc. reflexivity.
Qed.

Lemma targets_bad (reference_id : string) (target_genes : list string)
    (o : list tuple) (w : world) :
  Exists (fun t => ~ well_formed t) target_genes ->
  exists o',
    for_each target_genes (target_body reference_id) (o, w)
    = (Raise IndexError, (o', w)).
Proof.
  intros H. revert o. induction target_genes as [|t ts IH]; intros o.
  - inversion H.
  - destruct (decide (well_formed t)) as [Ht|Ht].
    + rewrite (for_each_cons_ok _ _ _ _ _ (target_body_ok _ _ _ _ Ht)).
      apply IH. inversion H; subst; [contradiction | assumption].
    + rewrite (for_each_cons_raise _ _ _ _ _ _ (target_body_bad _ _ _ _ Ht)).
      by exists o.
Qed.

Lemma reference_body_ok (target_genes : list string) (r : string)
    (o : list tuple) (w : world) :
  well_formed r ->
  Forall well_formed target_genes ->
  reference_body target_genes r (o, w)
  = (Ok tt, (o ++ map (fun t => (second_segment r, second_segment t)) target_genes, w)).
Proof.
  intros Hr Ht. unfold reference_body, bind at 1, lift.
  change (Py.split PIPE r) with (segments r).
  rewrite (index_1_ok _ Hr). by apply targets_ok.
Qed.

Lemma cross_ok (reference_genes target_genes : list string)
    (o : list tuple) (w : world) :
  Forall well_formed reference_genes ->
  Forall well_formed target_genes ->
  cross reference_genes target_genes (o, w)
  = (Ok tt, (o ++ product (map second_segment reference_genes)
                          (map second_segment target_genes), w)).
Proof.
  intros Hr Ht. revert o. rewrite cross_unfold.
  induction Hr as [|r rs Hr _ IH]; intros o.
  - simpl. by rewrite app_nil_r.
  - rewrite (for_each_cons_ok _ _ _ _ _ (reference_body_ok _ _ _ _ Hr Ht)).
    rewrite IH, <- app_assoc. simpl. by rewrite map_map.
Qed.

(** A token with fewer than two segments, anywhere in either list, stops
    the loops with an [IndexError]: the reference list is never empty, so the
    target loop is entered. *)
Lemma cross_bad (reference_genes target_genes : list string)
    (o : list tuple) (w : world) :
  reference_genes <> [] ->
  Exists (fun t => ~ well_formed t) (reference_genes ++ target_genes) ->
  exists o',
    cross reference_genes target_genes (o, w) = (Raise IndexError, (o', w)).
Proof.
  intros Hne H. rewrite cross_unfold.
  destruct (decide (Forall well_formed target_genes)) as [Ht|Ht].
  - (* the offending token is a reference *)
    apply Exists_app in H as [H|H];
      [| exfalso; apply Exists_exists in H as (t & Hin & Hbad);
         by apply Hbad, (proj1 (Forall_forall _ _) Ht)].
    clear Hne. revert o. induction reference_genes as [|r rs IH]; intros o.
    + inversion H.
    + destruct (decide (well_formed r)) as [Hr|Hr].
      * rewrite (for_each_cons_ok _ _ _ _ _ (reference_body_ok _ _ _ _ Hr Ht)).
        apply IH. inversion H; subst; [contradiction | assumption].
      * exists o. apply for_each_cons_raise.
        unfold reference_body, bind, lift.
        change (Py.split PIPE r) with (segments r).
        rewrite index_1_raise; [done|]. unfold well_formed in Hr. lia.
  - (* a target is malformed: the first reference meets it, or fails itself *)
    destruct reference_genes as [|r rs]; [done|].
    apply not_Forall_Exists in Ht; [|intros t; apply _].
    destruct (decide (well_formed r)) as [Hr|Hr].
    + destruct (targets_bad (second_segment r) target_genes o w Ht) as [o' Ho'].
      exists o'. apply for_each_cons_raise.
      unfold reference_body, bind at 1, lift.
      change (Py.split PIPE r) with (segments r).
      by rewrite (index_1_ok _ Hr).
    + exists o. apply for_each_cons_raise.
      unfold reference_body, bind, lift.
      change (Py.split PIPE r) with (segments r).
      rewrite index_1_raise; [done|]. unfold well_formed in Hr. lia.
Qed.

(** ** One line *)

Lemma gene_fields_short line :
  length (row_fields line) < 3 -> gene_fields line = Raise IndexError.
Proof.
  intros H. unfold gene_fields. fold (row_fields line).
  destruct (decide (length (row_fields line) <= 1)) as [H1|H1].
  - by rewrite (index_ge _ 1 H1).
  - destruct (index_lt (row_fields line) 1) as (f1 & _ & ->); [lia|].
    rewrite index_ge; [done | lia].
Qed.

Lemma gene_fields_ok line :
  3 <= length (row_fields line) ->
  gene_fields line =
  Ok (gene_tokens (reference_field line), gene_tokens (target_field line)).
Proof.
  intros H. unfold gene_fields, reference_field, target_field.
  fold (row_fields line).
  destruct (row_fields line) as [|f0 [|f1 [|f2 fields]]]; simpl in H; try lia.
  reflexivity.
Qed.

Lemma line_body_header input_file line s :
  is_header line -> line_body input_file line s = (Ok tt, s).
Proof. unfold is_header, line_body. by intros ->. Qed.

Lemma line_body_short input_file line (o : list tuple) (w : world) :
  ~ is_header line ->
  length (row_fields line) < 3 ->
  line_body input_file line (o, w)
  = (Ok tt, (o, add_warning (row_warning input_file line) w)).
Proof.
  intros Hh Hlen. unfold line_body, is_header in *.
  destruct (Py.contains header_marker line); [done|].
  unfold bind, try_except, lift. by rewrite (gene_fields_short _ Hlen).
Qed.

Lemma line_body_cross input_file line s :
  ~ is_header line ->
  3 <= length (row_fields line) ->
  line_body input_file line s
  = cross (gene_tokens (reference_field line)) (gene_tokens (target_field line)) s.
Proof.
  intros Hh Hlen. unfold line_body, is_header in *.
  destruct (Py.contains header_marker line); [done|].
  unfold bind, try_except, lift. by rewrite (gene_fields_ok _ Hlen).
Qed.

Lemma line_body_pairs input_file line (o : list tuple) (w : world) :
  ~ is_header line ->
  3 <= length (row_fields line) ->
  Forall well_formed (gene_tokens (reference_field line)) ->
  Forall well_formed (gene_tokens (target_field line)) ->
  line_body input_file line (o, w) = (Ok tt, (o ++ row_pairs line, w)).
Proof.
  intros Hh Hlen Hr Ht. rewrite line_body_cross by done. by apply cross_ok.
Qed.

Lemma line_body_bad_token input_file line (o : list tuple) (w : world) :
  ~ is_header line ->
  3 <= length (row_fields line) ->
  Exists (fun t => ~ well_formed t)
    (gene_tokens (reference_field line) ++ gene_tokens (target_field line)) ->
  exists o', line_body input_file line (o, w) = (Raise IndexError, (o', w)).
Proof.
  intros Hh Hlen Hbad. rewrite line_body_cross by done.
  apply cross_bad; [apply split_nonempty | done].
Qed.

Lemma product_length (rs ts : list string) :
  length (product rs ts) = length rs * length ts.
Proof.
  unfold product. induction rs as [|r rs IH]; [done|].
  simpl. rewrite length_app, length_map. f_equal. exact IH.
Qed.

(** ** The loop over the lines *)

Lemma add_warnings_nil w : add_warnings [] w = w.
Proof. destruct w. unfold add_warnings. simpl. by rewrite app_nil_r. Qed.

Lemma add_warnings_app a b w :
  add_warnings b (add_warnings a w) = add_warnings (a ++ b) w.
Proof. unfold add_warnings. simpl. by rewrite app_assoc. Qed.

Lemma passable_or_bad line : passable line \/ bad_token_row line.
Proof.
  unfold passable, bad_token_row, short_row, clean_row.
  destruct (decide (is_header line)) as [|Hh]; [by left; left|].
  destruct (decide (length (row_fields line) < 3)) as [|Hl];
    [by left; right; left|].
  destruct (decide (Forall well_formed
      (gene_tokens (reference_field line) ++ gene_tokens (target_field line))))
    as [Hf|Hf].
  - apply Forall_app in Hf. left. right. by right.
  - right. split_and!; [done | lia |].
    apply not_Forall_Exists in Hf; [done | intros t; apply _].
Qed.

Lemma line_body_passable input_file line (o : list tuple) (w : world) :
  passable line ->
  line_body input_file line (o, w)
  = (Ok tt, (o ++ line_pairs line,
             add_warnings (line_warnings input_file line) w)).
Proof.
  unfold line_pairs, line_warnings.
  destruct (decide (is_header line)) as [Hh|Hh].
  - intros _. rewrite (line_body_header _ _ _ Hh). unfold is_header in Hh.
    by rewrite Hh, app_nil_r, add_warnings_nil.
  - assert (Py.contains header_marker line = false) as ->
      by (unfold is_header in Hh; by destruct (Py.contains header_marker line)).
    intros [?|[Hs|[Hr Ht]]]; [done| |].
    + rewrite (line_body_short _ _ _ _ Hh Hs).
      unfold short_row in Hs.
      rewrite (proj2 (Nat.ltb_lt _ _) Hs). by rewrite app_nil_r.
    + destruct (decide (length (row_fields line) < 3)) as [Hs|Hs].
      * rewrite (line_body_short _ _ _ _ Hh Hs).
        rewrite (proj2 (Nat.ltb_lt _ _) Hs). by rewrite app_nil_r.
      * rewrite (proj2 (Nat.ltb_ge _ _)) by lia.
        rewrite line_body_pairs by (done || lia).
        by rewrite add_warnings_nil.
Qed.

Lemma lines_passable input_file (ls : list string) (o : list tuple) (w : world) :
  Forall passable ls ->
  for_each ls (line_body input_file) (o, w)
  = (Ok tt, (o ++ flat_map line_pairs ls,
             add_warnings (flat_map (line_warnings input_file) ls) w)).
Proof.
  intros H. revert o w. induction H as [|l ls Hl _ IH]; intros o w.
  - simpl. by rewrite app_nil_r, add_warnings_nil.
  - rewrite (for_each_cons_ok _ _ _ _ _ (line_body_passable input_file _ o w Hl)).
    rewrite IH, add_warnings_app, <- app_assoc. reflexivity.
Qed.

Lemma lines_bad input_file (pre post : list string) line
    (o : list tuple) (w : world) :
  Forall passable pre ->
  bad_token_row line ->
  exists o',
    for_each (pre ++ line :: post) (line_body input_file) (o, w)
    = (Raise IndexError,
       (o', add_warnings (flat_map (line_warnings input_file) pre) w)).
Proof.
  intros Hpre (Hh & Hlen & Hbad).
  destruct (line_body_bad_token input_file line (o ++ flat_map line_pairs pre)
              (add_warnings (flat_map (line_warnings input_file) pre) w)
              Hh Hlen Hbad) as [o' Ho'].
  exists o'. rewrite for_each_app.
  rewrite (bind_ok _ _ _ _ _ (lines_passable input_file pre o w Hpre)).
  by apply for_each_cons_raise.
Qed.

(** ** One input file *)

Lemma extract_unopenable input_file w :
  unopenable (fs w) input_file ->
  extract_orthologous_pairs input_file w
  = (Ok [], add_warning (open_warning input_file) (log (Open input_file ModeR) w)).
Proof.
  unfold unopenable. intros H.
  unfold extract_orthologous_pairs, with_local, bind at 1, try_except,
    bind at 1, in_world at 1, open_r. simpl.
  destruct (fs w !! input_file) as [[names|f]|]; try reflexivity.
  rewrite H. reflexivity.
Qed.

Lemma extract_readable input_file w f :
  fs w !! input_file = Some (Reg f) ->
  readable f = true ->
  extract_orthologous_pairs input_file w
  = match for_each (r_lines (reader_of f)) (line_body input_file)
            ([], log (Open input_file ModeR) w) with
    | (Ok _, (o, w')) =>
        if r_fault (reader_of f)
        then (Ok o, add_warning (open_warning input_file) w')
        else (Ok o, w')
    | (Raise OSError, (o, w')) =>
        (Ok o, add_warning (open_warning input_file) w')
    | (Raise IndexError, (_, w')) => (Raise IndexError, w')
    end.
Proof.
  intros Hf Hr.
  unfold extract_orthologous_pairs, with_local, bind at 1, try_except,
    bind at 1, in_world at 1, open_r. simpl.
  rewrite Hf, Hr. unfold for_lines, bind at 1.
  destruct (for_each (r_lines (reader_of f)) (line_body input_file)
              ([], log (Open input_file ModeR) w)) as [[[]|[]] [o w']];
    try reflexivity.
  destruct (r_fault (reader_of f)); reflexivity.
Qed.

Lemma extract_passable input_file w f :
  fs w !! input_file = Some (Reg f) ->
  readable f = true ->
  Forall passable (r_lines (reader_of f)) ->
  extract_orthologous_pairs input_file w
  = (Ok (flat_map line_pairs (r_lines (reader_of f))),
     add_warnings
       (flat_map (line_warnings input_file) (r_lines (reader_of f)) ++
        (if r_fault (reader_of f) then [open_warning input_file] else []))
       (log (Open input_file ModeR) w)).
Proof.
  intros Hf Hr Hp. rewrite (extract_readable _ _ _ Hf Hr).
  rewrite (lines_passable _ _ _ _ Hp). simpl.
  destruct (r_fault (reader_of f)).
  - unfold add_warning. by rewrite add_warnings_app.
  - by rewrite app_nil_r.
Qed.

Lemma extract_bad_token input_file w f pre line post :
  fs w !! input_file = Some (Reg f) ->
  readable f = true ->
  r_lines (reader_of f) = pre ++ line :: post ->
  Forall passable pre ->
  bad_token_row line ->
  extract_orthologous_pairs input_file w
  = (Raise IndexError,
     add_warnings (flat_map (line_warnings input_file) pre)
       (log (Open input_file ModeR) w)).
Proof.
  intros Hf Hr Hl Hp Hb. rewrite (extract_readable _ _ _ Hf Hr), Hl.
  destruct (lines_bad input_file pre post line []
              (log (Open input_file ModeR) w) Hp Hb) as [o' ->].
  reflexivity.
Qed.

(** ** Appending *)

Lemma string_app_cons c (a b : string) : String c a +:+ b = String c (a +:+ b).
Proof. reflexivity. Qed.

Lemma string_app_nil_r (s : string) : s +:+ EmptyString = s.
Proof. induction s as [|c s IH]; [done | by rewrite string_app_cons, IH]. Qed.

Lemma string_app_assoc (a b c : string) : (a +:+ b) +:+ c = a +:+ (b +:+ c).
Proof. induction a as [|x a IH]; [done | by rewrite !string_app_cons, IH]. Qed.

Lemma pairs_text_app (a b : list tuple) :
  pairs_text (a ++ b) = pairs_text a +:+ pairs_text b.
Proof.
  induction a as [|p a IH]; [done|].
  cbn [app pairs_text foldr]. fold (pairs_text (a ++ b)). fold (pairs_text a).
  by rewrite IH, string_app_assoc.
Qed.

(** The writes of one call, on a file that is there. *)
Lemma writes_text (pairs : list tuple) (out : string) (w : world) f :
  fs w !! out = Some (Reg f) ->
  exists w',
    for_each pairs (fun p => write out (pair_line p)) w = (Ok tt, w') /\
    fs w' = <[out := Reg {| text := text f +:+ pairs_text pairs;
                            readable := readable f;
                            appendable := appendable f;
                            read_fault := read_fault f |}]> (fs w) /\
    warned w' = warned w /\ trace w' = trace w.
Proof.
  revert w f. induction pairs as [|p pairs IH]; intros w f Hf.
  - exists w. simpl. split_and!; try done.
    rewrite string_app_nil_r. destruct f. simpl. by rewrite insert_id.
  - simpl. unfold bind at 1, write at 1, modify.
    set (w1 := set_fs _ w).
    destruct (IH w1 {| text := text f +:+ pair_line p; readable := readable f;
                       appendable := appendable f; read_fault := read_fault f |})
      as (w' & Hrun & Hfs & Hw & Ht).
    { subst w1. simpl. by rewrite lookup_alter_eq, Hf. }
    exists w'. split_and!; try done.
    rewrite Hfs. subst w1. simpl. rewrite string_app_assoc.
    apply map_eq. intros k. destruct (decide (k = out)) as [->|Hk].
    + by rewrite !lookup_insert_eq.
    + by rewrite !lookup_insert_ne, lookup_alter_ne.
Qed.

Lemma listed_lookup_ne out (m : gmap string node) k :
  k <> Py.dirname out -> listed out m !! k = m !! k.
Proof.
  intros Hk. unfold listed. destruct (m !! out); [done|].
  by rewrite lookup_alter_ne.
Qed.

Lemma listed_grown out (m : gmap string node) :
  can_append m out ->
  grown out (m !! Py.dirname out) (listed out m !! Py.dirname out).
Proof.
  unfold can_append, listed, creatable. intros Hc.
  destruct (m !! out) as [n|]; [by left|].
  rewrite lookup_alter_eq.
  destruct (m !! Py.dirname out) as [[names wr|f]|]; try done.
  right. exists names, wr. split_and!; [done..|].
  apply andb_true_iff in Hc as [_ Hc]. by apply String.eqb_eq.
Qed.

Lemma write_pairs_ok (pairs : list tuple) (out : string) (w : world) :
  can_append (fs w) out ->
  exists w',
    write_orthologous_pairs pairs out w = (Ok tt, w') /\
    fs w' = <[out := Reg (appended (fs w !! out) (pairs_text pairs))]>
              (listed out (fs w)) /\
    warned w' = warned w /\
    trace w' = trace w ++ [Open out ModeA].
Proof.
  unfold can_append, write_orthologous_pairs, listed. intros Hc.
  unfold bind at 1, open_a.
  destruct (fs w !! out) as [[names wr|f]|] eqn:Hout; [done| |].
  - rewrite Hc.
    destruct (writes_text pairs out (log (Open out ModeA) w) f Hout)
      as (w' & Hrun & Hfs & Hw & Ht).
    exists w'. by split_and!.
  - rewrite Hc. set (w1 := set_fs _ _).
    destruct (writes_text pairs out w1 new_file) as (w' & Hrun & Hfs & Hw & Ht).
    { subst w1. simpl. unfold create. by rewrite lookup_insert_eq. }
    exists w'. split_and!; try done.
    rewrite Hfs. subst w1. simpl. unfold create. by rewrite insert_insert_eq.
Qed.

Lemma write_pairs_fail (pairs : list tuple) (out : string) (w : world) :
  ~ can_append (fs w) out ->
  write_orthologous_pairs pairs out w = (Raise OSError, log (Open out ModeA) w).
Proof.
  unfold can_append, write_orthologous_pairs. intros Hc.
  unfold bind at 1, open_a.
  destruct (fs w !! out) as [[names wr|f]|]; [done| |].
  - destruct (appendable f); [done | reflexivity].
  - destruct (creatable (fs w) out); [done | reflexivity].
Qed.

Lemma text_at_appended (m m' : gmap string node) out s :
  can_append m out ->
  text_at (<[out := Reg (appended (m !! out) s)]> m') out = text_at m out +:+ s.
Proof.
  unfold text_at, can_append. rewrite lookup_insert_eq.
  by destruct (m !! out) as [[|f]|].
Qed.

Lemma can_append_appended (m m' : gmap string node) out s :
  can_append m out ->
  can_append (<[out := Reg (appended (m !! out) s)]> m') out.
Proof.
  unfold can_append. rewrite lookup_insert_eq.
  by destruct (m !! out) as [[|f]|].
Qed.

(** A path with an ordinary name behind its last slash is not the path of
    its directory. *)
Lemma head_basename (p : string) : Py.head p +:+ Py.basename p = p.
Proof.
  induction p as [|c p IH]; [done|]. cbn [Py.head Py.basename].
  destruct (Py.head p) as [|h hs] eqn:Hh.
  - change (EmptyString +:+ Py.basename p) with (Py.basename p) in IH.
    destruct (Ascii.eqb c SLASH) eqn:Hc.
    + apply Ascii.eqb_eq in Hc as ->. reflexivity.
    + reflexivity.
  - by rewrite string_app_cons, IH.
Qed.

Lemma rstrip_length c (s : string) :
  String.length (Py.rstrip c s) <= String.length s.
Proof.
  induction s as [|x s IH]; [done|]. cbn [Py.rstrip].
  destruct (Py.rstrip c s) as [|y r].
  - destruct (Ascii.eqb x c); simpl; lia.
  - simpl in *. lia.
Qed.

Lemma string_app_length (a b : string) :
  String.length (a +:+ b) = String.length a + String.length b.
Proof.
  induction a as [|x a IH]; [done|]. rewrite string_app_cons. simpl.
  by rewrite IH.
Qed.

Lemma dirname_ne (p : string) :
  Py.basename p <> EmptyString -> Py.dirname p <> p.
Proof.
  intros Hb Heq.
  assert (String.length (Py.dirname p) <= String.length (Py.head p)) as Hl.
  { unfold Py.dirname. pose proof (rstrip_length SLASH (Py.head p)).
    by destruct (Py.rstrip SLASH (Py.head p)). }
  rewrite Heq in Hl. rewrite <- (head_basename p) in Hl at 1.
  rewrite string_app_length in Hl.
  destruct (Py.basename p); [done | simpl in Hl; lia].
Qed.

Lemma creatable_dirname_ne (m : gmap string node) p :
  creatable m p = true -> Py.dirname p <> p.
Proof.
  unfold creatable. intros H. apply dirname_ne.
  destruct (m !! Py.dirname p) as [[names wr|]|]; try done.
  apply andb_true_iff in H as [H _]. apply andb_true_iff in H as [_ H].
  intros Hb. by rewrite Hb in H.
Qed.

(** ** Reading a file depends on that file alone *)

Lemma solo_lookup input_file n : fs (solo input_file n) !! input_file = n.
Proof. destruct n; simpl; [apply lookup_singleton_eq | apply lookup_empty]. Qed.

Lemma first_bad_line (ls : list string) :
  Forall passable ls \/
  exists pre line post,
    ls = pre ++ line :: post /\ Forall passable pre /\ bad_token_row line.
Proof.
  induction ls as [|l ls IH]; [by left|].
  destruct (passable_or_bad l) as [Hl|Hl].
  - destruct IH as [IH|(pre & line & post & -> & Hpre & Hbad)].
    + left. by constructor.
    + right. exists (l :: pre), line, post. split_and!; [done | by constructor | done].
  - right. exists [], l, ls. by split_and!.
Qed.

Lemma extract_local input_file w :
  extract_orthologous_pairs input_file w
  = (file_outcome (fs w !! input_file) input_file,
     add_warnings (file_warnings (fs w !! input_file) input_file)
       (log (Open input_file ModeR) w)).
Proof.
  unfold file_outcome, file_warnings.
  pose proof (solo_lookup input_file (fs w !! input_file)) as Hs.
  set (w0 := solo input_file (fs w !! input_file)) in *.
  destruct (fs w !! input_file) as [[names|f]|] eqn:Hn.
  - rewrite !extract_unopenable by (unfold unopenable; by rewrite ?Hn, ?Hs).
    reflexivity.
  - destruct (readable f) eqn:Hr.
    + destruct (first_bad_line (r_lines (reader_of f)))
        as [Hp|(pre & line & post & Hl & Hpre & Hbad)].
      * rewrite (extract_passable _ w f Hn Hr Hp).
        rewrite (extract_passable _ w0 f Hs Hr Hp). simpl.
        reflexivity.
      * rewrite (extract_bad_token _ w f _ _ _ Hn Hr Hl Hpre Hbad).
        rewrite (extract_bad_token _ w0 f _ _ _ Hs Hr Hl Hpre Hbad). simpl.
        reflexivity.
    + rewrite !extract_unopenable by (unfold unopenable; by rewrite ?Hn, ?Hs).
      reflexivity.
  - rewrite !extract_unopenable by (unfold unopenable; by rewrite ?Hn, ?Hs).
    reflexivity.
Qed.

(** ** The walk, when the output file is not among the inputs *)

Lemma files_outcome_app m (a b : list string) :
  files_outcome m (a ++ b)
  = match files_outcome m a with
    | (Ok _, wa) =>
        match files_outcome m b with (r, wb) => (r, wa ++ wb) end
    | (Raise e, wa) => (Raise e, wa)
    end.
Proof.
  induction a as [|f a IH]; simpl.
  - by destruct (files_outcome m b).
  - destruct (file_outcome (m !! f) f) as [pairs|e]; [|done].
    rewrite IH. destruct (files_outcome m a) as [[[]|e] wa].
    + destruct (files_outcome m b) as [r wb]. by rewrite app_assoc.
    + done.
Qed.

Lemma can_append_not_dir m out : can_append m out -> node_is_dir (m !! out) = false.
Proof. unfold can_append. by destruct (m !! out) as [[|]|]. Qed.

Lemma files_read_app m (a b : list string) :
  files_read m (a ++ b)
  = files_read m a ++
    match (files_outcome m a).1 with Ok _ => files_read m b | Raise _ => [] end.
Proof.
  induction a as [|f a IH]; simpl; [done|].
  destruct (file_outcome (m !! f) f) as [pairs|e]; simpl.
  - rewrite IH. by destruct (files_outcome m a) as [[[]|e] wa].
  - done.
Qed.

Lemma reads_app (a b : list syscall) : reads (a ++ b) = reads a ++ reads b.
Proof. apply omap_app. Qed.

Lemma file_outcome_dir names wr f :
  file_outcome (Some (Dir names wr)) f = Ok [].
Proof.
  unfold file_outcome. rewrite extract_unopenable; [done|].
  unfold unopenable. by rewrite solo_lookup.
Qed.

Lemma file_warnings_dir names wr f :
  file_warnings (Some (Dir names wr)) f = [open_warning f].
Proof.
  unfold file_warnings. rewrite extract_unopenable; [done|].
  unfold unopenable. by rewrite solo_lookup.
Qed.

Lemma register_idem n names : register n (register n names) = register n names.
Proof.
  unfold register. destruct (bool_decide (n ∈ names)) eqn:Hn.
  - by rewrite Hn.
  - rewrite bool_decide_eq_true_2; [done|]. set_solver.
Qed.

Lemma grown_is_dir out (a b : option node) :
  grown out a b -> node_is_dir b = node_is_dir a.
Proof. by intros [->|(names & wr & -> & -> & _)]. Qed.

Lemma grown_is_file out (a b : option node) :
  grown out a b -> node_is_file b = node_is_file a.
Proof. by intros [->|(names & wr & -> & -> & _)]. Qed.

Lemma grown_trans out (a b c : option node) :
  grown out a b -> grown out b c -> grown out a c.
Proof.
  intros [->|(names & wr & -> & -> & Hj)]; [done|].
  intros [<-|(names' & wr' & Hb & -> & _)].
  - right. by exists names, wr.
  - simplify_eq. right. eexists _, _. by rewrite register_idem.
Qed.

Section Walk.
Variables (out root : string) (m0 : gmap string node).
Hypothesis out_not_dir : node_is_dir (m0 !! out) = false.
Hypothesis out_not_input : out ∉ candidates m0 root.

Lemma inv_other w k :
  inv out m0 w -> k <> out -> grown out (m0 !! k) (fs w !! k).
Proof.
  intros (Hag & Hg & Hc) Hk. destruct (decide (k = Py.dirname out)) as [->|Hd].
  - by apply Hg.
  - left. by rewrite Hag.
Qed.

Lemma inv_is_dir w p :
  inv out m0 w -> node_is_dir (fs w !! p) = node_is_dir (m0 !! p).
Proof.
  intros Hi. destruct (decide (p = out)) as [->|Hp].
  - destruct Hi as (_ & _ & Hc).
    by rewrite (can_append_not_dir _ _ Hc), out_not_dir.
  - by apply grown_is_dir with out, inv_other.
Qed.

Lemma inv_is_file w p :
  inv out m0 w -> p <> out ->
  node_is_file (fs w !! p) = node_is_file (m0 !! p).
Proof. intros Hi Hp. by apply grown_is_file with out, inv_other. Qed.

Lemma inv_file_outcome w f :
  inv out m0 w -> f <> out ->
  file_outcome (fs w !! f) f = file_outcome (m0 !! f) f /\
  file_warnings (fs w !! f) f = file_warnings (m0 !! f) f.
Proof.
  intros Hi Hf.
  destruct (inv_other w f Hi Hf) as [->|(names & wr & -> & -> & _)]; [done|].
  by rewrite !file_outcome_dir, !file_warnings_dir.
Qed.

(** A directory of [m0] is listed as in [m0], with the entry of the output
    behind the others when the output has been created in it. *)
Lemma inv_dir w d names wr :
  inv out m0 w -> m0 !! d = Some (Dir names wr) ->
  exists names',
    fs w !! d = Some (Dir names' wr) /\
    (names' = names \/
     names' = names ++ [Py.basename out] /\ d = Py.dirname out /\
     Py.join d (Py.basename out) = out).
Proof.
  intros Hi Hd.
  assert (d <> out) as Hne by (intros ->; by rewrite Hd in out_not_dir).
  destruct (decide (d = Py.dirname out)) as [->|Hdd].
  - destruct (inv_other w _ Hi Hne) as [Heq|(names1 & wr1 & H1 & H2 & Hj)].
    + exists names. rewrite <- Heq. by split; [|left].
    + rewrite Hd in H1. simplify_eq. eexists. split; [done|].
      unfold register. destruct (bool_decide _); [by left | by right].
  - destruct Hi as (Hag & _ & _). exists names.
    rewrite (Hag d Hne Hdd). by split; [|left].
Qed.

Lemma walked_nil w : inv out m0 w -> walked out m0 [] w w.
Proof.
  intros Hi. unfold walked. simpl.
  rewrite string_app_nil_r, app_nil_r. split_and!; try done.
  by intros [?|[_ ?]].
Qed.

Lemma walked_log c files w w' :
  reads [c] = [] ->
  walked out m0 files (log c w) w' -> walked out m0 files w w'.
Proof.
  intros Hc (Hi & Ht & Hr & Hf). split_and!; try done.
  rewrite Hr. simpl. by rewrite reads_app, Hc, app_nil_r.
Qed.

Lemma walked_app_ok a b w w1 w2 :
  walked out m0 a w w1 -> (files_outcome m0 a).1 = Ok tt ->
  walked out m0 b w1 w2 -> walked out m0 (a ++ b) w w2.
Proof.
  intros (Hi1 & Ht1 & Hr1 & Hf1) Hok (Hi2 & Ht2 & Hr2 & Hf2).
  unfold walked. rewrite files_outcome_app, files_read_app.
  destruct (files_outcome m0 a) as [[[]|e] wa]; [|done].
  destruct (files_outcome m0 b) as [r wb]. simpl in *.
  split_and!.
  - done.
  - by rewrite Ht2, Ht1, pairs_text_app, string_app_assoc.
  - by rewrite Hr2, Hr1, app_assoc.
  - intros [Hf|[-> Hne]].
    + apply Hf2. left. apply Hf1. by left.
    + destruct a as [|f a].
      * simpl in Hne. apply Hf2. right. split; [done|].
        by destruct b.
      * apply Hf2. left. apply Hf1. right. by split.
Qed.

Lemma walked_app_raise a b w w1 e :
  walked out m0 a w w1 -> (files_outcome m0 a).1 = Raise e ->
  walked out m0 (a ++ b) w w1.
Proof.
  intros (Hi1 & Ht1 & Hr1 & Hf1) He.
  unfold walked. rewrite files_outcome_app, files_read_app.
  destruct (files_outcome m0 a) as [[[]|e'] wa]; [done|]. simpl in *.
  rewrite app_nil_r. split_and!; try done.
  intros [Hf|[? _]]; [|done]. apply Hf1. by left.
Qed.

Lemma file_step w f :
  inv out m0 w -> f <> out ->
  exists w',
    file_body out f w = ((files_outcome m0 [f]).1, w') /\
    walked out m0 [f] w w'.
Proof.
  intros Hi Hf. destruct (inv_file_outcome w f Hi Hf) as [Ho Hw].
  destruct Hi as (Hag & Hg & Hc).
  unfold walked. simpl. unfold file_body, bind.
  rewrite extract_local, Ho, Hw.
  destruct (file_outcome (m0 !! f) f) as [pairs|e]; simpl.
  - destruct (write_pairs_ok pairs out
                (add_warnings (file_warnings (m0 !! f) f)
                   (log (Open f ModeR) w)) Hc)
      as (w' & -> & Hfs & _ & Htr).
    simpl in Hfs, Htr. exists w'. unfold inv.
    rewrite Hfs, Htr, app_nil_r. split_and!.
    + done.
    + intros k Hk Hd. by rewrite lookup_insert_ne, listed_lookup_ne, Hag.
    + intros Hd. rewrite lookup_insert_ne by done.
      eapply grown_trans; [by apply Hg | by apply listed_grown].
    + by apply can_append_appended.
    + by apply text_at_appended.
    + by rewrite !reads_app, app_nil_r.
    + intros _. by rewrite lookup_insert_eq.
  - eexists. split; [done|]. simpl. split_and!; try done.
    + by rewrite string_app_nil_r.
    + by rewrite reads_app.
    + by intros [?|[? _]].
Qed.

Lemma files_loop files w :
  inv out m0 w -> Forall (fun f => f <> out) files ->
  exists w',
    for_each files (file_body out) w = ((files_outcome m0 files).1, w') /\
    walked out m0 files w w'.
Proof.
  intros Hi Hfs. revert w Hi.
  induction Hfs as [|f files Hf _ IH]; intros w Hi.
  - exists w. split; [done | by apply walked_nil].
  - destruct (file_step w f Hi Hf) as (w1 & H1 & Hw1).
    change (f :: files) with ([f] ++ files) at 2 3.
    cbn [for_each]. unfold bind at 1. rewrite H1.
    destruct (files_outcome m0 [f]).1 as [[]|e] eqn:Ho.
    + destruct (IH w1 (proj1 Hw1)) as (w2 & H2 & Hw2).
      exists w2. split; [|by eapply walked_app_ok].
      rewrite H2, files_outcome_app.
      destruct (files_outcome m0 [f]) as [[[]|?] ?]; [|done].
      by destruct (files_outcome m0 files).
    + exists w1. split; [|by eapply walked_app_raise].
      rewrite files_outcome_app.
      by destruct (files_outcome m0 [f]) as [[[]|?] ?]; simplify_eq/=.
Qed.

Lemma subdirs_is_dir d : In d (subdirs m0 root) -> node_is_dir (m0 !! d) = true.
Proof.
  unfold subdirs. intros H. apply in_map_iff in H as (e & <- & He).
  apply filter_In in He as [He Hd].
  apply in_map_iff in He as (n & <- & _). exact Hd.
Qed.

Lemma tsv_files_not_out d :
  In d (subdirs m0 root) -> Forall (fun f => f <> out) (tsv_files m0 d).
Proof.
  intros Hd. apply Forall_forall. intros f Hf ->.
  apply list_elem_of_In in Hf.
  apply out_not_input, elem_of_PropSet. left.
  apply list_elem_of_In, in_flat_map. exists d. split; [done|].
  unfold tsv_files in Hf. apply in_map_iff in Hf as (e & He & Hin).
  apply filter_In in Hin as [Hin Ht].
  apply in_map_iff in Hin as (n & <- & Hn). simpl in He.
  unfold tsv_paths. apply filter_In. split.
  - rewrite <- He. by apply in_map.
  - unfold is_tsv in Ht. simpl in Ht. apply andb_true_iff in Ht as [_ Ht].
    by rewrite <- He.
Qed.

Lemma select_ext {A} (sel : DirEntry -> bool) (f g : A -> DirEntry) (l : list A) :
  (forall x, In x l -> path (f x) = path (g x) /\ sel (f x) = sel (g x)) ->
  map path (List.filter sel (map f l)) = map path (List.filter sel (map g l)).
Proof.
  induction l as [|x l IH]; intros H; [done|]. simpl.
  destruct (H x (or_introl eq_refl)) as [Hp Hs]. rewrite Hs.
  destruct (sel (g x)); simpl; rewrite IH; try (intros y Hy; apply H; by right).
  - by rewrite Hp.
  - done.
Qed.

(** What a listing selects is what it selected on [m0], when the entry of
    the output is not selected. *)
Lemma select_inv (sel : DirEntry -> bool) w d names wr :
  inv out m0 w -> m0 !! d = Some (Dir names wr) ->
  (forall n, In n names ->
     sel (dir_entry (fs w) d n) = sel (dir_entry m0 d n)) ->
  (d = Py.dirname out -> Py.join d (Py.basename out) = out ->
   sel (dir_entry (fs w) d (Py.basename out)) = false) ->
  map path (List.filter sel (map (dir_entry (fs w) d) (dir_names (fs w) d)))
  = map path (List.filter sel (map (dir_entry m0 d) (dir_names m0 d))).
Proof.
  intros Hi Hd Hsel Hout.
  destruct (inv_dir w d names wr Hi Hd) as (names' & Hd' & Hn).
  unfold dir_names. rewrite Hd, Hd'.
  destruct Hn as [->|(-> & Hdd & Hj)].
  - apply select_ext. intros n Hn. split; [done | by apply Hsel].
  - rewrite map_app, List.filter_app, map_app. simpl.
    rewrite (Hout Hdd Hj). simpl. rewrite app_nil_r.
    apply select_ext. intros n Hn. split; [done | by apply Hsel].
Qed.

Lemma tsv_files_inv w d :
  inv out m0 w -> In d (subdirs m0 root) ->
  map path (List.filter is_tsv (map (dir_entry (fs w) d) (dir_names (fs w) d)))
  = tsv_files m0 d.
Proof.
  intros Hi Hd. pose proof (subdirs_is_dir d Hd) as Hdir.
  destruct (m0 !! d) as [[names wr|]|] eqn:Hm; try done.
  unfold tsv_files. apply (select_inv is_tsv w d names wr Hi Hm).
  - intros n Hn. unfold is_tsv. simpl.
    destruct (decide (Py.join d n = out)) as [Heq|Hne].
    + assert (Py.endswith (Py.join d n) ".tsv" = false) as ->.
      { destruct (Py.endswith (Py.join d n) ".tsv") eqn:He; [|done].
        exfalso. apply out_not_input, elem_of_PropSet. left.
        apply list_elem_of_In, in_flat_map.
        exists d. split; [done|]. unfold tsv_paths. apply filter_In.
        rewrite <- Heq. split; [|done]. apply in_map.
        unfold dir_names. by rewrite Hm. }
      by rewrite !andb_false_r.
    + by rewrite (inv_is_file _ _ Hi Hne).
  - intros Hdd Hj. unfold is_tsv. simpl. rewrite Hj.
    assert (Py.endswith out ".tsv" = false) as ->; [|by rewrite andb_false_r].
    destruct (Py.endswith out ".tsv") eqn:He; [|done].
    exfalso. apply out_not_input, elem_of_PropSet. right.
    split; [done|]. apply list_elem_of_In. by rewrite <- Hdd.
Qed.

Lemma inv_log c w : inv out m0 w -> inv out m0 (log c w).
Proof. done. Qed.

Lemma dir_step w d :
  inv out m0 w -> In d (subdirs m0 root) ->
  exists w',
    dir_body out d w = ((files_outcome m0 (tsv_files m0 d)).1, w') /\
    walked out m0 (tsv_files m0 d) w w'.
Proof.
  intros Hi Hd. pose proof (subdirs_is_dir d Hd) as Hdir.
  destruct (m0 !! d) as [[names wr|]|] eqn:Hm; try done.
  destruct (inv_dir w d names wr Hi Hm) as (names' & Hd' & _).
  unfold dir_body, bind at 1, scandir. rewrite Hd'.
  replace names' with (dir_names (fs w) d)
    by (unfold dir_names; by rewrite Hd').
  rewrite (tsv_files_inv w d Hi Hd).
  destruct (files_loop (tsv_files m0 d) (log (Scandir d) w)
              (inv_log _ _ Hi) (tsv_files_not_out d Hd))
    as (w' & Hrun & Hw).
  exists w'. split; [done|]. by apply (walked_log (Scandir d)).
Qed.

Lemma dirs_loop dirs w :
  inv out m0 w -> Forall (fun d => In d (subdirs m0 root)) dirs ->
  exists w',
    for_each dirs (dir_body out) w
    = ((files_outcome m0 (flat_map (tsv_files m0) dirs)).1, w') /\
    walked out m0 (flat_map (tsv_files m0) dirs) w w'.
Proof.
  intros Hi Hds. revert w Hi.
  induction Hds as [|d dirs Hd _ IH]; intros w Hi.
  - exists w. split; [done | by apply walked_nil].
  - destruct (dir_step w d Hi Hd) as (w1 & H1 & Hw1).
    cbn [for_each flat_map]. unfold bind at 1. rewrite H1.
    destruct (files_outcome m0 (tsv_files m0 d)).1 as [[]|e] eqn:Ho.
    + destruct (IH w1 (proj1 Hw1)) as (w2 & H2 & Hw2).
      exists w2. split; [|by eapply walked_app_ok].
      rewrite H2, files_outcome_app.
      destruct (files_outcome m0 (tsv_files m0 d)) as [[[]|?] ?]; [|done].
      by destruct (files_outcome m0 (flat_map (tsv_files m0) dirs)).
    + exists w1. split; [|by eapply walked_app_raise].
      rewrite files_outcome_app.
      by destruct (files_outcome m0 (tsv_files m0 d)) as [[[]|?] ?];
        simplify_eq/=.
Qed.

Lemma subdirs_inv w names wr :
  inv out m0 w -> m0 !! root = Some (Dir names wr) ->
  map path
    (List.filter is_dir (map (dir_entry (fs w) root) (dir_names (fs w) root)))
  = subdirs m0 root.
Proof.
  intros Hi Hm. unfold subdirs. apply (select_inv is_dir w root names wr Hi Hm).
  - intros n _. simpl. by apply inv_is_dir.
  - intros _ Hj. simpl. rewrite Hj. destruct Hi as (_ & _ & Hc).
    by apply can_append_not_dir.
Qed.

(** The whole run over a root that is a directory, from any world that
    differs from [m0] by the output and its entry alone and can append to
    the output. *)
Lemma process_static w names wr :
  m0 !! root = Some (Dir names wr) ->
  inv out m0 w ->
  exists w',
    process_orthofinder_predictions root out w
    = ((files_outcome m0 (input_files m0 root)).1, w') /\
    walked out m0 (input_files m0 root) w w'.
Proof.
  intros Hm Hi. unfold process_orthofinder_predictions, bind at 1, scandir.
  unfold input_files.
  destruct (inv_dir w root names wr Hi Hm) as (names' & Hd' & _).
  rewrite Hd'.
  replace names' with (dir_names (fs w) root)
    by (unfold dir_names; by rewrite Hd').
  rewrite (subdirs_inv w names wr Hi Hm).
  destruct (dirs_loop (subdirs m0 root) (log (Scandir root) w)
              (inv_log _ _ Hi)) as (w' & Hrun & Hw).
  { apply Forall_forall. intros d Hd. by apply list_elem_of_In. }
  exists w'. split; [done|]. by apply (walked_log (Scandir root)).
Qed.
End Walk.

(** A root that is no directory: the first [os.scandir] raises. *)
Lemma process_no_root root out w :
  node_is_dir (fs w !! root) = false ->
  process_orthofinder_predictions root out w
  = (Raise OSError, log (Scandir root) w).
Proof.
  intros H. unfold process_orthofinder_predictions, bind, scandir.
  by destruct (fs w !! root) as [[|]|].
Qed.


Lemma product_map (f : string -> string) (rs ts : list string) :
  product (map f rs) (map f ts)
  = flat_map (fun r => map (fun t => (f r, f t)) ts) rs.
Proof.
  unfold product. induction rs as [|r rs IH]; [done|].
  cbn [map flat_map]. by rewrite map_map, IH.
Qed.

(** ** Files that let the run go on, files that stop it *)

Lemma file_outcome_extract input_file w :
  (extract_orthologous_pairs input_file w).1
  = file_outcome (fs w !! input_file) input_file.
Proof. by rewrite extract_local. Qed.

Lemma harmless_outcome m f :
  harmless m f -> file_outcome (m !! f) f = Ok (file_pairs m f).
Proof.
  unfold harmless, file_pairs, file_outcome. intros H.
  pose proof (solo_lookup f (m !! f)) as Hs.
  destruct (m !! f) as [[names|file]|] eqn:Hm;
    try (rewrite extract_unopenable by (unfold unopenable; by rewrite Hs); done).
  destruct (readable file) eqn:Hr.
  - destruct H as [?|Hp]; [done|].
    by rewrite (extract_passable _ _ file Hs Hr Hp).
  - rewrite extract_unopenable by (unfold unopenable; by rewrite Hs); done.
Qed.

Lemma fatal_outcome m f : fatal m f -> file_outcome (m !! f) f = Raise IndexError.
Proof.
  intros (file & pre & line & post & Hm & Hr & Hl & Hp & Hb).
  unfold file_outcome. rewrite Hm.
  pose proof (solo_lookup f (Some (Reg file))) as Hs.
  by rewrite (extract_bad_token _ _ file _ _ _ Hs Hr Hl Hp Hb).
Qed.

Lemma harmless_or_fatal m f : harmless m f \/ fatal m f.
Proof.
  unfold harmless, fatal.
  destruct (m !! f) as [[names|file]|] eqn:Hm; try by left.
  destruct (readable file) eqn:Hr; [|by left; left].
  destruct (first_bad_line (r_lines (reader_of file)))
    as [Hp|(pre & line & post & Hl & Hp & Hb)].
  - left. by right.
  - right. by exists file, pre, line, post.
Qed.

Lemma files_outcome_harmless m files :
  Forall (harmless m) files ->
  files_outcome m files = (Ok tt, flat_map (file_pairs m) files).
Proof.
  induction 1 as [|f files Hf _ IH]; simpl; [done|].
  by rewrite (harmless_outcome _ _ Hf), IH.
Qed.

Lemma files_outcome_fatal m before f after :
  Forall (harmless m) before -> fatal m f ->
  files_outcome m (before ++ f :: after)
  = (Raise IndexError, flat_map (file_pairs m) before).
Proof.
  intros Hb Hf. rewrite files_outcome_app, (files_outcome_harmless _ _ Hb).
  simpl. by rewrite (fatal_outcome _ _ Hf), app_nil_r.
Qed.

Lemma files_outcome_ok m files :
  (files_outcome m files).1 = Ok tt -> Forall (harmless m) files.
Proof.
  induction files as [|f files IH]; simpl; [done|]. intros H.
  destruct (harmless_or_fatal m f) as [Hf|Hf].
  - constructor; [done|]. apply IH.
    rewrite (harmless_outcome _ _ Hf) in H.
    by destruct (files_outcome m files).
  - by rewrite (fatal_outcome _ _ Hf) in H.
Qed.

Lemma files_read_ok m files :
  (files_outcome m files).1 = Ok tt -> files_read m files = files.
Proof.
  induction files as [|f files IH]; simpl; [done|]. intros H.
  destruct (file_outcome (m !! f) f); [|done].
  rewrite IH; [done|]. by destruct (files_outcome m files).
Qed.

(** ** Substrings *)

Lemma startswith_app (p b : string) : Py.startswith (p +:+ b) p = true.
Proof.
  induction p as [|c p IH]; [by destruct b|]. rewrite string_app_cons.
  cbn [Py.startswith]. by rewrite Ascii.eqb_refl, IH.
Qed.

Lemma startswith_inv (s p : string) :
  Py.startswith s p = true -> exists b, s = p +:+ b.
Proof.
  revert s. induction p as [|c p IH]; intros s H.
  - by exists s.
  - destruct s as [|c' s]; [done|]. cbn [Py.startswith] in H.
    apply andb_true_iff in H as [Hc Hs]. apply Ascii.eqb_eq in Hc as ->.
    destruct (IH _ Hs) as [b ->]. by exists b.
Qed.

Lemma contains_cons sub c (s : string) :
  Py.contains sub (String c s)
  = Py.startswith (String c s) sub || Py.contains sub s.
Proof. reflexivity. Qed.

Lemma contains_intro (sub a b : string) :
  Py.contains sub (a +:+ sub +:+ b) = true.
Proof.
  induction a as [|c a IH].
  - change (EmptyString +:+ sub +:+ b) with (sub +:+ b).
    destruct (sub +:+ b) eqn:E.
    + destruct sub; [done | by rewrite string_app_cons in E].
    + rewrite contains_cons, <- E, startswith_app. done.
  - rewrite string_app_cons, contains_cons, IH. apply orb_true_r.
Qed.

Lemma contains_inv (sub s : string) :
  Py.contains sub s = true -> exists a b, s = a +:+ sub +:+ b.
Proof.
  induction s as [|c s IH]; intros H.
  - simpl in H. rewrite orb_false_r in H.
    destruct sub; [|done]. by exists EmptyString, EmptyString.
  - rewrite contains_cons in H. apply orb_true_iff in H as [H|H].
    + destruct (startswith_inv _ _ H) as [b ->]. by exists EmptyString, b.
    + destruct (IH H) as (a & b & ->). by exists (String c a), b.
Qed.

(** ** Lines of a text that grows *)

Lemma lines_nil (s : string) : Py.lines s = [] -> s = EmptyString.
Proof.
  destruct s as [|c s]; [done|]. simpl.
  destruct (Ascii.eqb c LF); [done|].
  destruct (Ascii.eqb c CR).
  - destruct s as [|c' s]; [done|]. by destruct (Ascii.eqb c' LF).
  - by destruct (Py.lines s).
Qed.

Lemma terminated_cons c (s : string) :
  s <> EmptyString -> terminated (String c s) = terminated s.
Proof. by destruct s. Qed.

Lemma lines_cons c (s : string) :
  Py.lines (String c s)
  = if Ascii.eqb c LF then String LF EmptyString :: Py.lines s
    else if Ascii.eqb c CR then
      match s with
      | String c' s'' =>
          if Ascii.eqb c' LF then String LF EmptyString :: Py.lines s''
          else String LF EmptyString :: Py.lines s
      | EmptyString => [String LF EmptyString]
      end
    else match Py.lines s with
         | l :: ls => String c l :: ls
         | [] => [String c EmptyString]
         end.
Proof. reflexivity. Qed.

Lemma lines_app (a b : string) :
  terminated a = true -> Py.lines (a +:+ b) = Py.lines a ++ Py.lines b.
Proof.
  induction a as [|c a IH]; intros Ht; [done|].
  destruct a as [|c' a].
  - simpl in Ht. apply Ascii.eqb_eq in Ht as ->. reflexivity.
  - rewrite terminated_cons in Ht by done. specialize (IH Ht).
    rewrite (string_app_cons c), !(lines_cons c).
    destruct (Ascii.eqb c LF).
    { by rewrite IH. }
    destruct (Ascii.eqb c CR).
    { rewrite (string_app_cons c'). 
      destruct (Ascii.eqb c' LF) eqn:Hc'.
      - rewrite (string_app_cons c'), !(lines_cons c'), Hc' in IH.
        cbn [app] in *. by inversion IH.
      - rewrite <- (string_app_cons c'). by rewrite IH. }
    rewrite IH.
    destruct (Py.lines (String c' a)) as [|l ls] eqn:Hl; [|done].
    by apply lines_nil in Hl.
Qed.

Lemma terminated_line (x y : string) :
  terminated y = true -> terminated (x +:+ String LF y) = true.
Proof.
  intros Hy. induction x as [|c x IH].
  - change (EmptyString +:+ String LF y) with (String LF y).
    destruct y; [done|]. by rewrite terminated_cons.
  - rewrite string_app_cons, terminated_cons; [done|]. by destruct x.
Qed.

Lemma pairs_text_terminated (pairs : list tuple) :
  terminated (pairs_text pairs) = true.
Proof.
  induction pairs as [|p pairs IH]; [done|].
  cbn [pairs_text foldr]. fold (pairs_text pairs).
  replace (pair_line p +:+ pairs_text pairs)
    with ((p.1 +:+ tabs +:+ p.2) +:+ String LF (pairs_text pairs))
    by (unfold pair_line, newline; by rewrite !string_app_assoc).
  by apply terminated_line.
Qed.

Lemma files_outcome_skip m before f after :
  file_outcome (m !! f) f = Ok [] ->
  files_outcome m (before ++ f :: after) = files_outcome m (before ++ after).
Proof.
  intros Hf. rewrite !files_outcome_app. simpl. rewrite Hf.
  destruct (files_outcome m before) as [[[]|e] wa]; [|done].
  by destruct (files_outcome m after).
Qed.

Lemma inv_start out w : can_append (fs w) out -> inv out (fs w) w.
Proof. intros Hc. split_and!; [done | by left | done]. Qed.

(** ** Paths *)




Lemma mentions_app c (a b : string) :
  mentions c (a +:+ b) = mentions c a || mentions c b.
Proof.
  induction a as [|x a IH]; [done|].
  rewrite string_app_cons. cbn [mentions]. by rewrite IH, orb_assoc.
Qed.











(** ** What a run leaves alone *)

Lemma register_In n names x :
  In x (register n names) <-> In x names \/ x = n.
Proof.
  unfold register. case_bool_decide as Hn.
  - apply list_elem_of_In in Hn. split; [by left|]. by intros [?| ->].
  - rewrite in_app_iff. simpl. split.
    + intros [?|[<-|[]]]; auto.
    + intros [?| ->]; auto.
Qed.

Lemma register_others n names :
  List.filter (fun x => negb (String.eqb x n)) (register n names)
  = List.filter (fun x => negb (String.eqb x n)) names.
Proof.
  unfold register. case_bool_decide; [done|].
  rewrite List.filter_app. simpl. by rewrite String.eqb_refl, app_nil_r.
Qed.

Lemma grown_relisted out (a b : option node) :
  grown out a b -> relisted out a b.
Proof.
  intros [->|(names & wr & -> & -> & Hj)]; [by left|]. right.
  exists names, (register (Py.basename out) names), wr.
  split_and!; [done | done | apply register_In | apply register_others | done].
Qed.

Lemma relisted_is_file out (a b : option node) :
  relisted out a b -> node_is_file b = node_is_file a.
Proof. by intros [->|(names & names' & wr & -> & -> & _)]. Qed.

Lemma relisted_trans out (a b c : option node) :
  relisted out a b -> relisted out b c -> relisted out a c.
Proof.
  intros [->|(n1 & n2 & wr & -> & -> & Hin1 & Hf1 & Hj)]; [done|].
  intros [<-|(n2' & n3 & wr' & Hb & -> & Hin2 & Hf2 & _)].
  - right. by exists n1, n2, wr.
  - simplify_eq. right. eexists n1, n3, _. split_and!; [done | done | | | done].
    + intros n. rewrite Hin2, Hin1. tauto.
    + by rewrite Hf2.
Qed.

(** What a successful [write_orthologous_pairs] touches. *)
Lemma write_touches_only (m : gmap string node) out f :
  can_append m out ->
  touches_only out m (<[out := Reg f]> (listed out m)).
Proof.
  intros Hc. split_and!.
  - intros k Hk Hd. by rewrite lookup_insert_ne, listed_lookup_ne.
  - intros Hd. rewrite lookup_insert_ne by done.
    by apply grown_relisted, listed_grown.
  - intros [n Hn] k Hk. rewrite lookup_insert_ne by done.
    unfold listed. by rewrite Hn.
Qed.

Lemma extends_refl out w : extends out w w.
Proof.
  unfold extends. split_and!; try done.
  - by left.
  - exists EmptyString. by rewrite string_app_nil_r.
  - exists []. by rewrite app_nil_r.
  - exists []. by rewrite app_nil_r.
Qed.

Lemma extends_trans out w1 w2 w3 :
  extends out w1 w2 -> extends out w2 w3 -> extends out w1 w3.
Proof.
  intros (Ha & Hg1 & [d1 Hd1] & Hdir1 & Hk1 & Hf1 & [m1 Hm1] & [c1 Hc1])
         (Hb & Hg2 & [d2 Hd2] & Hdir2 & Hk2 & Hf2 & [m2 Hm2] & [c2 Hc2]).
  unfold extends. split_and!.
  - intros k Hk Hd. by rewrite Hb, Ha.
  - intros Hd. eapply relisted_trans; [by apply Hg1 | by apply Hg2].
  - exists (d1 +:+ d2). by rewrite Hd2, Hd1, string_app_assoc.
  - by rewrite Hdir2.
  - intros Hdir. rewrite Hk2 by (by rewrite Hdir1). by apply Hk1.
  - auto.
  - exists (m1 ++ m2). by rewrite Hm2, Hm1, app_assoc.
  - exists (c1 ++ c2). by rewrite Hc2, Hc1, app_assoc.
Qed.

(** A world that differs in warnings and trace only. *)
Lemma extends_same_fs out w w' msgs calls :
  fs w' = fs w -> warned w' = warned w ++ msgs ->
  trace w' = trace w ++ calls -> extends out w w'.
Proof.
  intros Hfs Hw Ht. unfold extends. rewrite Hfs. split_and!; try done.
  - by left.
  - exists EmptyString. by rewrite string_app_nil_r.
  - by exists msgs.
  - by exists calls.
Qed.

Lemma extends_log out c w : extends out w (log c w).
Proof.
  apply (extends_same_fs _ _ _ [] [c]); simpl; by rewrite ?app_nil_r.
Qed.

Lemma extends_extract out input_file w :
  extends out w (extract_orthologous_pairs input_file w).2.
Proof.
  rewrite extract_local. simpl.
  by eapply extends_same_fs; simpl.
Qed.

Lemma extends_scandir out p w : extends out w (scandir p w).2.
Proof.
  unfold scandir.
  destruct (fs w !! p) as [[names wr|f]|]; simpl; apply extends_log.
Qed.

Lemma extends_write out pairs w :
  extends out w (write_orthologous_pairs pairs out w).2.
Proof.
  destruct (decide (can_append (fs w) out)) as [Hc|Hc].
  - destruct (write_pairs_ok pairs out w Hc) as (w' & -> & Hfs & Hw & Ht).
    simpl. unfold extends. rewrite Hfs, Hw, Ht. split_and!.
    + intros k Hk Hd. by rewrite lookup_insert_ne, listed_lookup_ne.
    + intros Hd. rewrite lookup_insert_ne by done.
      by apply grown_relisted, listed_grown.
    + exists (pairs_text pairs). by apply text_at_appended.
    + rewrite lookup_insert_eq. simpl. symmetry.
      by apply can_append_not_dir.
    + intros Hdir. by rewrite (can_append_not_dir _ _ Hc) in Hdir.
    + intros _. by rewrite lookup_insert_eq.
    + exists []. by rewrite app_nil_r.
    + by eexists.
  - rewrite (write_pairs_fail pairs out w Hc). simpl. apply extends_log.
Qed.

Lemma extends_bind {A B} out (m : M world A) (k : A -> M world B) w :
  extends out w (m w).2 ->
  (forall a w1, extends out w1 (k a w1).2) ->
  extends out w (bind m k w).2.
Proof.
  intros Hm Hk. unfold bind. destruct (m w) as [[a|e] w1]; [|done].
  simpl in Hm. eapply extends_trans; [exact Hm | apply Hk].
Qed.

Lemma extends_for_each {A} out (xs : list A) (body : A -> M world unit) w :
  (forall x w1, extends out w1 (body x w1).2) ->
  extends out w (for_each xs body w).2.
Proof.
  intros Hb. revert w. induction xs as [|x xs IH]; intros w.
  - apply extends_refl.
  - simpl. apply extends_bind; [apply Hb | intros _ w1; apply IH].
Qed.

Lemma extends_file_body out f w : extends out w (file_body out f w).2.
Proof.
  unfold file_body. apply extends_bind; [apply extends_extract|].
  intros pairs w1. apply extends_write.
Qed.

Lemma extends_dir_body out d w : extends out w (dir_body out d w).2.
Proof.
  unfold dir_body. apply extends_bind; [apply extends_scandir|].
  intros entries w1. apply extends_for_each. intros f w2.
  apply extends_file_body.
Qed.

(** A file stays a file, and a directory keeps the names it lists. *)
Lemma extends_is_file out w w' k :
  extends out w w' ->
  node_is_file (fs w !! k) = true -> node_is_file (fs w' !! k) = true.
Proof.
  intros (Ha & Hg & _ & _ & _ & Hf & _) Hk.
  destruct (decide (k = out)) as [->|Hne]; [by apply Hf|].
  destruct (decide (k = Py.dirname out)) as [->|Hd].
  - by rewrite (relisted_is_file out _ _ (Hg Hne)).
  - by rewrite Ha.
Qed.

Lemma extends_names out w w' k n :
  extends out w w' ->
  In n (dir_names (fs w) k) -> In n (dir_names (fs w') k).
Proof.
  intros (Ha & Hg & _ & _ & Hk & _) Hn. unfold dir_names in *.
  destruct (decide (k = out)) as [->|Hne].
  - destruct (fs w !! out) as [[names wr|]|] eqn:Ho; try done.
    by rewrite Hk.
  - destruct (decide (k = Py.dirname out)) as [->|Hd].
    + destruct (Hg Hne) as [<-|(names & names' & wr & H1 & H2 & Hin & _)];
        [done|].
      rewrite H1 in Hn. rewrite H2. apply Hin. by left.
    + by rewrite Ha.
Qed.


(** ** The files a run opens *)












Lemma process_unfold root out w :
  process_orthofinder_predictions root out w
  = if node_is_dir (fs w !! root)
    then for_each (subdirs (fs w) root) (dir_body out) (log (Scandir root) w)
    else (Raise OSError, log (Scandir root) w).
Proof.
  unfold process_orthofinder_predictions, bind, scandir, subdirs, dir_names.
  by destruct (fs w !! root) as [[names wr|f]|].
Qed.


(** A loop that returns has run its body on every element. *)
Lemma for_each_ok_each {A} out (xs : list A) (body : A -> M world unit) w w' :
  (forall x w1, extends out w1 (body x w1).2) ->
  for_each xs body w = (Ok tt, w') ->
  forall x, In x xs ->
    exists w1 w2,
      extends out w w1 /\ body x w1 = (Ok tt, w2) /\ extends out w2 w'.
Proof.
  intros Hb. revert w. induction xs as [|y xs IH]; intros w Hrun x Hx; [done|].
  simpl in Hrun. unfold bind in Hrun.
  destruct (body y w) as [[[]|e] w1] eqn:Hy; [|done].
  destruct Hx as [->|Hx].
  - exists w, w1. split_and!; [apply extends_refl | done |].
    replace w' with (for_each xs body w1).2 by (by rewrite Hrun).
    by apply extends_for_each.
  - destruct (IH w1 Hrun x Hx) as (w2 & w3 & H1 & H2 & H3).
    exists w2, w3. split_and!; [|done..].
    eapply extends_trans; [|exact H1].
    replace w1 with (body y w).2 by (by rewrite Hy). apply Hb.
Qed.




(** A run that returns has gone through the body of the file loop, and
    returned from it, for every input file. *)
Lemma dir_body_ok_each out w0 d w w' :
  extends out w0 w ->
  dir_body out d w = (Ok tt, w') ->
  forall f, In f (tsv_files (fs w0) d) ->
    exists w1 w2,
      extends out w w1 /\ file_body out f w1 = (Ok tt, w2) /\
      extends out w2 w'.
Proof.
  intros Hx Hrun f Hf. unfold dir_body, bind, scandir in Hrun.
  destruct (fs w !! d) as [[names wr|]|] eqn:Hm; try done.
  assert (In f (map path (List.filter is_tsv
                            (map (dir_entry (fs w) d) names)))) as Hin.
  { unfold tsv_files in Hf. apply in_map_iff in Hf as (e & <- & He).
    apply filter_In in He as [He Ht].
    apply in_map_iff in He as (n & <- & Hn). unfold is_tsv in Ht. simpl in Ht.
    apply andb_true_iff in Ht as [Hfile Hext]. simpl.
    apply in_map_iff. exists (dir_entry (fs w) d n). split; [done|].
    apply filter_In. split.
    - apply in_map. pose proof (extends_names out w0 w d n Hx Hn) as Hn'.
      unfold dir_names in Hn'. by rewrite Hm in Hn'.
    - unfold is_tsv. simpl.
      by rewrite (extends_is_file out w0 w _ Hx Hfile), Hext. }
  destruct (for_each_ok_each out _ _ _ _ (extends_file_body out) Hrun f Hin)
    as (w1 & w2 & H1 & H2 & H3).
  exists w1, w2. split_and!; [|done..].
  eapply extends_trans; [|exact H1]. apply extends_log.
Qed.

Lemma process_ok_each root out w w' :
  process_orthofinder_predictions root out w = (Ok tt, w') ->
  forall p, In p (input_files (fs w) root) ->
    exists w1 w2,
      extends out w w1 /\ file_body out p w1 = (Ok tt, w2) /\
      extends out w2 w'.
Proof.
  intros Hrun p Hp. rewrite process_unfold in Hrun.
  destruct (node_is_dir (fs w !! root)); [|done].
  unfold input_files in Hp. apply in_flat_map in Hp as (d & Hd & Hp).
  destruct (for_each_ok_each out _ _ _ _ (extends_dir_body out) Hrun d Hd)
    as (w1 & w2 & H1 & H2 & H3).
  assert (extends out w w1) as Hx.
  { eapply extends_trans; [|exact H1]. apply extends_log. }
  destruct (dir_body_ok_each out w d w1 w2 Hx H2 p Hp)
    as (w3 & w4 & H4 & H5 & H6).
  exists w3, w4. split_and!; [|done|]; by eapply extends_trans.
Qed.


(** The body of the file loop returns only with a regular file at the
    output path. *)
Lemma file_body_ok_output out f w w' :
  file_body out f w = (Ok tt, w') -> node_is_file (fs w' !! out) = true.
Proof.
  unfold file_body, bind. intros Hrun.
  destruct (extract_orthologous_pairs f w) as [[pairs|e] w1]; [|done].
  destruct (decide (can_append (fs w1) out)) as [Hc|Hc].
  - destruct (write_pairs_ok pairs out w1 Hc) as (w2 & Hw & Hfs & _).
    rewrite Hw in Hrun. simplify_eq. by rewrite Hfs, lookup_insert_eq.
  - by rewrite (write_pairs_fail pairs out w1 Hc) in Hrun.
Qed.

Lemma process_ok_output root out w w' :
  process_orthofinder_predictions root out w = (Ok tt, w') ->
  input_files (fs w) root <> [] ->
  node_is_file (fs w' !! out) = true.
Proof.
  intros Hrun Hne.
  destruct (input_files (fs w) root) as [|p ps] eqn:Hfiles; [done|].
  destruct (process_ok_each root out w w' Hrun p)
    as (w1 & w2 & _ & H2 & H3); [rewrite Hfiles; by left|].
  eapply extends_is_file; [exact H3|]. by eapply file_body_ok_output.
Qed.


(** ** Splitting and replacing *)

Lemma split_cons c x (s : string) :
  Py.split c (String x s)
  = if Ascii.eqb x c then EmptyString :: Py.split c s
    else match Py.split c s with
         | field :: fields => String x field :: fields
         | [] => [String x EmptyString]
         end.
Proof. reflexivity. Qed.

Lemma mentions_cons c x (s : string) :
  mentions c (String x s) = Ascii.eqb x c || mentions c s.
Proof. reflexivity. Qed.

Lemma split_free c (s : string) : mentions c s = false -> Py.split c s = [s].
Proof.
  induction s as [|x s IH]; [done|]. rewrite mentions_cons, split_cons.
  intros H. apply orb_false_iff in H as [-> H]. by rewrite (IH H).
Qed.

Lemma split_app_sep c (a b : string) :
  mentions c a = false ->
  Py.split c (a +:+ String c b) = a :: Py.split c b.
Proof.
  induction a as [|x a IH]; intros H.
  - change (EmptyString +:+ String c b) with (String c b).
    by rewrite split_cons, Ascii.eqb_refl.
  - rewrite mentions_cons in H. apply orb_false_iff in H as [Hx H].
    by rewrite string_app_cons, split_cons, Hx, (IH H).
Qed.

Lemma split_length c (s : string) :
  2 <= length (Py.split c s) <-> mentions c s = true.
Proof.
  induction s as [|x s IH]; [simpl; split; [lia | done]|].
  rewrite mentions_cons, split_cons. destruct (Ascii.eqb x c); simpl.
  - pose proof (split_nonempty c s).
    destruct (Py.split c s); [done | simpl; split; [done | lia]].
  - pose proof (split_nonempty c s). by destruct (Py.split c s).
Qed.

Lemma split_elem c c' (s f : string) :
  In f (Py.split c s) ->
  mentions c f = false /\ (mentions c' s = false -> mentions c' f = false).
Proof.
  revert f. induction s as [|x s IH]; intros f.
  - simpl. by intros [<-|[]].
  - rewrite split_cons, mentions_cons.
    destruct (Ascii.eqb x c) eqn:Hx.
    + intros [<-|Hf]; [done|]. destruct (IH f Hf) as [H1 H2].
      split; [done|]. intros H. apply orb_false_iff in H as [_ H]. auto.
    + pose proof (split_nonempty c s) as Hne.
      destruct (Py.split c s) as [|g gs]; [done|]. clear Hne.
      intros [<-|Hf].
      * destruct (IH g (or_introl eq_refl)) as [H1 H2].
        rewrite !mentions_cons, Hx, H1. split; [done|].
        intros H. apply orb_false_iff in H as [-> H]. auto.
      * destruct (IH f (or_intror Hf)) as [H1 H2].
        split; [done|]. intros H. apply orb_false_iff in H as [_ H]. auto.
Qed.

Lemma replace_cons c x (s : string) :
  Py.replace c EmptyString (String x s)
  = if Ascii.eqb x c then Py.replace c EmptyString s
    else String x (Py.replace c EmptyString s).
Proof. reflexivity. Qed.

Lemma replace_mentions c c' (s : string) :
  mentions c (Py.replace c EmptyString s) = false /\
  (mentions c' s = false -> mentions c' (Py.replace c EmptyString s) = false).
Proof.
  induction s as [|x s [IH1 IH2]]; [done|].
  rewrite replace_cons, mentions_cons. destruct (Ascii.eqb x c) eqn:Hx.
  - split; [done|]. intros H. apply orb_false_iff in H as [_ H]. auto.
  - rewrite !mentions_cons, Hx, IH1. split; [done|].
    intros H. apply orb_false_iff in H as [-> H]. auto.
Qed.

Lemma replace_free c (s : string) :
  mentions c s = false -> Py.replace c EmptyString s = s.
Proof.
  induction s as [|x s IH]; [done|]. rewrite mentions_cons, replace_cons.
  intros H. apply orb_false_iff in H as [-> H]. by rewrite (IH H).
Qed.

Lemma replace_app c (a b : string) :
  Py.replace c EmptyString (a +:+ b)
  = Py.replace c EmptyString a +:+ Py.replace c EmptyString b.
Proof.
  induction a as [|x a IH]; [done|].
  rewrite string_app_cons, !replace_cons.
  destruct (Ascii.eqb x c); [done|]. by rewrite string_app_cons, IH.
Qed.

(** ** Identifiers *)

Lemma nth_in_or_empty (l : list string) i :
  In (nth i l EmptyString) l \/ nth i l EmptyString = EmptyString.
Proof.
  destruct (List.nth_in_or_default i l EmptyString); [by left | by right].
Qed.

(** A character that is a delimiter, or that the line does not hold, is in
    no identifier of the line. *)
Lemma segment_free c (line : string) (pick : string -> string) token :
  In c delimiters \/ mentions c line = false ->
  (pick = reference_field \/ pick = target_field) ->
  In token (gene_tokens (pick line)) ->
  mentions c (second_segment token) = false.
Proof.
  intros Hc Hpick Htok.
  pose proof (proj1 (replace_mentions LF LF line)) as HLF.
  pose proof (proj2 (replace_mentions LF c line)) as Hkeep0.
  (* the field *)
  assert (mentions TAB (pick line) = false /\
          mentions LF (pick line) = false /\
          (mentions c line = false -> mentions c (pick line) = false))
    as (HfT & HfL & Hfk).
  { assert (forall i,
      mentions TAB (nth i (row_fields line) EmptyString) = false /\
      mentions LF (nth i (row_fields line) EmptyString) = false /\
      (mentions c line = false ->
       mentions c (nth i (row_fields line) EmptyString) = false)) as Hn.
    { intros i. destruct (nth_in_or_empty (row_fields line) i) as [Hin| ->];
        [|done].
      unfold row_fields in Hin.
      split_and!.
      - exact (proj1 (split_elem TAB TAB _ _ Hin)).
      - exact (proj2 (split_elem TAB LF _ _ Hin) HLF).
      - intros H. apply (proj2 (split_elem TAB c _ _ Hin)). auto. }
    destruct Hpick as [-> | ->]; apply Hn. }
  (* the token *)
  unfold gene_tokens in Htok.
  pose proof (replace_mentions SPACE SPACE (pick line)) as [HsS _].
  pose proof (proj2 (replace_mentions SPACE TAB (pick line)) HfT) as HsT.
  pose proof (proj2 (replace_mentions SPACE LF (pick line)) HfL) as HsL.
  pose proof (proj2 (replace_mentions SPACE c (pick line))) as Hsk.
  pose proof (split_elem COMMA COMMA _ _ Htok) as [HtC _].
  pose proof (proj2 (split_elem COMMA SPACE _ _ Htok) HsS) as HtS.
  pose proof (proj2 (split_elem COMMA TAB _ _ Htok) HsT) as HtT.
  pose proof (proj2 (split_elem COMMA LF _ _ Htok) HsL) as HtL.
  pose proof (proj2 (split_elem COMMA c _ _ Htok)) as Htk.
  (* the segment *)
  unfold second_segment.
  destruct (nth_in_or_empty (segments token) 1) as [Hin| ->]; [|done].
  unfold segments in Hin.
  destruct Hc as [Hc|Hc].
  - unfold delimiters in Hc. simpl in Hc.
    destruct Hc as [<-|[<-|[<-|[<-|[<-|[]]]]]].
    + exact (proj2 (split_elem PIPE LF _ _ Hin) HtL).
    + exact (proj2 (split_elem PIPE TAB _ _ Hin) HtT).
    + exact (proj2 (split_elem PIPE SPACE _ _ Hin) HtS).
    + exact (proj2 (split_elem PIPE COMMA _ _ Hin) HtC).
    + exact (proj1 (split_elem PIPE PIPE _ _ Hin)).
  - apply (proj2 (split_elem PIPE c _ _ Hin)). auto.
Qed.

Lemma in_product (rs ts : list string) (p : tuple) :
  In p (product rs ts) -> In p.1 rs /\ In p.2 ts.
Proof.
  unfold product. rewrite in_flat_map. intros (r & Hr & Hp).
  apply in_map_iff in Hp as (t & <- & Ht). done.
Qed.

Lemma row_pairs_free c (line : string) (p : tuple) :
  In c delimiters \/ mentions c line = false ->
  In p (row_pairs line) ->
  mentions c p.1 = false /\ mentions c p.2 = false.
Proof.
  intros Hc Hp. apply in_product in Hp as [H1 H2].
  apply in_map_iff in H1 as (t1 & <- & Ht1).
  apply in_map_iff in H2 as (t2 & <- & Ht2).
  split.
  - by apply (segment_free c line reference_field t1); [| left |].
  - by apply (segment_free c line target_field t2); [| right |].
Qed.

Lemma line_pairs_in_row_pairs (line : string) (p : tuple) :
  In p (line_pairs line) -> In p (row_pairs line).
Proof.
  unfold line_pairs. destruct (Py.contains header_marker line); [done|].
  by destruct (length (row_fields line) <? 3).
Qed.

(** No line handed over by the file iteration holds a carriage return. *)
Lemma lines_no_cr (s l : string) : In l (Py.lines s) -> mentions CR l = false.
Proof.
  assert (forall n (t : string), String.length t <= n ->
            forall l, In l (Py.lines t) -> mentions CR l = false) as H;
    [|by apply (H (String.length s) s)].
  clear s l. induction n as [|n IH]; intros t Hn l.
  { destruct t; [done | simpl in Hn; lia]. }
  destruct t as [|c t]; [done|]. simpl in Hn. rewrite lines_cons.
  destruct (Ascii.eqb c LF) eqn:HLF.
  { intros [<-|Hl]; [done|]. apply (IH t); [lia | done]. }
  destruct (Ascii.eqb c CR) eqn:HCR.
  { destruct t as [|c' t]; [by intros [<-|[]]|]. simpl in Hn.
    destruct (Ascii.eqb c' LF).
    - intros [<-|Hl]; [done|]. apply (IH t); [lia | done].
    - intros [<-|Hl]; [done|]. apply (IH (String c' t)); [simpl; lia | done]. }
  destruct (Py.lines t) as [|l0 ls] eqn:Hs.
  - intros [<-|[]]. simpl. by rewrite HCR.
  - intros [<-|Hl].
    + rewrite mentions_cons, HCR. apply (IH t); [lia|].
      rewrite Hs. by left.
    + apply (IH t); [lia|]. rewrite Hs. by right.
Qed.

Lemma in_take {A} (l : list A) n x : In x (take n l) -> In x l.
Proof.
  revert n. induction l as [|y l IH]; intros [|n]; simpl; try done.
  intros [->|H]; [by left | right; by apply (IH n)].
Qed.

Lemma reader_lines_in (f : file) l :
  In l (r_lines (reader_of f)) -> In l (Py.lines (text f)).
Proof.
  unfold reader_of. destruct (read_fault f); simpl; [apply in_take | done].
Qed.

(** What a returning [extract_orthologous_pairs] returns. *)
Lemma extract_ok_pairs input_file w pairs w' :
  extract_orthologous_pairs input_file w = (Ok pairs, w') ->
  pairs = file_pairs (fs w) input_file.
Proof.
  intros H. pose proof (file_outcome_extract input_file w) as Ho.
  rewrite H in Ho. simpl in Ho.
  destruct (harmless_or_fatal (fs w) input_file) as [Hh|Hf].
  - rewrite (harmless_outcome _ _ Hh) in Ho. by simplify_eq.
  - by rewrite (fatal_outcome _ _ Hf) in Ho.
Qed.

Lemma file_pairs_lines m input_file p :
  In p (file_pairs m input_file) ->
  exists f line,
    m !! input_file = Some (Reg f) /\ In line (Py.lines (text f)) /\
    In p (row_pairs line).
Proof.
  unfold file_pairs. destruct (m !! input_file) as [[|f]|]; try done.
  destruct (readable f); [|done]. intros Hp.
  apply in_flat_map in Hp as (line & Hl & Hp). exists f, line.
  split_and!; [done | by apply reader_lines_in | by apply line_pairs_in_row_pairs].
Qed.

Lemma lines_line (x rest : string) :
  mentions LF x = false -> mentions CR x = false ->
  Py.lines (x +:+ String LF rest) = (x +:+ newline) :: Py.lines rest.
Proof.
  induction x as [|c x IH]; intros HLF HCR.
  - change (EmptyString +:+ String LF rest) with (String LF rest).
    by rewrite lines_cons, Ascii.eqb_refl.
  - rewrite mentions_cons in HLF, HCR.
    apply orb_false_iff in HLF as [Hc1 HLF].
    apply orb_false_iff in HCR as [Hc2 HCR].
    rewrite !string_app_cons, lines_cons, Hc1, Hc2, (IH HLF HCR). done.
Qed.

Lemma row_fields_pair_line (a b : string) :
  mentions LF a = false -> mentions TAB a = false ->
  mentions LF b = false -> mentions TAB b = false ->
  row_fields (pair_line (a, b)) = [a; b].
Proof.
  intros HaL HaT HbL HbT. unfold row_fields, pair_line, tabs, newline. simpl.
  rewrite !replace_app, (replace_free LF a HaL), (replace_free LF b HbL).
  replace (Py.replace LF EmptyString (String TAB EmptyString))
    with (String TAB EmptyString) by reflexivity.
  replace (Py.replace LF EmptyString (String LF EmptyString))
    with EmptyString by reflexivity.
  rewrite string_app_nil_r.
  change (a +:+ String TAB EmptyString +:+ b) with (a +:+ String TAB b).
  by rewrite (split_app_sep TAB a b HaT), (split_free TAB b HbT).
Qed.

Lemma pairs_text_lines (pairs : list tuple) :
  Forall (fun p => free_of [LF; CR; TAB] p.1 /\ free_of [LF; CR; TAB] p.2)
    pairs ->
  Py.lines (pairs_text pairs) = map pair_line pairs /\
  map row_fields (map pair_line pairs) = map (fun p => [p.1; p.2]) pairs.
Proof.
  induction 1 as [|[a b] pairs [Ha Hb] _ [IH1 IH2]]; [done|].
  unfold free_of in Ha, Hb. simpl in Ha, Hb.
  apply Forall_cons in Ha as [HaL Ha]. apply Forall_cons in Ha as [HaC Ha].
  apply Forall_cons in Ha as [HaT _].
  apply Forall_cons in Hb as [HbL Hb]. apply Forall_cons in Hb as [HbC Hb].
  apply Forall_cons in Hb as [HbT _].
  split.
  - cbn [pairs_text foldr map]. fold (pairs_text pairs).
    replace (pair_line (a, b) +:+ pairs_text pairs)
      with ((a +:+ tabs +:+ b) +:+ String LF (pairs_text pairs))
      by (unfold pair_line, newline; simpl; by rewrite !string_app_assoc).
    rewrite lines_line, IH1.
    + unfold pair_line. simpl. by rewrite !string_app_assoc.
    + rewrite !mentions_app, HaL, HbL. done.
    + rewrite !mentions_app, HaC, HbC. done.
  - cbn [map]. by rewrite IH2, row_fields_pair_line.
Qed.

Lemma file_pairs_free m input_file :
  Forall (fun p => free_of (CR :: delimiters) p.1 /\
                   free_of (CR :: delimiters) p.2)
    (file_pairs m input_file).
Proof.
  apply List.Forall_forall. intros p Hp.
  apply file_pairs_lines in Hp as (f & line & _ & Hl & Hp).
  pose proof (lines_no_cr _ _ Hl) as Hcr.
  assert (forall c, In c (CR :: delimiters) ->
            mentions c p.1 = false /\ mentions c p.2 = false) as H.
  { intros c [<-|Hc]; apply (row_pairs_free _ line); auto. }
  split; apply List.Forall_forall; intros c Hc; by apply H.
Qed.

Lemma free_of_sub (cs cs' : list ascii) (s : string) :
  (forall c, In c cs' -> In c cs) -> free_of cs s -> free_of cs' s.
Proof.
  unfold free_of. rewrite !List.Forall_forall. auto.
Qed.

(** ** A run whose output cannot be opened *)

Lemma file_body_unwritable out f w :
  ~ can_append (fs w) out ->
  exists w', file_body out f w = (first_outcome (fs w) [f], w') /\ fs w' = fs w.
Proof.
  intros Hc. unfold file_body, bind. rewrite extract_local. simpl.
  destruct (file_outcome (fs w !! f) f) as [pairs|e].
  - rewrite write_pairs_fail by done. by eexists.
  - by eexists.
Qed.

Lemma files_unwritable out files w :
  ~ can_append (fs w) out ->
  exists w',
    for_each files (file_body out) w = (first_outcome (fs w) files, w') /\
    fs w' = fs w.
Proof.
  intros Hc. destruct files as [|f files]; [by exists w|].
  destruct (file_body_unwritable out f w Hc) as (w' & Hrun & Hfs).
  exists w'. split; [|done]. simpl in *.
  destruct (file_outcome (fs w !! f) f) as [pairs|e];
    by apply for_each_cons_raise.
Qed.

Lemma dirs_unwritable out (dirs : list string) w :
  ~ can_append (fs w) out ->
  Forall (fun d => node_is_dir (fs w !! d) = true) dirs ->
  exists w',
    for_each dirs (dir_body out) w
    = (first_outcome (fs w) (flat_map (tsv_files (fs w)) dirs), w') /\
    fs w' = fs w.
Proof.
  intros Hc Hds. revert w Hc Hds.
  induction dirs as [|d dirs IH]; intros w Hc Hds; [by exists w|].
  apply Forall_cons in Hds as [Hd Hds].
  destruct (files_unwritable out (tsv_files (fs w) d) (log (Scandir d) w) Hc)
    as (w1 & Hrun & Hfs).
  simpl in Hrun, Hfs.
  assert (dir_body out d w = (first_outcome (fs w) (tsv_files (fs w) d), w1))
    as Hbody.
  { unfold dir_body, bind, scandir. unfold tsv_files, dir_names in Hrun |- *.
    by destruct (fs w !! d) as [[names wr|]|]. }
  cbn [flat_map].
  destruct (tsv_files (fs w) d) as [|f files] eqn:Hfiles.
  - rewrite (for_each_cons_ok _ _ _ _ _ Hbody). simpl.
    destruct (IH w1) as (w' & Hrun' & Hfs'); [by rewrite Hfs..|].
    exists w'. rewrite Hfs in Hrun'. split; [done | by rewrite Hfs'].
  - exists w1. split; [|done]. simpl in *.
    destruct (file_outcome (fs w !! f) f) as [pairs|e];
      by apply for_each_cons_raise.
Qed.

Lemma process_unwritable root out w :
  node_is_dir (fs w !! root) = true ->
  ~ can_append (fs w) out ->
  exists w',
    process_orthofinder_predictions root out w
    = (first_outcome (fs w) (input_files (fs w) root), w') /\
    fs w' = fs w.
Proof.
  intros Hroot Hc. rewrite process_unfold, Hroot.
  apply (dirs_unwritable out (subdirs (fs w) root) (log (Scandir root) w) Hc).
  apply List.Forall_forall. intros d Hd. by apply (subdirs_is_dir root).
Qed.

(** ** The walk, when the output reads as nothing *)

Lemma terminated_app (a b : string) :
  terminated a = true -> terminated b = true -> terminated (a +:+ b) = true.
Proof.
  intros Ha Hb. induction a as [|c a IH]; [done|].
  destruct a as [|c' a].
  - simpl in Ha. apply Ascii.eqb_eq in Ha as ->.
    change (String LF EmptyString +:+ b) with (String LF b).
    destruct b; [done | by rewrite terminated_cons].
  - rewrite terminated_cons in Ha by done.
    rewrite string_app_cons, terminated_cons; [by apply IH|].
    by rewrite string_app_cons.
Qed.

Lemma inert_line_pairs (line : string) :
  inert_line line -> passable line /\ line_pairs line = [].
Proof.
  unfold inert_line, passable, line_pairs, is_header, short_row.
  intros [Hh|Hs].
  - split; [by left|]. by rewrite Hh.
  - split; [right; by left|].
    destruct (Py.contains header_marker line); [done|].
    by rewrite (proj2 (Nat.ltb_lt _ _)).
Qed.

Lemma inert_lines_pairs (ls : list string) :
  Forall inert_line ls -> Forall passable ls /\ flat_map line_pairs ls = [].
Proof.
  induction 1 as [|l ls Hl _ [IH1 IH2]]; [done|].
  destruct (inert_line_pairs l Hl) as [Hp Hn].
  split; [by constructor|]. simpl. by rewrite Hn, IH2.
Qed.

(** Reading what reads as inert lines gives no pair and raises nothing. *)
Lemma inert_outcome (m : gmap string node) (p : string) :
  inert_text (text_at m p) -> file_outcome (m !! p) p = Ok [].
Proof.
  unfold inert_text, text_at, file_outcome. intros [_ Hl].
  pose proof (solo_lookup p (m !! p)) as Hs.
  destruct (m !! p) as [[names wr|f]|];
    try (rewrite extract_unopenable by (unfold unopenable; by rewrite Hs);
         done).
  destruct (readable f) eqn:Hr;
    [|rewrite extract_unopenable by (unfold unopenable; by rewrite Hs); done].
  assert (Forall inert_line (r_lines (reader_of f))) as Hin.
  { unfold reader_of. destruct (read_fault f); simpl; [|done].
    by apply Forall_take. }
  destruct (inert_lines_pairs _ Hin) as [Hp Hn].
  by rewrite (extract_passable _ _ f Hs Hr Hp), Hn.
Qed.

(** What a file gives, when reading it returns. *)
Lemma file_outcome_pairs (m : gmap string node) f pairs :
  file_outcome (m !! f) f = Ok pairs -> pairs = file_pairs m f.
Proof.
  intros Ho. destruct (harmless_or_fatal m f) as [Hh|Hf].
  - rewrite (harmless_outcome _ _ Hh) in Ho. by simplify_eq.
  - by rewrite (fatal_outcome _ _ Hf) in Ho.
Qed.

(** The lines written for the pairs of a file are inert: they have two
    fields. *)
Lemma inert_text_app (t : string) (m : gmap string node) f :
  inert_text t -> inert_text (t +:+ pairs_text (file_pairs m f)).
Proof.
  intros [Ht Hl].
  assert (Forall (fun p => free_of [LF; CR; TAB] p.1 /\
                           free_of [LF; CR; TAB] p.2) (file_pairs m f))
    as Hfree.
  { eapply Forall_impl; [apply file_pairs_free|].
    assert (forall c, In c [LF; CR; TAB] -> In c (CR :: delimiters)) as Hsub
      by (unfold delimiters; simpl; intuition).
    intros p [H1 H2]. split; by eapply free_of_sub. }
  destruct (pairs_text_lines _ Hfree) as [Hlines _].
  split.
  - apply terminated_app; [done | apply pairs_text_terminated].
  - rewrite (lines_app _ _ Ht), Hlines. apply Forall_app. split; [done|].
    apply List.Forall_forall. intros l Hin.
    apply in_map_iff in Hin as ([a b] & <- & Hp). right.
    rewrite List.Forall_forall in Hfree. destruct (Hfree _ Hp) as [Ha Hb].
    unfold free_of in Ha, Hb. simpl in Ha, Hb.
    apply Forall_cons in Ha as [HaL Ha]. apply Forall_cons in Ha as [_ Ha].
    apply Forall_cons in Ha as [HaT _].
    apply Forall_cons in Hb as [HbL Hb]. apply Forall_cons in Hb as [_ Hb].
    apply Forall_cons in Hb as [HbT _].
    unfold short_row. rewrite row_fields_pair_line by done. simpl. lia.
Qed.

Lemma inert_text_nil : inert_text EmptyString.
Proof. by split. Qed.

Lemma others_app out (a b : list string) :
  others out (a ++ b) = others out a ++ others out b.
Proof. apply List.filter_app. Qed.

(** What a listing selects besides the output depends on the entries
    besides the output alone. *)
Lemma others_select {A} out (sel : DirEntry -> bool) (f g : A -> DirEntry)
    (l : list A) :
  (forall x, In x l ->
     path (f x) = path (g x) /\
     (path (g x) <> out -> sel (f x) = sel (g x))) ->
  others out (map path (List.filter sel (map f l)))
  = others out (map path (List.filter sel (map g l))).
Proof.
  induction l as [|x l IH]; intros H; [done|]. simpl.
  destruct (H x (or_introl eq_refl)) as [Hp Hs].
  assert (others out (map path (List.filter sel (map f l)))
          = others out (map path (List.filter sel (map g l)))) as IH'
    by (apply IH; intros y Hy; apply H; by right).
  destruct (decide (path (g x) = out)) as [Heq|Hne].
  - assert (forall (e : DirEntry) rest, path e = out ->
              others out (map path (if sel e then e :: rest else rest))
              = others out (map path rest)) as Hdrop.
    { intros e rest He. destruct (sel e); [|done]. simpl.
      by rewrite He, String.eqb_refl. }
    rewrite !Hdrop by congruence. exact IH'.
  - rewrite (Hs Hne). destruct (sel (g x)); [|done]. simpl.
    by rewrite Hp, IH'.
Qed.

Lemma inv_after_write out m0 w pairs :
  inv out m0 w ->
  exists w',
    write_orthologous_pairs pairs out w = (Ok tt, w') /\
    inv out m0 w' /\
    text_at (fs w') out = text_at (fs w) out +:+ pairs_text pairs.
Proof.
  intros (Hag & Hg & Hc).
  destruct (write_pairs_ok pairs out w Hc) as (w' & Hrun & Hfs & _ & _).
  exists w'. unfold inv. rewrite Hfs.
  split_and!; [done | .. | by apply text_at_appended].
  - intros k Hk Hd. by rewrite lookup_insert_ne, listed_lookup_ne, Hag.
  - intros Hd. rewrite lookup_insert_ne by done.
    eapply grown_trans; [by apply Hg | by apply listed_grown].
  - by apply can_append_appended.
Qed.

Section Alias.
Variables (out root : string) (m0 : gmap string node).
Hypothesis out_not_dir : node_is_dir (m0 !! out) = false.

(** Reading the output itself gives no pair; nothing is written for it. *)
Lemma alias_file_out w :
  inv_inert out m0 w ->
  exists w',
    file_body out out w = (Ok tt, w') /\
    inv_inert out m0 w' /\
    text_at (fs w') out = text_at (fs w) out.
Proof.
  intros [Hi Ht]. unfold file_body, bind.
  rewrite extract_local, (inert_outcome _ _ Ht).
  destruct (inv_after_write out m0
              (add_warnings (file_warnings (fs w !! out) out)
                 (log (Open out ModeR) w)) [] Hi)
    as (w' & Hrun & Hi' & Htext).
  simpl in Htext. rewrite string_app_nil_r in Htext.
  exists w'. split_and!; [done | | done]. split; [done | by rewrite Htext].
Qed.

Lemma alias_file_other w f :
  inv_inert out m0 w -> f <> out ->
  exists w',
    file_body out f w = ((files_outcome m0 [f]).1, w') /\
    inv_inert out m0 w' /\
    text_at (fs w') out
    = text_at (fs w) out +:+ pairs_text (files_outcome m0 [f]).2.
Proof.
  intros [Hi Ht] Hf.
  destruct (file_step out m0 w f Hi Hf) as (w' & Hrun & Hi' & Htext & _).
  exists w'. split_and!; [done | | done]. split; [done|].
  rewrite Htext. simpl.
  destruct (file_outcome (m0 !! f) f) as [pairs|e] eqn:Ho; simpl.
  - rewrite app_nil_r, (file_outcome_pairs _ _ _ Ho). by apply inert_text_app.
  - by rewrite string_app_nil_r.
Qed.

Lemma alias_files files w :
  inv_inert out m0 w ->
  exists w',
    for_each files (file_body out) w
    = ((files_outcome m0 (others out files)).1, w') /\
    inv_inert out m0 w' /\
    text_at (fs w') out
    = text_at (fs w) out +:+ pairs_text (files_outcome m0 (others out files)).2.
Proof.
  revert w. induction files as [|f files IH]; intros w Hi.
  - exists w. simpl. by rewrite string_app_nil_r.
  - cbn [others List.filter]. fold (others out files).
    destruct (String.eqb_spec f out) as [->|Hf]; cbn [negb].
    + destruct (alias_file_out w Hi) as (w1 & H1 & Hi1 & Ht1).
      destruct (IH w1 Hi1) as (w2 & H2 & Hi2 & Ht2).
      exists w2. rewrite (for_each_cons_ok _ _ _ _ _ H1).
      split_and!; [done | done | by rewrite Ht2, Ht1].
    + destruct (alias_file_other w f Hi Hf) as (w1 & H1 & Hi1 & Ht1).
      change (f :: others out files) with ([f] ++ others out files).
      rewrite files_outcome_app.
      destruct (files_outcome m0 [f]) as [[[]|e] wa] eqn:Ho; simpl in H1, Ht1.
      * destruct (IH w1 Hi1) as (w2 & H2 & Hi2 & Ht2).
        exists w2. rewrite (for_each_cons_ok _ _ _ _ _ H1), H2.
        destruct (files_outcome m0 (others out files)) as [r wb]. simpl in *.
        split_and!; [done | done |].
        by rewrite Ht2, Ht1, pairs_text_app, string_app_assoc.
      * exists w1. rewrite (for_each_cons_raise _ _ _ _ _ _ H1).
        by split_and!.
Qed.

(** The files a listing selects, besides the output, are those it selected
    on [m0]. *)
Lemma alias_select w d names wr :
  inv out m0 w -> m0 !! d = Some (Dir names wr) ->
  others out
    (map path (List.filter is_tsv (map (dir_entry (fs w) d) (dir_names (fs w) d))))
  = others out (tsv_files m0 d).
Proof.
  intros Hi Hd.
  destruct (inv_dir out m0 out_not_dir w d names wr Hi Hd)
    as (names' & Hd' & Hn).
  unfold tsv_files, dir_names. rewrite Hd, Hd'.
  assert (others out
            (map path (List.filter is_tsv (map (dir_entry (fs w) d) names)))
          = others out
              (map path (List.filter is_tsv (map (dir_entry m0 d) names))))
    as Hsame.
  { apply others_select. intros n _. split; [done|]. simpl. intros Hne.
    unfold is_tsv. simpl. by rewrite (inv_is_file out m0 w _ Hi Hne). }
  destruct Hn as [->|(-> & _ & Hj)]; [done|].
  rewrite map_app, List.filter_app, map_app, others_app, Hsame. simpl.
  destruct (is_tsv (dir_entry (fs w) d (Py.basename out))); simpl;
    [|by rewrite app_nil_r].
  by rewrite Hj, String.eqb_refl, app_nil_r.
Qed.

Lemma alias_dir w d :
  inv_inert out m0 w -> In d (subdirs m0 root) ->
  exists w',
    dir_body out d w
    = ((files_outcome m0 (others out (tsv_files m0 d))).1, w') /\
    inv_inert out m0 w' /\
    text_at (fs w') out
    = text_at (fs w) out
      +:+ pairs_text (files_outcome m0 (others out (tsv_files m0 d))).2.
Proof.
  intros Hi Hd. pose proof (subdirs_is_dir root m0 d Hd) as Hdir.
  destruct (m0 !! d) as [[names wr|]|] eqn:Hm; try done.
  destruct (inv_dir out m0 out_not_dir w d names wr (proj1 Hi) Hm)
    as (names' & Hd' & _).
  unfold dir_body, bind at 1, scandir. rewrite Hd'.
  replace names' with (dir_names (fs w) d)
    by (unfold dir_names; by rewrite Hd').
  rewrite <- (alias_select w d names wr (proj1 Hi) Hm).
  by apply (alias_files _ (log (Scandir d) w)).
Qed.

Lemma alias_dirs dirs w :
  inv_inert out m0 w -> Forall (fun d => In d (subdirs m0 root)) dirs ->
  exists w',
    for_each dirs (dir_body out) w
    = ((files_outcome m0 (others out (flat_map (tsv_files m0) dirs))).1, w') /\
    inv_inert out m0 w' /\
    text_at (fs w') out
    = text_at (fs w) out
      +:+ pairs_text
            (files_outcome m0 (others out (flat_map (tsv_files m0) dirs))).2.
Proof.
  intros Hi Hds. revert w Hi.
  induction Hds as [|d dirs Hd _ IH]; intros w Hi.
  - exists w. simpl. by rewrite string_app_nil_r.
  - destruct (alias_dir w d Hi Hd) as (w1 & H1 & Hi1 & Ht1).
    cbn [flat_map]. rewrite others_app, files_outcome_app.
    destruct (files_outcome m0 (others out (tsv_files m0 d)))
      as [[[]|e] wa] eqn:Ho; simpl in H1, Ht1.
    + destruct (IH w1 Hi1) as (w2 & H2 & Hi2 & Ht2).
      exists w2. rewrite (for_each_cons_ok _ _ _ _ _ H1), H2.
      destruct (files_outcome m0 (others out (flat_map (tsv_files m0) dirs)))
        as [r wb]. simpl in *.
      split_and!; [done | done |].
      by rewrite Ht2, Ht1, pairs_text_app, string_app_assoc.
    + exists w1. rewrite (for_each_cons_raise _ _ _ _ _ _ H1). by split_and!.
Qed.

(** The whole run over a root that is a directory, from any world whose
    output reads as nothing: it ends as the files besides the output make
    it end, and appends their pairs. *)
Lemma alias_process w names wr :
  m0 !! root = Some (Dir names wr) ->
  inv_inert out m0 w ->
  exists w',
    process_orthofinder_predictions root out w
    = ((files_outcome m0 (others out (input_files m0 root))).1, w') /\
    inv_inert out m0 w' /\
    text_at (fs w') out
    = text_at (fs w) out
      +:+ pairs_text (files_outcome m0 (others out (input_files m0 root))).2.
Proof.
  intros Hm Hi. rewrite process_unfold.
  rewrite (inv_is_dir out m0 out_not_dir w root (proj1 Hi)), Hm. simpl.
  unfold subdirs at 1.
  rewrite (subdirs_inv out root m0 out_not_dir w names wr (proj1 Hi) Hm).
  apply (alias_dirs (subdirs m0 root) (log (Scandir root) w) Hi).
  by apply List.Forall_forall.
Qed.
End Alias.

(** Two runs, one after the other, on an output that was absent or empty:
    the second finds as many lines as the first left and leaves twice as
    many. *)
Lemma two_runs_double root out w :
  text_at (fs w) out = EmptyString ->
  line_count
    (fs (process_orthofinder_predictions root out
           (process_orthofinder_predictions root out w).2).2) out
  = 2 * line_count (fs (process_orthofinder_predictions root out w).2) out.
Proof.
  intros Hempty. unfold line_count.
  destruct (node_is_dir (fs w !! root)) eqn:Hdir; cycle 1.
  { rewrite (process_no_root root out w Hdir). simpl.
    rewrite process_no_root by done. simpl. by rewrite Hempty. }
  destruct (fs w !! root) as [[names wr|f]|] eqn:Hroot; try done.
  destruct (decide (can_append (fs w) out)) as [Hc|Hc].
  - pose proof (can_append_not_dir _ _ Hc) as Hnd.
    assert (inv_inert out (fs w) w) as Hi.
    { split; [by apply inv_start|]. rewrite Hempty. apply inert_text_nil. }
    destruct (alias_process out root (fs w) Hnd w names wr Hroot Hi)
      as (w1 & H1 & Hi1 & Ht1).
    destruct (alias_process out root (fs w) Hnd w1 names wr Hroot Hi1)
      as (w2 & H2 & _ & Ht2).
    rewrite H1. simpl. rewrite H2. simpl.
    rewrite Ht2, Ht1, Hempty.
    change (EmptyString +:+ ?s) with s.
    rewrite lines_app by apply pairs_text_terminated.
    rewrite length_app. lia.
  - destruct (process_unwritable root out w) as (w1 & H1 & Hfs1);
      [by rewrite Hroot | done |].
    destruct (process_unwritable root out w1) as (w2 & H2 & Hfs2);
      [by rewrite Hfs1, Hroot | by rewrite Hfs1 |].
    rewrite H1. simpl. rewrite H2. simpl.
    by rewrite Hfs2, Hfs1, Hempty.
Qed.

(** Two runs, one after the other, with an output that is not among the
    inputs: the second ends as the first and appends the text the first
    appended. *)
Lemma two_runs_same root out w :
  out ∉ candidates (fs w) root ->
  exists delta,
    (process_orthofinder_predictions root out
       (process_orthofinder_predictions root out w).2).1
    = (process_orthofinder_predictions root out w).1 /\
    text_at (fs (process_orthofinder_predictions root out w).2) out
    = text_at (fs w) out +:+ delta /\
    text_at (fs (process_orthofinder_predictions root out
                   (process_orthofinder_predictions root out w).2).2) out
    = text_at (fs (process_orthofinder_predictions root out w).2) out
      +:+ delta.
Proof.
  intros Hout.
  destruct (node_is_dir (fs w !! root)) eqn:Hdir; cycle 1.
  { exists EmptyString. rewrite (process_no_root root out w Hdir). simpl.
    rewrite process_no_root by done. simpl. by rewrite string_app_nil_r. }
  destruct (fs w !! root) as [[names wr|f]|] eqn:Hroot; try done.
  destruct (decide (can_append (fs w) out)) as [Hc|Hc].
  - pose proof (can_append_not_dir _ _ Hc) as Hnd.
    destruct (process_static out root (fs w) Hnd Hout w names wr Hroot
                (inv_start _ _ Hc))
      as (w1 & H1 & Hi1 & Ht1 & _).
    destruct (process_static out root (fs w) Hnd Hout w1 names wr Hroot Hi1)
      as (w2 & H2 & _ & Ht2 & _).
    exists (pairs_text (files_outcome (fs w) (input_files (fs w) root)).2).
    rewrite H1. simpl. rewrite H2. simpl. by split_and!.
  - destruct (process_unwritable root out w) as (w1 & H1 & Hfs1);
      [by rewrite Hroot | done |].
    destruct (process_unwritable root out w1) as (w2 & H2 & Hfs2);
      [by rewrite Hfs1, Hroot | by rewrite Hfs1 |].
    exists EmptyString. rewrite H1. simpl. rewrite H2. simpl.
    by rewrite Hfs2, Hfs1, string_app_nil_r.
Qed.

(** * The properties of the specification *)

(** C1. A row that is not a header, has at least three tab-separated fields
    and whose tokens in fields 1 and 2 all have a second [|]-segment adds
    to the pairs, whatever was collected before, the second segments of its
    R reference tokens paired with those of its T target tokens, reference
    by reference and target by target within a reference: R×T pairs. In a
    file whose other rows are gone through, the result has these pairs at
    the row's place. The file of the specification's example gives
    [("P12345","Q11111"); ("P67890","Q11111")], written as two lines. *)
Theorem C1_cross_product_per_row :
  (forall input_file line (o : list tuple) (w : world),
      ~ is_header line ->
      3 <= length (row_fields line) ->
      Forall well_formed (gene_tokens (reference_field line)) ->
      Forall well_formed (gene_tokens (target_field line)) ->
      line_body input_file line (o, w) = (Ok tt, (o ++ row_pairs line, w)) /\
      row_pairs line
      = flat_map (fun r => map (fun t => (second_segment r, second_segment t))
                               (gene_tokens (target_field line)))
                 (gene_tokens (reference_field line)) /\
      length (row_pairs line)
      = length (gene_tokens (reference_field line))
        * length (gene_tokens (target_field line)) /\
      forall w' f pre post,
        fs w' !! input_file = Some (Reg f) ->
        readable f = true ->
        r_lines (reader_of f) = pre ++ line :: post ->
        Forall passable pre -> Forall passable post ->
        (extract_orthologous_pairs input_file w').1
        = Ok (flat_map line_pairs pre ++ row_pairs line ++ flat_map line_pairs post))
  /\ (extract_orthologous_pairs "Sp1__v__Sp2.tsv" qfo_world).1
     = Ok [("P12345", "Q11111"); ("P67890", "Q11111")]
  /\ warned (extract_orthologous_pairs "Sp1__v__Sp2.tsv" qfo_world).2 = []
  /\ pairs_text [("P12345", "Q11111"); ("P67890", "Q11111")]
     = "P12345" +:+ tabs +:+ "Q11111" +:+ newline
       +:+ "P67890" +:+ tabs +:+ "Q11111" +:+ newline.
Proof.
  split; [|by vm_compute].
  intros input_file line o w Hh Hlen Hr Ht. split_and!.
  - by apply line_body_pairs.
  - apply product_map.
  - unfold row_pairs. by rewrite product_length, !length_map.
  - intros w' f pre post Hf Hrd Hl Hpre Hpost.
    assert (passable line) as Hline by (right; right; by split).
    rewrite (extract_passable _ _ _ Hf Hrd)
      by (rewrite Hl; apply Forall_app; split; [done | by constructor]).
    simpl. rewrite Hl, flat_map_app. simpl. do 3 f_equal.
    unfold line_pairs. unfold is_header in Hh.
    destruct (Py.contains header_marker line); [done|].
    by rewrite (proj2 (Nat.ltb_ge _ _)) by lia.
Qed.

Lemma C1_witness :
  line_body "Sp1__v__Sp2.tsv" qfo_row ([], qfo_world)
  = (Ok tt, ([("P12345", "Q11111"); ("P67890", "Q11111")], qfo_world)) /\
  (extract_orthologous_pairs "Sp1__v__Sp2.tsv" qfo_world).1
  = Ok [("P12345", "Q11111"); ("P67890", "Q11111")].
Proof.
  destruct (proj1 C1_cross_product_per_row "Sp1__v__Sp2.tsv" qfo_row [] qfo_world)
    as (Hline & _ & _ & Hfile).
  - by vm_compute.
  - vm_compute. lia.
  - decided.
  - decided.
  - split; [exact Hline|].
    rewrite (Hfile qfo_world (plain_file qfo_text) [qfo_header +:+ newline] []).
    + by vm_compute.
    + by vm_compute.
    + reflexivity.
    + by vm_compute.
    + decided.
    + decided.
Defined.

(** C2. A line in which the marker [Orthogroup] occurs anywhere is passed
    over: the pairs and the warnings are as they were, whatever else the line
    holds, and the file loop gives what it gives without the line. A data row
    that has the marker inside a gene token is passed over as well. *)
Theorem C2_marker_lines_skipped :
  forall input_file line (s : list tuple * world),
    (exists a b, line = a +:+ "Orthogroup" +:+ b) ->
    line_body input_file line s = (Ok tt, s) /\
    forall pre post,
      for_each (pre ++ line :: post) (line_body input_file) s
      = for_each (pre ++ post) (line_body input_file) s.
Proof.
  intros input_file line s (a & b & ->).
  assert (is_header (a +:+ "Orthogroup" +:+ b)) as Hh
    by apply (contains_intro header_marker).
  split; [by apply line_body_header|].
  intros pre post. rewrite !for_each_app. unfold bind.
  destruct (for_each pre (line_body input_file) s) as [[[]|e] s1]; [|done].
  by rewrite (for_each_cons_ok _ _ _ _ _ (line_body_header input_file _ s1 Hh)).
Qed.

Lemma C2_witness :
  line_body "x.tsv"
    (row ["OG7"; "sp|P1|Orthogroup_like"; "sp|Q1|G"] +:+ newline)
    ([], start ∅)
  = (Ok tt, ([], start ∅)).
Proof.
  apply (C2_marker_lines_skipped "x.tsv" _ ([], start ∅)).
  exists (row ["OG7"; "sp|P1|"]), ("_like" +:+ tabs +:+ "sp|Q1|G" +:+ newline).
  reflexivity.
Defined.

(** C3. A line without the marker that has fewer than three tab-separated
    fields adds no pair, records the warning that names the file and quotes
    the line, and the loop goes on with the next line. So every pair a file
    gives comes from a line without the marker that has at least three
    fields. *)
Theorem C3_short_rows_warned_and_skipped :
  (forall input_file line (o : list tuple) (w : world),
      ~ is_header line ->
      length (row_fields line) < 3 ->
      line_body input_file line (o, w)
      = (Ok tt, (o, add_warning (row_warning input_file line) w)) /\
      warned (add_warning (row_warning input_file line) w)
      = warned w ++ ["There is an issue with file '" +:+ input_file
                     +:+ "' in line '" +:+ line +:+ "'."] /\
      forall post,
        for_each (line :: post) (line_body input_file) (o, w)
        = for_each post (line_body input_file)
            (o, add_warning (row_warning input_file line) w))
  /\ (forall input_file w pairs w',
        extract_orthologous_pairs input_file w = (Ok pairs, w') ->
        forall p, In p pairs ->
        exists f line,
          fs w !! input_file = Some (Reg f) /\
          In line (r_lines (reader_of f)) /\
          ~ is_header line /\
          3 <= length (row_fields line) /\
          In p (row_pairs line)).
Proof.
  split.
  - intros input_file line o w Hh Hs.
    pose proof (line_body_short input_file line o w Hh Hs) as H.
    split_and!; [done | done |].
    intros post. by apply for_each_cons_ok.
  - intros input_file w pairs w' Hrun p Hp.
    destruct (fs w !! input_file) as [[names|f]|] eqn:Hf;
      try (rewrite extract_unopenable in Hrun
             by (unfold unopenable; by rewrite Hf);
           by simplify_eq).
    destruct (readable f) eqn:Hr;
      [|rewrite extract_unopenable in Hrun
          by (unfold unopenable; by rewrite Hf);
        by simplify_eq].
    destruct (first_bad_line (r_lines (reader_of f)))
      as [Hpass|(pre & line & post & Hl & Hpre & Hbad)].
    + rewrite (extract_passable _ _ f Hf Hr Hpass) in Hrun. simplify_eq.
      apply in_flat_map in Hp as (line & Hin & Hp).
      exists f, line. unfold line_pairs, is_header in *.
      destruct (Py.contains header_marker line); [done|].
      destruct (Nat.ltb_spec (length (row_fields line)) 3); [done|].
      by split_and!.
    + by rewrite (extract_bad_token _ _ f _ _ _ Hf Hr Hl Hpre Hbad) in Hrun.
Qed.

Lemma C3_witness :
  line_body "x.tsv" (row ["OG1"; "sp|P1|G1"] +:+ newline) ([], start ∅)
  = (Ok tt, ([], add_warning
                   (row_warning "x.tsv" (row ["OG1"; "sp|P1|G1"] +:+ newline))
                   (start ∅))) /\
  exists f line,
    fs qfo_world !! "Sp1__v__Sp2.tsv" = Some (Reg f) /\
    In line (r_lines (reader_of f)) /\
    ~ is_header line /\
    3 <= length (row_fields line) /\
    In ("P67890", "Q11111") (row_pairs line).
Proof.
  split.
  - apply (proj1 C3_short_rows_warned_and_skipped).
    + by vm_compute.
    + vm_compute. lia.
  - apply (proj2 C3_short_rows_warned_and_skipped "Sp1__v__Sp2.tsv" qfo_world
             [("P12345", "Q11111"); ("P67890", "Q11111")]
             (extract_orthologous_pairs "Sp1__v__Sp2.tsv" qfo_world).2).
    + by vm_compute.
    + right. by left.
Defined.

(** C4. A file that cannot be opened makes [extract_orthologous_pairs]
    record the warning that names the file and return the empty list; nothing
    is raised. The file loop writes nothing for it and goes on with the
    next file: the output is opened, its text is as it was, and nothing else
    changes but the listing of its directory when the output file is created.
    A run whose output path is not among the inputs ends as the run over the
    other files does, having read them all when none of them raises. *)
Theorem C4_unopenable_file_skipped :
  forall input_file w,
    unopenable (fs w) input_file ->
    extract_orthologous_pairs input_file w
    = (Ok [], add_warning (open_warning input_file)
                (log (Open input_file ModeR) w)) /\
    warned (extract_orthologous_pairs input_file w).2
    = warned w ++ ["Could not open file '" +:+ input_file +:+ "'."] /\
    (forall out rest,
        can_append (fs w) out ->
        exists w',
          file_body out input_file w = (Ok tt, w') /\
          for_each (input_file :: rest) (file_body out) w
          = for_each rest (file_body out) w' /\
          text_at (fs w') out = text_at (fs w) out /\
          touches_only out (fs w) (fs w')) /\
    (forall root out names writable before after,
        fs w !! root = Some (Dir names writable) ->
        can_append (fs w) out ->
        out ∉ candidates (fs w) root ->
        input_files (fs w) root = before ++ input_file :: after ->
        exists w',
          process_orthofinder_predictions root out w
          = ((files_outcome (fs w) (before ++ after)).1, w') /\
          text_at (fs w') out
          = text_at (fs w) out
            +:+ pairs_text (files_outcome (fs w) (before ++ after)).2 /\
          ((files_outcome (fs w) (before ++ after)).1 = Ok tt ->
           reads (trace w')
           = reads (trace w) ++ before ++ input_file :: after)).
Proof.
  intros input_file w Hu.
  pose proof (extract_unopenable input_file w Hu) as Hx.
  split_and!.
  - exact Hx.
  - by rewrite Hx.
  - intros out rest Hc.
    destruct (write_pairs_ok [] out
                (add_warning (open_warning input_file)
                   (log (Open input_file ModeR) w)) Hc)
      as (w' & Hw & Hfs & _ & _).
    assert (file_body out input_file w = (Ok tt, w')) as Hb
      by (unfold file_body; by rewrite (bind_ok _ _ _ _ _ Hx)).
    exists w'. split_and!; [done | by apply for_each_cons_ok | ..].
    + rewrite Hfs. simpl. rewrite text_at_appended by done.
      apply string_app_nil_r.
    + rewrite Hfs. simpl. by apply write_touches_only.
  - intros root out names wr before after Hroot Hc Hout Hfiles.
    assert (file_outcome (fs w !! input_file) input_file = Ok []) as Ho
      by (by rewrite <- file_outcome_extract, Hx).
    destruct (process_static out root (fs w) (can_append_not_dir _ _ Hc) Hout
                w names wr Hroot (inv_start _ _ Hc))
      as (w' & Hrun & _ & Ht & Hr & _).
    rewrite Hfiles in Hrun, Ht, Hr.
    pose proof (files_outcome_skip (fs w) before input_file after Ho) as Hs.
    exists w'. split_and!.
    + by rewrite <- Hs.
    + by rewrite <- Hs.
    + intros Hok. rewrite <- Hs in Hok. by rewrite Hr, (files_read_ok _ _ Hok).
Qed.

Lemma C4_witness :
  exists w',
    process_orthofinder_predictions "preds" "out.txt" (start two_dirs)
    = (Ok tt, w') /\
    text_at (fs w') "out.txt"
    = pairs_text [("P12345", "Q11111"); ("P67890", "Q11111")] /\
    reads (trace w')
    = ["preds/Sp1/locked.tsv"; "preds/Sp2/Sp2__v__Sp1.tsv"].
Proof.
  destruct (C4_unopenable_file_skipped "preds/Sp1/locked.tsv" (start two_dirs))
    as (_ & _ & _ & Hrun).
  - by vm_compute.
  - destruct (Hrun "preds" "out.txt" ["Sp1"; "Sp2"; "top.tsv"] true []
                ["preds/Sp2/Sp2__v__Sp1.tsv"])
      as (w' & Hp & Ht & Hr).
    + by vm_compute.
    + by vm_compute.
    + decided.
    + by vm_compute.
    + exists w'. split_and!.
      * rewrite Hp. by vm_compute.
      * rewrite Ht. by vm_compute.
      * rewrite Hr; by vm_compute.
Defined.

(** C5. On an output path that can be opened for appending (a regular file
    that may be appended to, or nothing there and a file can be created: the
    directory of the path is there and may be written to),
    [write_orthologous_pairs] opens it in append mode and returns; a regular
    file is there afterwards, created empty if there was none, and its text
    is the text before followed by one line [reference TAB target NEWLINE]
    per pair, in the order of the list; no other path changes, but that the
    directory of a created output lists it. Whatever the root and the output
    path, a second run doubles the line count that the first run leaves at
    an output path where there was nothing or an empty text before the first;
    and when the output is not among the inputs, whatever text it holds, the
    second run ends as the first and appends the text the first appended. *)
Theorem C5_append_in_order :
  (forall pairs out w,
      can_append (fs w) out ->
      exists w',
        write_orthologous_pairs pairs out w = (Ok tt, w') /\
        trace w' = trace w ++ [Open out ModeA] /\
        node_is_file (fs w' !! out) = true /\
        text_at (fs w') out = text_at (fs w) out +:+ pairs_text pairs /\
        touches_only out (fs w) (fs w') /\
        (fs w !! out = None ->
         In (Py.basename out) (dir_names (fs w') (Py.dirname out))))
  /\ pairs_text [] = EmptyString
  /\ (forall p pairs,
        pairs_text (p :: pairs)
        = p.1 +:+ String TAB p.2 +:+ String LF (pairs_text pairs))
  /\ (forall root out w,
        text_at (fs w) out = EmptyString ->
        line_count
          (fs (process_orthofinder_predictions root out
                 (process_orthofinder_predictions root out w).2).2) out
        = 2 * line_count
                (fs (process_orthofinder_predictions root out w).2) out)
  /\ (forall root out w,
        out ∉ candidates (fs w) root ->
        exists delta,
          (process_orthofinder_predictions root out
             (process_orthofinder_predictions root out w).2).1
          = (process_orthofinder_predictions root out w).1 /\
          text_at (fs (process_orthofinder_predictions root out w).2) out
          = text_at (fs w) out +:+ delta /\
          text_at (fs (process_orthofinder_predictions root out
                         (process_orthofinder_predictions root out w).2).2)
            out
          = text_at (fs (process_orthofinder_predictions root out w).2) out
            +:+ delta).
Proof.
  split_and!.
  - intros pairs out w Hc.
    destruct (write_pairs_ok pairs out w Hc) as (w' & Hrun & Hfs & _ & Htr).
    exists w'. rewrite Hfs. split_and!; [done | done | ..].
    + by rewrite lookup_insert_eq.
    + by apply text_at_appended.
    + by apply write_touches_only.
    + intros Hnone. pose proof (listed_grown out (fs w) Hc) as Hg.
      unfold can_append in Hc. rewrite Hnone in Hc.
      pose proof (creatable_dirname_ne _ _ Hc) as Hne.
      unfold dir_names. rewrite lookup_insert_ne by done.
      unfold listed in *. rewrite Hnone in *. rewrite lookup_alter_eq.
      unfold creatable in Hc.
      destruct (fs w !! Py.dirname out) as [[names wr|]|]; try done.
      simpl. unfold register. case_bool_decide as Hin.
      * by apply list_elem_of_In.
      * apply in_or_app. right. by left.
  - reflexivity.
  - intros p pairs. cbn [pairs_text foldr]. fold (pairs_text pairs).
    unfold pair_line, tabs, newline. by rewrite !string_app_assoc.
  - apply two_runs_double.
  - apply two_runs_same.
Qed.

Lemma C5_witness :
  (exists w',
      write_orthologous_pairs [("P12345", "Q11111")] "out.txt"
        (start {[ "out.txt" := Reg (plain_file "old line") ]})
      = (Ok tt, w') /\
      text_at (fs w') "out.txt"
      = "old line" +:+ "P12345" +:+ tabs +:+ "Q11111" +:+ newline) /\
  (exists w',
      write_orthologous_pairs [("P12345", "Q11111")] "preds/Sp2/out.txt"
        (start two_dirs)
      = (Ok tt, w') /\
      text_at (fs w') "preds/Sp2/out.txt"
      = "P12345" +:+ tabs +:+ "Q11111" +:+ newline /\
      In "out.txt" (dir_names (fs w') "preds/Sp2")) /\
  exists w1 w2,
    process_orthofinder_predictions "preds" "out.txt" (start two_dirs)
    = (Ok tt, w1) /\
    process_orthofinder_predictions "preds" "out.txt" w1 = (Ok tt, w2) /\
    line_count (fs w1) "out.txt" = 2 /\
    line_count (fs w2) "out.txt" = 2 * 2.
Proof.
  split_and!.
  - destruct (proj1 C5_append_in_order [("P12345", "Q11111")] "out.txt"
                (start {[ "out.txt" := Reg (plain_file "old line") ]}))
      as (w' & Hrun & _ & _ & Ht & _); [by vm_compute|].
    exists w'. split; [done|]. rewrite Ht. by vm_compute.
  - destruct (proj1 C5_append_in_order [("P12345", "Q11111")]
                "preds/Sp2/out.txt" (start two_dirs))
      as (w' & Hrun & _ & _ & Ht & _ & Hin); [by vm_compute|].
    exists w'. split_and!; [done | rewrite Ht; by vm_compute |].
    by apply Hin.
  - pose proof (proj1 (proj2 (proj2 (proj2 C5_append_in_order)))
                  "preds" "out.txt" (start two_dirs)) as Hcount.
    exists (process_orthofinder_predictions "preds" "out.txt"
              (start two_dirs)).2,
      (process_orthofinder_predictions "preds" "out.txt"
         (process_orthofinder_predictions "preds" "out.txt"
            (start two_dirs)).2).2.
    split_and!; [by vm_compute | by vm_compute | by vm_compute |].
    rewrite Hcount by (by vm_compute). by vm_compute.
Defined.

(** The statement without its conditions fails: [open] raises on an output
    path whose directory is missing, and on one that names a directory, and
    nothing is written; and an output that holds a line already has three
    lines after one run and five, not six, after two. *)
Lemma C5_counterexample :
  (write_orthologous_pairs [("P12345", "Q11111")] "missing/out.txt"
     (start two_dirs)).1 = Raise OSError /\
  fs (write_orthologous_pairs [("P12345", "Q11111")] "missing/out.txt"
        (start two_dirs)).2 !! "missing/out.txt" = None /\
  (write_orthologous_pairs [("P12345", "Q11111")] "preds" (start two_dirs)).1
  = Raise OSError /\
  exists w1 w2,
    process_orthofinder_predictions "preds" "out.txt" (start old_output)
    = (Ok tt, w1) /\
    process_orthofinder_predictions "preds" "out.txt" w1 = (Ok tt, w2) /\
    line_count (fs w1) "out.txt" = 3 /\
    line_count (fs w2) "out.txt" = 5.
Proof.
  split_and!; [by vm_compute..|].
  eexists _, _. split_and!; [by vm_compute | by vm_compute | ..]; by vm_compute.
Qed.





(** C8. A file that can be read up to a row which is not a header, has its
    three fields, and has in field 1 or field 2 a token with fewer than two
    [|]-segments (all rows before it being passable) makes
    [extract_orthologous_pairs] raise [IndexError]: the file system is as it
    was and the output path has not been opened, so none of the file's pairs
    is written; the file loop stops there. In a run whose output path is not
    among the inputs and whose earlier files raise nothing, the run raises
    [IndexError], exits with status 1, and the output has grown by the pairs
    of the earlier files alone. *)
Theorem C8_bad_token_aborts_run :
  forall input_file out_file w f pre line post,
    fs w !! input_file = Some (Reg f) ->
    readable f = true ->
    r_lines (reader_of f) = pre ++ line :: post ->
    Forall passable pre ->
    ~ is_header line ->
    3 <= length (row_fields line) ->
    Exists (fun token => length (segments token) < 2)
      (gene_tokens (reference_field line) ++ gene_tokens (target_field line)) ->
    (exists w',
        extract_orthologous_pairs input_file w = (Raise IndexError, w') /\
        file_body out_file input_file w = (Raise IndexError, w') /\
        (forall rest,
            for_each (input_file :: rest) (file_body out_file) w
            = (Raise IndexError, w')) /\
        fs w' = fs w /\
        trace w' = trace w ++ [Open input_file ModeR]) /\
    (forall root names writable before after,
        fs w !! root = Some (Dir names writable) ->
        can_append (fs w) out_file ->
        out_file ∉ candidates (fs w) root ->
        input_files (fs w) root = before ++ input_file :: after ->
        (files_outcome (fs w) before).1 = Ok tt ->
        exists w',
          process_orthofinder_predictions root out_file w
          = (Raise IndexError, w') /\
          (main root out_file w).1 = 1 /\
          text_at (fs w') out_file
          = text_at (fs w) out_file
            +:+ pairs_text (flat_map (file_pairs (fs w)) before)).
Proof.
  intros input_file out_file w f pre line post Hf Hr Hl Hpre Hh Hlen Hex.
  assert (bad_token_row line) as Hbad.
  { split_and!; [done..|]. eapply Exists_impl; [exact Hex|].
    intros t Ht. unfold well_formed. simpl in Ht. lia. }
  pose proof (extract_bad_token _ _ f _ _ _ Hf Hr Hl Hpre Hbad) as Hx.
  split.
  - eexists. split; [exact Hx|].
    assert (file_body out_file input_file w
            = (Raise IndexError,
               add_warnings (flat_map (line_warnings input_file) pre)
                 (log (Open input_file ModeR) w))) as Hb
      by (unfold file_body; by rewrite (bind_raise _ _ _ _ _ Hx)).
    split_and!; [done | | done..].
    intros rest. by apply for_each_cons_raise.
  - intros root names wr before after Hroot Hc Hout Hfiles Hbefore.
    assert (fatal (fs w) input_file) as Hfat
      by by exists f, pre, line, post.
    pose proof (files_outcome_fatal (fs w) before input_file after
                  (files_outcome_ok _ _ Hbefore) Hfat) as Ho.
    destruct (process_static out_file root (fs w)
                (can_append_not_dir _ _ Hc) Hout w names wr Hroot)
      as (w' & Hrun & _ & Ht & _); [by apply inv_start|].
    rewrite Hfiles, Ho in Hrun, Ht. simpl in Hrun, Ht.
    exists w'. split_and!; [done | | done].
    unfold main. by rewrite Hrun.
Qed.

Lemma C8_witness :
  (main "preds" "out.txt" bad_world).1 = 1 /\
  text_at (fs (main "preds" "out.txt" bad_world).2) "out.txt" = EmptyString /\
  fs (main "preds" "out.txt" bad_world).2 !! "out.txt" = None.
Proof.
  destruct (C8_bad_token_aborts_run "preds/Sp1/Sp1__v__Sp2.tsv" "out.txt"
              bad_world (plain_file bad_text)
              [qfo_header +:+ newline; qfo_row +:+ newline]
              (bad_row +:+ newline) [])
    as [_ Hrun].
  - by vm_compute.
  - reflexivity.
  - by vm_compute.
  - decided.
  - decided.
  - vm_compute. lia.
  - apply Exists_cons_hd. vm_compute. lia.
  - destruct (Hrun "preds" ["Sp1"] true [] []) as (w' & Hp & Hm & Ht).
    + by vm_compute.
    + by vm_compute.
    + decided.
    + by vm_compute.
    + by vm_compute.
    + split; [exact Hm|]. by vm_compute.
Defined.



(** C10. Called with no pair on an output path that can be opened for
    appending, [write_orthologous_pairs] still opens it: a file that was not
    there is created, empty, and its directory lists it; a file that was there
    is left as it was, and so is everything else. So a run that has at least
    one input file and returns leaves a regular file at the output path,
    whatever the pairs; and when no input file gives a pair and the output is
    not among the inputs, the text at the output path is the text before,
    empty for a file the run created. *)
Theorem C10_empty_write_creates_output :
  (forall out w,
      can_append (fs w) out ->
      exists w',
        write_orthologous_pairs [] out w = (Ok tt, w') /\
        trace w' = trace w ++ [Open out ModeA] /\
        node_is_file (fs w' !! out) = true /\
        text_at (fs w') out = text_at (fs w) out /\
        touches_only out (fs w) (fs w') /\
        (fs w !! out = None ->
         fs w' !! out = Some (Reg new_file) /\
         In (Py.basename out) (dir_names (fs w') (Py.dirname out))) /\
        (forall f, fs w !! out = Some (Reg f) -> fs w' = fs w)) /\
  (forall root out w w',
      process_orthofinder_predictions root out w = (Ok tt, w') ->
      input_files (fs w) root <> [] ->
      node_is_file (fs w' !! out) = true) /\
  (forall root out w w',
      out ∉ candidates (fs w) root ->
      process_orthofinder_predictions root out w = (Ok tt, w') ->
      flat_map (file_pairs (fs w)) (input_files (fs w) root) = [] ->
      text_at (fs w') out = text_at (fs w) out).
Proof.
  split_and!.
  - intros out w Hc.
    destruct (write_pairs_ok [] out w Hc) as (w' & Hrun & Hfs & _ & Htr).
    exists w'. rewrite Hfs. split_and!; [done | done | ..].
    + by rewrite lookup_insert_eq.
    + rewrite text_at_appended by done. simpl. apply string_app_nil_r.
    + by apply write_touches_only.
    + intros Hnone. unfold listed. rewrite Hnone. simpl.
      fold new_file. split; [by rewrite lookup_insert_eq|].
      unfold can_append in Hc. rewrite Hnone in Hc.
      pose proof (creatable_dirname_ne _ _ Hc) as Hne.
      unfold dir_names. rewrite lookup_insert_ne, lookup_alter_eq by done.
      unfold creatable in Hc.
      destruct (fs w !! Py.dirname out) as [[ns b|]|]; try done.
      simpl. apply register_In. by right.
    + intros f Hf. unfold listed. rewrite Hf. simpl. rewrite string_app_nil_r.
      apply insert_id. rewrite Hf. by destruct f.
  - intros root out w w'. apply process_ok_output.
  - intros root out w w' Hout Hrun Hp.
    destruct (node_is_dir (fs w !! root)) eqn:Hdir;
      [|by rewrite (process_no_root root out w Hdir) in Hrun].
    destruct (fs w !! root) as [[names wr|f]|] eqn:Hroot; try done.
    destruct (decide (can_append (fs w) out)) as [Hc|Hc].
    + destruct (process_static out root (fs w) (can_append_not_dir _ _ Hc)
                  Hout w names wr Hroot (inv_start _ _ Hc))
        as (w1 & Hrun1 & _ & Ht & _).
      rewrite Hrun in Hrun1. injection Hrun1 as Hok <-. symmetry in Hok.
      rewrite (files_outcome_harmless _ _ (files_outcome_ok _ _ Hok)) in Ht.
      simpl in Ht. rewrite Hp in Ht. simpl in Ht.
      by rewrite string_app_nil_r in Ht.
    + destruct (process_unwritable root out w) as (w1 & Hrun1 & Hfs);
        [by rewrite Hroot | done |].
      rewrite Hrun in Hrun1. injection Hrun1 as _ <-. by rewrite Hfs.
Qed.

Lemma C10_witness :
  (In "out.txt"
     (dir_names (fs (write_orthologous_pairs [] "out.txt" (start empty_dir)).2)
        "") /\
   text_at (fs (write_orthologous_pairs [] "out.txt" (start empty_dir)).2)
     "out.txt" = EmptyString) /\
  exists w',
    process_orthofinder_predictions "preds" "out.txt" (start header_only)
    = (Ok tt, w') /\
    node_is_file (fs w' !! "out.txt") = true /\
    text_at (fs w') "out.txt" = EmptyString.
Proof.
  destruct C10_empty_write_creates_output as (Hwrite & Hfile & Htext).
  split.
  - destruct (Hwrite "out.txt" (start empty_dir))
      as (w' & Hrun & _ & _ & _ & _ & Hnew & _).
    + by vm_compute.
    + destruct Hnew as [Hreg Hin]; [done|]. rewrite Hrun. simpl.
      split; [exact Hin | unfold text_at; by rewrite Hreg].
  - destruct (process_orthofinder_predictions "preds" "out.txt"
                (start header_only)) as [r w'] eqn:Hrun.
    assert (r = Ok tt) as -> by (by vm_compute in Hrun; simplify_eq).
    exists w'. split_and!; [done | |].
    + apply (Hfile "preds" "out.txt" (start header_only) w' Hrun).
      by vm_compute.
    + rewrite (Htext "preds" "out.txt" (start header_only) w');
        [by vm_compute | decided | done | by vm_compute].
Defined.

(** * Further properties of the code *)

(** ** Properties of the extractor *)

(** X1. The index the gene loops take, [token.split("|")[1]], is there
    exactly when the token holds a [|]: a token without one raises
    [IndexError]. For a token [prefix|identifier] and for a token
    [prefix|identifier|suffix], with no [|] in prefix and identifier, it is
    the identifier, whatever the suffix. *)
Theorem X1_identifier_of_a_token :
  (forall token,
      mentions PIPE token = false ->
      index (Py.split PIPE token) 1 = Raise IndexError) /\
  (forall token,
      mentions PIPE token = true ->
      index (Py.split PIPE token) 1 = Ok (second_segment token)) /\
  (forall prefix identifier,
      mentions PIPE prefix = false -> mentions PIPE identifier = false ->
      index (Py.split PIPE (prefix +:+ String PIPE identifier)) 1
      = Ok identifier) /\
  (forall prefix identifier suffix,
      mentions PIPE prefix = false -> mentions PIPE identifier = false ->
      index (Py.split PIPE
               (prefix +:+ String PIPE (identifier +:+ String PIPE suffix))) 1
      = Ok identifier).
Proof.
  split_and!.
  - intros token H. apply index_1_raise.
    destruct (decide (2 <= length (Py.split PIPE token))) as [Hl|Hl]; [|lia].
    apply split_length in Hl. by rewrite Hl in H.
  - intros token H. apply split_length in H. by apply index_1_ok.
  - intros prefix identifier Hp Hi.
    by rewrite (split_app_sep _ _ _ Hp), (split_free _ _ Hi).
  - intros prefix identifier suffix Hp Hi.
    by rewrite (split_app_sep _ _ _ Hp), (split_app_sep _ _ _ Hi).
Qed.

Lemma X1_witness :
  index (Py.split PIPE "P12345") 1 = Raise IndexError /\
  index (Py.split PIPE "sp|A1") 1 = Ok "A1" /\
  index (Py.split PIPE "sp|P12345|GENE1|x") 1 = Ok "P12345".
Proof.
  split_and!.
  - apply (proj1 X1_identifier_of_a_token). by vm_compute.
  - apply (proj1 (proj2 (proj2 X1_identifier_of_a_token)) "sp" "A1");
      by vm_compute.
  - apply (proj2 (proj2 (proj2 X1_identifier_of_a_token)) "sp" "P12345" "GENE1|x");
      by vm_compute.
Defined.

(** X2. No identifier the extractor gives holds a newline, a tab, a space,
    a comma or a [|]: the pairs a line adds are free of them whatever the
    line is, and the pairs [extract_orthologous_pairs] returns from a file
    are free of them and of carriage returns. *)
Theorem X2_identifiers_hold_no_delimiter :
  (forall input_file line (o o' : list tuple) (w w' : world),
      line_body input_file line (o, w) = (Ok tt, (o', w')) ->
      exists added,
        o' = o ++ added /\
        Forall (fun p => free_of delimiters p.1 /\ free_of delimiters p.2)
          added) /\
  (forall input_file w pairs w',
      extract_orthologous_pairs input_file w = (Ok pairs, w') ->
      Forall (fun p => free_of (CR :: delimiters) p.1 /\
                       free_of (CR :: delimiters) p.2) pairs).
Proof.
  split.
  - intros input_file line o o' w w' Hrun.
    destruct (passable_or_bad line) as [Hp|(Hh & Hlen & Hbad)].
    + rewrite (line_body_passable _ _ _ _ Hp) in Hrun.
      exists (line_pairs line). split; [by simplify_eq|].
      apply List.Forall_forall. intros p Hp'.
      apply line_pairs_in_row_pairs in Hp'.
      split; apply List.Forall_forall; intros c Hc;
        apply (row_pairs_free c line p); auto.
    + destruct (line_body_bad_token input_file line o w Hh Hlen Hbad)
        as [o'' Hr]. by rewrite Hr in Hrun.
  - intros input_file w pairs w' Hrun.
    rewrite (extract_ok_pairs _ _ _ _ Hrun). apply file_pairs_free.
Qed.

Lemma X2_witness :
  Forall (fun p => free_of (CR :: delimiters) p.1 /\
                   free_of (CR :: delimiters) p.2)
    [("P12345", "Q11111"); ("P67890", "Q11111")].
Proof.
  apply (proj2 X2_identifiers_hold_no_delimiter "Sp1__v__Sp2.tsv" qfo_world _
           (extract_orthologous_pairs "Sp1__v__Sp2.tsv" qfo_world).2).
  by vm_compute.
Defined.

(** X3. Pairs whose identifiers hold no newline, carriage return or tab are
    written as lines that read back as they were written: iterating over the
    written text gives one line per pair, and splitting each line as the
    extractor splits a row gives the two identifiers. The pairs that
    [extract_orthologous_pairs] returns are always of that kind. *)
Theorem X3_written_pairs_read_back :
  (forall pairs,
      Forall (fun p => free_of [LF; CR; TAB] p.1 /\ free_of [LF; CR; TAB] p.2)
        pairs ->
      Py.lines (pairs_text pairs) = map pair_line pairs /\
      map row_fields (Py.lines (pairs_text pairs))
      = map (fun p => [p.1; p.2]) pairs) /\
  (forall input_file w pairs w',
      extract_orthologous_pairs input_file w = (Ok pairs, w') ->
      map row_fields (Py.lines (pairs_text pairs))
      = map (fun p => [p.1; p.2]) pairs /\
      length (Py.lines (pairs_text pairs)) = length pairs).
Proof.
  split.
  - intros pairs H. destruct (pairs_text_lines pairs H) as [H1 H2].
    by rewrite H1.
  - intros input_file w pairs w' Hrun.
    assert (Forall (fun p => free_of [LF; CR; TAB] p.1 /\
                             free_of [LF; CR; TAB] p.2) pairs) as H.
    { rewrite (extract_ok_pairs _ _ _ _ Hrun).
      eapply Forall_impl; [apply file_pairs_free|].
      assert (forall c, In c [LF; CR; TAB] -> In c (CR :: delimiters)) as Hsub
        by (unfold delimiters; simpl; intuition).
      intros p [H1 H2]. split; by eapply free_of_sub. }
    destruct (pairs_text_lines pairs H) as [H1 H2].
    rewrite H1. split; [done|]. by rewrite length_map.
Qed.

Lemma X3_witness :
  map row_fields
    (Py.lines (pairs_text [("P12345", "Q11111"); ("P67890", "Q11111")]))
  = [["P12345"; "Q11111"]; ["P67890"; "Q11111"]].
Proof.
  apply (proj1 X3_written_pairs_read_back
           [("P12345", "Q11111"); ("P67890", "Q11111")]).
  decided.
Defined.

(** ** Properties of the writer *)

Lemma appended_appended (n : option node) (a b : string) :
  node_is_dir n = false ->
  appended (Some (Reg (appended n a))) b = appended n (a +:+ b).
Proof.
  destruct n as [[names|f]|]; intros H; try done; simpl;
    by rewrite ?string_app_assoc.
Qed.



(** X5. Two calls of [write_orthologous_pairs] on one output path that can
    be opened for appending leave the file system that one call with the two
    lists put together leaves. *)
Theorem X5_writes_compose :
  forall a b out w,
    can_append (fs w) out ->
    exists w1 w2 w12,
      write_orthologous_pairs a out w = (Ok tt, w1) /\
      write_orthologous_pairs b out w1 = (Ok tt, w2) /\
      write_orthologous_pairs (a ++ b) out w = (Ok tt, w12) /\
      fs w2 = fs w12.
Proof.
  intros a b out w Hc.
  destruct (write_pairs_ok a out w Hc) as (w1 & H1 & Hfs1 & _).
  assert (can_append (fs w1) out) as Hc1
    by (rewrite Hfs1; by apply can_append_appended).
  destruct (write_pairs_ok b out w1 Hc1) as (w2 & H2 & Hfs2 & _).
  destruct (write_pairs_ok (a ++ b) out w Hc) as (w12 & H12 & Hfs12 & _).
  exists w1, w2, w12. split_and!; try done.
  assert (fs w1 !! out
          = Some (Reg (appended (fs w !! out) (pairs_text a)))) as Hl
    by (by rewrite Hfs1, lookup_insert_eq).
  rewrite Hfs2, Hfs12. unfold listed at 1. rewrite Hl, Hfs1, insert_insert_eq.
  rewrite appended_appended by (by apply can_append_not_dir).
  by rewrite pairs_text_app.
Qed.

Lemma X5_witness :
  exists w1 w2,
    write_orthologous_pairs [("P12345", "Q11111")] "out.txt" (start empty_dir)
    = (Ok tt, w1) /\
    write_orthologous_pairs [("P67890", "Q11111")] "out.txt" w1 = (Ok tt, w2) /\
    fs w2
    = fs (write_orthologous_pairs [("P12345", "Q11111"); ("P67890", "Q11111")]
            "out.txt" (start empty_dir)).2.
Proof.
  destruct (X5_writes_compose [("P12345", "Q11111")] [("P67890", "Q11111")]
              "out.txt" (start empty_dir))
    as (w1 & w2 & w12 & H1 & H2 & H12 & Hfs).
  - by vm_compute.
  - exists w1, w2. split_and!; [done | done |].
    rewrite Hfs. symmetry. exact (f_equal (fun r => fs r.2) H12).
Defined.

(** ** Properties of the walk *)






(** ** What a run changes and what it leaves alone *)

(** X7. Whatever the root, the output path and the world, and whether it
    returns or raises, a run changes nothing at any path but the output path
    and, when it creates the output file, the listing of the directory the
    file is created in, which gets the name of the file; at the output path
    it only puts text behind the text that was there, never replaces a
    directory nor removes a file; and it only adds to the warnings and to the
    system calls made. *)
Theorem X7_run_only_extends :
  forall root out w,
    extends out w (process_orthofinder_predictions root out w).2.
Proof.
  intros root out w. unfold process_orthofinder_predictions.
  apply extends_bind; [apply extends_scandir|]. intros entries w1.
  apply extends_for_each. intros d w2. unfold dir_body.
  apply extends_bind; [apply extends_scandir|]. intros entries' w3.
  apply extends_for_each. intros f w4. unfold file_body.
  apply extends_bind; [apply extends_extract|]. intros pairs w5.
  apply extends_write.
Qed.




(** X9. [extract_orthologous_pairs] only reads: whatever it is given and
    however it ends, the file system is as it was, the one system call it
    makes is the opening of its file for reading, and it only adds to the
    warnings. *)
Theorem X9_extract_only_reads :
  forall input_file w,
    fs (extract_orthologous_pairs input_file w).2 = fs w /\
    trace (extract_orthologous_pairs input_file w).2
    = trace w ++ [Open input_file ModeR] /\
    exists msgs,
      warned (extract_orthologous_pairs input_file w).2 = warned w ++ msgs.
Proof.
  intros input_file w. rewrite extract_local. simpl. split_and!; try done.
  by eexists.
Qed.

(** X10. How [extract_orthologous_pairs] ends tells about the file. When it
    returns, it returns the pairs of the lines it read, and the file could not
    be opened or every line read was a header, a short row or a row of
    well-formed tokens. When it raises [IndexError], a row with a token
    without identifier came after such lines. It never raises the error of
    the operating system, which it catches. *)
Theorem X10_how_extract_ends :
  forall input_file w,
    (forall pairs,
        (extract_orthologous_pairs input_file w).1 = Ok pairs ->
        pairs = file_pairs (fs w) input_file /\ harmless (fs w) input_file) /\
    ((extract_orthologous_pairs input_file w).1 = Raise IndexError ->
     fatal (fs w) input_file) /\
    (extract_orthologous_pairs input_file w).1 <> Raise OSError.
Proof.
  intros input_file w. rewrite file_outcome_extract.
  destruct (harmless_or_fatal (fs w) input_file) as [Hh|Hf].
  - pose proof (harmless_outcome _ _ Hh) as Ho. rewrite Ho.
    split_and!; [| done | done]. intros pairs Hp. by simplify_eq.
  - pose proof (fatal_outcome _ _ Hf) as Ho. rewrite Ho.
    by split_and!.
Qed.

Lemma X10_witness :
  [("P12345", "Q11111"); ("P67890", "Q11111")]
  = file_pairs (fs qfo_world) "Sp1__v__Sp2.tsv" /\
  harmless (fs qfo_world) "Sp1__v__Sp2.tsv" /\
  fatal (fs bad_world) "preds/Sp1/Sp1__v__Sp2.tsv".
Proof.
  destruct (X10_how_extract_ends "Sp1__v__Sp2.tsv" qfo_world) as (Hok & _).
  destruct (X10_how_extract_ends "preds/Sp1/Sp1__v__Sp2.tsv" bad_world)
    as (_ & Hbad & _).
  destruct (Hok [("P12345", "Q11111"); ("P67890", "Q11111")]) as [H1 H2];
    [by vm_compute|].
  split_and!; [done | done |]. apply Hbad. by vm_compute.
Defined.

(** ** Rows *)

Lemma concat_cons2 (sep x y : string) (l : list string) :
  String.concat sep (x :: y :: l) = x +:+ sep +:+ String.concat sep (y :: l).
Proof. reflexivity. Qed.

Lemma concat_free c (fields : list string) :
  mentions c tabs = false ->
  Forall (fun f => mentions c f = false) fields ->
  mentions c (String.concat tabs fields) = false.
Proof.
  intros Hc. induction 1 as [|x l Hx Hl IH]; [done|].
  destruct l as [|y l]; [done|].
  by rewrite concat_cons2, !mentions_app, Hx, Hc, IH.
Qed.

Lemma split_concat (fields : list string) :
  fields <> [] ->
  Forall (fun f => mentions TAB f = false) fields ->
  Py.split TAB (String.concat tabs fields) = fields.
Proof.
  intros Hne H. induction H as [|x l Hx Hl IH]; [done|].
  destruct l as [|y l]; [by apply split_free|].
  rewrite concat_cons2.
  change (x +:+ tabs +:+ String.concat tabs (y :: l))
    with (x +:+ String TAB (String.concat tabs (y :: l))).
  by rewrite (split_app_sep _ _ _ Hx), IH.
Qed.

Lemma row_fields_row (fields : list string) :
  fields <> [] ->
  Forall (free_of [LF; TAB]) fields ->
  row_fields (row fields) = fields /\
  row_fields (row fields +:+ newline) = fields.
Proof.
  intros Hne H.
  assert (Forall (fun f => mentions LF f = false) fields) as HL.
  { eapply Forall_impl; [exact H|]. intros f Hf.
    unfold free_of in Hf. by apply Forall_cons in Hf as [? _]. }
  assert (Forall (fun f => mentions TAB f = false) fields) as HT.
  { eapply Forall_impl; [exact H|]. intros f Hf.
    unfold free_of in Hf. apply Forall_cons in Hf as [_ Hf].
    by apply Forall_cons in Hf as [? _]. }
  unfold row_fields, row.
  rewrite replace_app, (replace_free LF _ (concat_free LF fields eq_refl HL)).
  replace (Py.replace LF EmptyString newline) with EmptyString by reflexivity.
  rewrite string_app_nil_r. split; by apply split_concat.
Qed.

(** X11. A row built from a group label, a reference field, a target field
    and any further columns, none of them holding a tab or a newline, and
    joined with tabs, with or without its newline, is split into these very
    fields; when the marker is not in it, the line loop pairs the genes of
    the two fields and looks at nothing else: the label and the further
    columns play no part. *)
Theorem X11_only_fields_1_and_2_count :
  forall input_file label reference_field' target_field' further s,
    Forall (free_of [LF; TAB])
      (label :: reference_field' :: target_field' :: further) ->
    let line := row (label :: reference_field' :: target_field' :: further) in
    row_fields line = label :: reference_field' :: target_field' :: further /\
    row_fields (line +:+ newline)
    = label :: reference_field' :: target_field' :: further /\
    (~ is_header line ->
     line_body input_file line s
     = cross (gene_tokens reference_field') (gene_tokens target_field') s) /\
    (~ is_header (line +:+ newline) ->
     line_body input_file (line +:+ newline) s
     = cross (gene_tokens reference_field') (gene_tokens target_field') s).
Proof.
  intros input_file label f1 f2 further s Hfree line.
  destruct (row_fields_row (label :: f1 :: f2 :: further)) as [H1 H2];
    [done | done |].
  fold line in H1, H2. split_and!; [done | done | |].
  - intros Hh. rewrite line_body_cross; [| done | rewrite H1; simpl; lia].
    unfold reference_field, target_field. by rewrite H1.
  - intros Hh. rewrite line_body_cross; [| done | rewrite H2; simpl; lia].
    unfold reference_field, target_field. by rewrite H2.
Qed.

Lemma X11_witness :
  line_body "x.tsv"
    (row ["OG9"; "sp|P1|G1"; "sp|Q1|H1"; "extra"; "columns"] +:+ newline)
    ([], start ∅)
  = (Ok tt, ([("P1", "Q1")], start ∅)).
Proof.
  destruct (X11_only_fields_1_and_2_count "x.tsv" "OG9" "sp|P1|G1" "sp|Q1|H1"
              ["extra"; "columns"] ([], start ∅)) as (_ & _ & _ & H).
  - decided.
  - rewrite H; by vm_compute.
Defined.

(** ** Warnings and exit status *)

Lemma line_warnings_filter input_file (ls : list string) :
  flat_map (line_warnings input_file) ls
  = map (row_warning input_file)
      (List.filter (fun l => negb (Py.contains header_marker l)
                             && (length (row_fields l) <? 3)) ls).
Proof.
  induction ls as [|l ls IH]; [done|]. simpl. unfold line_warnings at 1.
  destruct (Py.contains header_marker l); simpl; [done|].
  destruct (length (row_fields l) <? 3); simpl; by rewrite IH.
Qed.

(** X12. From a file that is read to its end and has no row that stops the
    run, [extract_orthologous_pairs] gives one warning for each line that
    has fewer than three fields and does not hold the marker, in the order of
    the lines, and no other warning. *)
Theorem X12_one_warning_per_short_row :
  forall input_file w f,
    fs w !! input_file = Some (Reg f) ->
    readable f = true ->
    read_fault f = None ->
    Forall passable (Py.lines (text f)) ->
    warned (extract_orthologous_pairs input_file w).2
    = warned w
      ++ map (row_warning input_file)
           (List.filter (fun l => negb (Py.contains header_marker l)
                                  && (length (row_fields l) <? 3))
              (Py.lines (text f))).
Proof.
  intros input_file w f Hf Hr Hn Hp.
  assert (reader_of f = {| r_lines := Py.lines (text f); r_fault := false |})
    as Hrd by (unfold reader_of; by rewrite Hn).
  pose proof (extract_passable input_file w f Hf Hr) as Hx.
  rewrite Hrd in Hx. simpl in Hx. rewrite (Hx Hp). simpl.
  by rewrite app_nil_r, line_warnings_filter.
Qed.

Lemma X12_witness :
  warned (extract_orthologous_pairs "notes.tsv"
            (start {[ "notes.tsv" :=
                        Reg (plain_file ("a line" +:+ newline +:+ qfo_text
                                         +:+ newline +:+ newline)) ]})).2
  = ["There is an issue with file 'notes.tsv' in line '" +:+ "a line"
     +:+ newline +:+ "'.";
     "There is an issue with file 'notes.tsv' in line '" +:+ newline +:+ "'."].
Proof.
  rewrite (X12_one_warning_per_short_row "notes.tsv" _
             (plain_file ("a line" +:+ newline +:+ qfo_text
                          +:+ newline +:+ newline))).
  - by vm_compute.
  - by vm_compute.
  - reflexivity.
  - reflexivity.
  - decided.
Defined.

Lemma fatal_not_harmless m f : fatal m f -> ~ harmless m f.
Proof.
  intros Hf Hh. pose proof (fatal_outcome _ _ Hf) as Ho.
  by rewrite (harmless_outcome _ _ Hh) in Ho.
Qed.

Lemma files_outcome_cases m files :
  (Forall (harmless m) files /\ (files_outcome m files).1 = Ok tt) \/
  (Exists (fatal m) files /\ (files_outcome m files).1 = Raise IndexError).
Proof.
  induction files as [|f files IH]; [by left|]. simpl.
  destruct (harmless_or_fatal m f) as [Hh|Hf].
  - rewrite (harmless_outcome _ _ Hh).
    destruct (files_outcome m files) as [r written]. simpl in *.
    destruct IH as [[IH ->]|[IH ->]].
    + left. split; [by constructor | done].
    + right. split; [by apply Exists_cons_tl | done].
  - rewrite (fatal_outcome _ _ Hf). right. split; [by apply Exists_cons_hd | done].
Qed.

(** X13. When the root is a directory and the output can be appended to and
    is not among the inputs: a run that ends with exit status 0 had only
    harmless input files; an input file that has a row with a token without
    identifier after rows that are gone through makes the exit status 1; and
    a run that raises [IndexError] had such an input file. *)
Theorem X13_exit_status_and_bad_tokens :
  forall root out w names writable,
    fs w !! root = Some (Dir names writable) ->
    can_append (fs w) out ->
    out ∉ candidates (fs w) root ->
    ((main root out w).1 = 0 ->
     Forall (harmless (fs w)) (input_files (fs w) root)) /\
    (Exists (fatal (fs w)) (input_files (fs w) root) ->
     (main root out w).1 = 1) /\
    ((process_orthofinder_predictions root out w).1 = Raise IndexError ->
     Exists (fatal (fs w)) (input_files (fs w) root)).
Proof.
  intros root out w names wr Hroot Hc Hout.
  destruct (process_static out root (fs w) (can_append_not_dir _ _ Hc) Hout
              w names wr Hroot (inv_start _ _ Hc))
    as (w' & Hrun & _).
  unfold main. rewrite Hrun. simpl.
  destruct (files_outcome_cases (fs w) (input_files (fs w) root))
    as [[Hall ->]|[Hex ->]]; simpl.
  - split_and!; [done | | done]. intros Hex.
    apply Exists_exists in Hex as (f & Hin & Hf).
    exfalso. apply (fatal_not_harmless _ _ Hf).
    rewrite Forall_forall in Hall. by apply Hall.
  - by split_and!.
Qed.

Lemma X13_witness :
  Forall (harmless two_dirs) (input_files two_dirs "preds") /\
  (main "preds" "out.txt" bad_world).1 = 1.
Proof.
  split.
  - apply (proj1 (X13_exit_status_and_bad_tokens "preds" "out.txt"
                    (start two_dirs) ["Sp1"; "Sp2"; "top.tsv"] true
                    eq_refl ltac:(by vm_compute) ltac:(decided))).
    by vm_compute.
  - apply (proj1 (proj2 (X13_exit_status_and_bad_tokens "preds" "out.txt"
                    bad_world ["Sp1"] true
                    eq_refl ltac:(by vm_compute) ltac:(decided)))).
    apply Exists_cons_hd.
    exists (plain_file bad_text),
      [qfo_header +:+ newline; qfo_row +:+ newline], (bad_row +:+ newline), [].
    split_and!; [by vm_compute | done | by vm_compute | decided |].
    split_and!; [by vm_compute | vm_compute; lia |].
    apply Exists_cons_hd. vm_compute. lia.
Defined.

(** X14. A file that can be read to its end and in which every line holds
    the marker, an empty file among them, gives no pair and no warning; the
    file loop still opens the output for it, so that, when the output can be
    opened for appending, a regular file is there afterwards, created if
    there was none, with the text that was there. *)
Theorem X14_file_of_headers_gives_nothing :
  forall input_file out w f,
    fs w !! input_file = Some (Reg f) ->
    readable f = true ->
    read_fault f = None ->
    Forall is_header (Py.lines (text f)) ->
    extract_orthologous_pairs input_file w
    = (Ok [], log (Open input_file ModeR) w) /\
    (can_append (fs w) out ->
     exists w',
       file_body out input_file w = (Ok tt, w') /\
       warned w' = warned w /\
       node_is_file (fs w' !! out) = true /\
       text_at (fs w') out = text_at (fs w) out).
Proof.
  intros input_file out w f Hf Hr Hn Hh.
  assert (reader_of f = {| r_lines := Py.lines (text f); r_fault := false |})
    as Hrd by (unfold reader_of; by rewrite Hn).
  assert (Forall passable (Py.lines (text f))) as Hp
    by (eapply Forall_impl; [exact Hh | intros l Hl; by left]).
  assert (flat_map line_pairs (Py.lines (text f)) = [] /\
          flat_map (line_warnings input_file) (Py.lines (text f)) = [])
    as [Hpairs Hwarn].
  { clear Hp Hrd. induction Hh as [|l ls Hl _ [IH1 IH2]]; [done|].
    simpl. unfold line_pairs at 1, line_warnings at 1.
    unfold is_header in Hl. by rewrite Hl, IH1, IH2. }
  pose proof (extract_passable input_file w f Hf Hr) as Hx.
  rewrite Hrd in Hx. simpl in Hx. specialize (Hx Hp).
  rewrite Hpairs, Hwarn in Hx. simpl in Hx. rewrite add_warnings_nil in Hx.
  split; [done|]. intros Hc.
  destruct (write_pairs_ok [] out (log (Open input_file ModeR) w) Hc)
    as (w' & Hw & Hfs & Hwd & _).
  exists w'. split_and!.
  - unfold file_body. by rewrite (bind_ok _ _ _ _ _ Hx).
  - done.
  - rewrite Hfs. by rewrite lookup_insert_eq.
  - rewrite Hfs. simpl. rewrite text_at_appended by done.
    apply string_app_nil_r.
Qed.

Lemma X14_witness :
  extract_orthologous_pairs "empty.tsv"
    (start {[ "empty.tsv" := Reg (plain_file EmptyString) ]})
  = (Ok [], log (Open "empty.tsv" ModeR)
              (start {[ "empty.tsv" := Reg (plain_file EmptyString) ]})) /\
  (extract_orthologous_pairs "preds/Sp1/Sp1__v__Sp2.tsv" (start header_only)).1
  = Ok [].
Proof.
  split.
  - apply (X14_file_of_headers_gives_nothing "empty.tsv" "out.txt" _
             (plain_file EmptyString)); first [reflexivity | decided].
  - destruct (X14_file_of_headers_gives_nothing "preds/Sp1/Sp1__v__Sp2.tsv"
                "out.txt" (start header_only)
                (plain_file (qfo_header +:+ newline))) as [H _];
      [first [reflexivity | decided] .. |].
    by rewrite H.
Defined.

(** ** The system calls of a run *)

Lemma calls_within_refl out w : calls_within out w w.
Proof. exists []. by rewrite app_nil_r. Qed.

Lemma calls_within_trans out w1 w2 w3 :
  calls_within out w1 w2 -> calls_within out w2 w3 -> calls_within out w1 w3.
Proof.
  intros (c1 & H1 & Ha1) (c2 & H2 & Ha2). exists (c1 ++ c2).
  split; [by rewrite H2, H1, app_assoc | by apply Forall_app].
Qed.

Lemma calls_within_bind {A B} out (m : M world A) (k : A -> M world B) w
    (P : A -> Prop) :
  calls_within out w (m w).2 ->
  (forall a w1, m w = (Ok a, w1) -> P a) ->
  (forall a w1, P a -> calls_within out w1 (k a w1).2) ->
  calls_within out w (bind m k w).2.
Proof.
  intros Hm HP Hk. unfold bind. destruct (m w) as [[a|e] w1] eqn:E; [|done].
  simpl in Hm. eapply calls_within_trans; [exact Hm|]. apply Hk. by eapply HP.
Qed.

Lemma calls_within_for_each {A} out (xs : list A) (body : A -> M world unit) w :
  (forall x w1, In x xs -> calls_within out w1 (body x w1).2) ->
  calls_within out w (for_each xs body w).2.
Proof.
  revert w. induction xs as [|x xs IH]; intros w Hb.
  - apply calls_within_refl.
  - simpl. apply (calls_within_bind out _ _ w (fun _ => True)).
    + apply Hb. by left.
    + done.
    + intros _ w1 _. apply IH. intros y w2 Hy. apply Hb. by right.
Qed.

Lemma calls_within_scandir out p w : calls_within out w (scandir p w).2.
Proof.
  exists [Scandir p]. unfold scandir.
  split; [by destruct (fs w !! p) as [[|]|] | by repeat constructor].
Qed.

(** X15. Whatever the root, the output path and the world, and whether it
    returns or raises, the system calls of a run are listings of
    directories, openings for reading of paths that end in [.tsv], and
    openings for appending of the output path: no other path is opened for
    appending, and no path without the extension is opened at all. *)
Theorem X15_run_opens_only_tsv_and_output :
  forall root out w,
    exists calls,
      trace (process_orthofinder_predictions root out w).2 = trace w ++ calls /\
      forall c, In c calls ->
        match c with
        | Scandir _ => True
        | Open p ModeR => Py.endswith p ".tsv" = true
        | Open p ModeA => p = out
        end.
Proof.
  intros root out w.
  assert (calls_within out w (process_orthofinder_predictions root out w).2)
    as (calls & Ht & Ha).
  { unfold process_orthofinder_predictions.
    apply (calls_within_bind out _ _ w (fun _ => True));
      [apply calls_within_scandir | done |].
    intros entries w1 _. apply calls_within_for_each. intros d w2 _.
    unfold dir_body.
    apply (calls_within_bind out _ _ w2 (fun _ => True));
      [apply calls_within_scandir | done |].
    intros entries' w3 _. apply calls_within_for_each. intros f w4 Hf.
    apply in_map_iff in Hf as (e & <- & He).
    apply filter_In in He as [_ He]. unfold is_tsv in He.
    apply andb_true_iff in He as [_ He].
    unfold file_body.
    apply (calls_within_bind out _ _ w4 (fun _ => True)); [| done |].
    - rewrite extract_local. simpl. exists [Open (path e) ModeR].
      split; [done | by repeat constructor].
    - intros pairs w5 _.
      destruct (decide (can_append (fs w5) out)) as [Hc|Hc].
      + destruct (write_pairs_ok pairs out w5 Hc) as (w' & -> & _ & _ & Htr).
        exists [Open out ModeA]. split; [done | by repeat constructor].
      + rewrite (write_pairs_fail pairs out w5 Hc).
        exists [Open out ModeA]. split; [done | by repeat constructor]. }
  exists calls. split; [done|]. intros c Hc.
  rewrite List.Forall_forall in Ha. apply (Ha c Hc).
Qed.
